(** * Surf risk analyzer: the risk-scoring pipeline

    A shallow embedding of the scoring code of the repository:

    - [ml-model/predict_risk.py]: feature extraction from incident and
      hazard-report records, score synthesis from the classifier's output,
      and the batch updater;
    - [ml-model/calculate_skill_risk.py] and
      [surfapp--ml-engine/calculate_skill_risk.py]: per-tier scores, the
      per-tier threshold table and the weighted overall score;
    - [ml-model/train_model.py]: the rows and labels of the training frame;
    - [ml-model/analyze_hazard.py]: what is reported from the measurements
      taken on an image;
    - [ml-model/app.py]: the prediction and update routes;
    - [surfapp--ml-engine/import_incidents.py]: severities and the documents
      built from the rows of the CSV file.

    Python floats and numpy float64 values are binary64 numbers: they are
    modelled by Rocq's primitive floats, so every arithmetic step rounds as
    it does in the program.  Python ints are unbounded: they are [Z]. *)

From Stdlib Require Import ZArith List String Ascii Bool Lia Floats.
Import ListNotations.

(* Decimal literals such as 3.33 denote the nearest binary64 value, as they
   do in Python; the parser's notice about it is silenced. *)
Set Warnings "-inexact-float".

Local Open Scope Z_scope.

(** * Python values *)

Module Py.

(** Exceptions the modelled code can meet.  [KeyError] is what [d[key]]
    raises on a document that lacks the key; [ExternalError] stands for any
    exception raised by a collaborator (the classifier, the database). *)
Inductive exn : Type :=
| ZeroDivisionError
| IndexError
| KeyError (key : string)
| ExternalError (msg : string).

Inductive result (A : Type) : Type :=
| Ok (a : A)
| Raise (e : exn).
Arguments Ok {A} a.
Arguments Raise {A} e.

Definition bind {A B : Type} (c : result A) (k : A -> result B) : result B :=
  match c with
  | Ok a => k a
  | Raise e => Raise e
  end.

(** A Python number: an int or a float. *)
Inductive number : Type :=
| PyInt (z : Z)
| PyFloat (f : float).

(** The correctly rounded binary64 value of the ratio [n / d] of two
    positive integers, with sign [s]. *)
Definition ratio_to_SF (s : bool) (n d : positive) : spec_float :=
  let '(q, e, l) := SFdiv_core_binary prec emax (Zpos n) 0 (Zpos d) 0 in
  binary_round_aux prec emax s q e l.

Definition signed_zero (s : bool) : float :=
  if s then neg_zero else zero.

(** The ints that Python converts to a float: beyond them, [float(z)] and
    any arithmetic that mixes [z] with a float raise OverflowError. *)
Definition fits_float (z : Z) : Prop := Z.abs z < 2 ^ 1024 - 2 ^ 970.

(** [float(z)]: the nearest binary64 value, ties to even.  This is Python's
    conversion for the ints that satisfy [fits_float]; beyond them Python
    raises OverflowError where this function gives an infinity.  The ints
    converted by the scoring code are list lengths, table constants, 0 and
    10; a statement about arbitrary ints carries [fits_float] as a
    hypothesis. *)
Definition float_of_Z (z : Z) : float :=
  SF2Prim (binary_normalize prec emax z 0 false).

Definition to_float (a : number) : float :=
  match a with
  | PyInt z => float_of_Z z
  | PyFloat f => f
  end.

(** A number that arithmetic can mix with floats: any float, and an int
    that converts. *)
Definition number_fits (a : number) : Prop :=
  match a with
  | PyInt z => fits_float z
  | PyFloat _ => True
  end.

(** [a / b] on two ints with [b <> 0]: the correctly rounded quotient.
    Python raises OverflowError when that quotient is beyond the binary64
    range, where this function gives an infinity; with [fits_float a] the
    quotient is in range whatever [b] is. *)
Definition int_truediv (a b : Z) : float :=
  let s := xorb (a <? 0) (b <? 0) in
  match Z.abs a, Z.abs b with
  | Zpos n, Zpos d => SF2Prim (ratio_to_SF s n d)
  | _, _ => signed_zero s
  end.

Definition py_add (a b : number) : number :=
  match a, b with
  | PyInt x, PyInt y => PyInt (x + y)
  | _, _ => PyFloat (to_float a + to_float b)
  end.

Definition py_mul (a b : number) : number :=
  match a, b with
  | PyInt x, PyInt y => PyInt (x * y)
  | _, _ => PyFloat (to_float a * to_float b)
  end.

(** True division [a / b]; a zero divisor raises. *)
Definition py_truediv (a b : number) : result number :=
  match a, b with
  | PyInt x, PyInt y =>
      if y =? 0 then Raise ZeroDivisionError
      else Ok (PyFloat (int_truediv x y))
  | _, _ =>
      if (to_float b =? 0)%float then Raise ZeroDivisionError
      else Ok (PyFloat (to_float a / to_float b))
  end.

(** Python compares an int with a float by their exact values. *)
Definition cmp_int_float (z : Z) (f : float) : option comparison :=
  match Prim2SF f with
  | S754_nan => None
  | S754_infinity s => Some (if s then Gt else Lt)
  | S754_zero _ => Some (z ?= 0)
  | S754_finite s m e =>
      let v := cond_Zopp s (Zpos m) in
      Some (if 0 <=? e then z ?= v * 2 ^ e else z * 2 ^ (- e) ?= v)
  end.

Definition py_cmp (a b : number) : option comparison :=
  match a, b with
  | PyInt x, PyInt y => Some (x ?= y)
  | PyInt x, PyFloat g => cmp_int_float x g
  | PyFloat f, PyInt y => option_map CompOpp (cmp_int_float y f)
  | PyFloat f, PyFloat g => SFcompare (Prim2SF f) (Prim2SF g)
  end.

Definition py_eq (a b : number) : bool :=
  match a, b with
  | PyFloat f, PyFloat g => (f =? g)%float
  | _, _ => match py_cmp a b with Some Eq => true | _ => false end
  end.

Definition py_lt (a b : number) : bool :=
  match a, b with
  | PyFloat f, PyFloat g => (f <? g)%float
  | _, _ => match py_cmp a b with Some Lt => true | _ => false end
  end.

Definition py_le (a b : number) : bool :=
  match a, b with
  | PyFloat f, PyFloat g => (f <=? g)%float
  | _, _ => match py_cmp a b with Some (Lt | Eq) => true | _ => false end
  end.

Definition py_gt (a b : number) : bool := py_lt b a.

(** [min(a, b)]: the first argument unless the second is smaller. *)
Definition py_min (a b : number) : number :=
  if py_lt b a then b else a.

(** [n / d] rounded to the nearest integer, ties to even ([0 <= n], [0 < d]). *)
Definition round_half_even (n d : Z) : Z :=
  let q := n / d in
  match 2 * (n mod d) ?= d with
  | Lt => q
  | Gt => q + 1
  | Eq => if Z.even q then q else q + 1
  end.

(** [round(x, 2)] on a float: the exact value of [x] is rounded to two
    decimals (ties to even) and the nearest binary64 value of the decimal
    is returned; infinities and NaN round to themselves. *)
Definition float_round2 (x : float) : float :=
  match Prim2SF x with
  | S754_finite s m e =>
      if 0 <=? e then x
      else match round_half_even (Zpos m * 100) (2 ^ (- e)) with
           | Zpos n => SF2Prim (ratio_to_SF s n 100)
           | _ => signed_zero s
           end
  | _ => x
  end.

(** [round(a, 2)]: an int rounds to itself. *)
Definition py_round2 (a : number) : number :=
  match a with
  | PyInt z => PyInt z
  | PyFloat f => PyFloat (float_round2 f)
  end.

End Py.

Import Py.


(** * numpy scalars *)

Module Np.

(** int64 arithmetic wraps around. *)
Definition wrap64 (z : Z) : Z := (z + 2 ^ 63) mod 2 ^ 64 - 2 ^ 63.

(** [rint]: the nearest integer-valued float, ties to even. *)
Definition rint (x : float) : float :=
  match Prim2SF x with
  | S754_finite s m e =>
      if 0 <=? e then x
      else match round_half_even (Zpos m) (2 ^ (- e)) with
           | Zpos n => SF2Prim (binary_normalize prec emax (cond_Zopp s (Zpos n)) 0 false)
           | _ => signed_zero s
           end
  | _ => x
  end.

(** [round(x, 2)] on a float64 scalar: numpy scales, rounds to an integer
    and scales back. *)
Definition round2 (x : float) : float := (rint (x * 100) / 100)%float.

(** [np.clip(x, lo, hi)] on a float64 scalar: the minimum of [hi] and the
    maximum of [x] and [lo]; a NaN stays a NaN. *)
Definition maximum (a b : float) : float :=
  if is_nan a then a else if (b <? a)%float then a else b.

Definition minimum (a b : float) : float :=
  if is_nan a then a else if (a <? b)%float then a else b.

Definition clip (x lo hi : float) : float := minimum (maximum x lo) hi.

(** [a[i]] on a one-dimensional array: a negative index counts from the
    end, an index outside the array raises IndexError. *)
Definition getitem (a : list float) (i : Z) : result float :=
  let n := Z.of_nat (List.length a) in
  let j := if i <? 0 then i + n else i in
  if (0 <=? j) && (j <? n)
  then match nth_error a (Z.to_nat j) with
       | Some x => Ok x
       | None => Raise IndexError
       end
  else Raise IndexError.

End Np.

(** * Strings *)

Definition lower_ascii (c : ascii) : ascii :=
  let n := nat_of_ascii c in
  if ((65 <=? n) && (n <=? 90))%nat then ascii_of_nat (n + 32) else c.

(** [s.lower()] on ASCII text: the letters A to Z are mapped, every other
    byte is kept ([str.lower()] also maps letters outside ASCII). *)
Fixpoint lower (s : string) : string :=
  match s with
  | EmptyString => EmptyString
  | String c t => String (lower_ascii c) (lower t)
  end.

(** [needle in hay]. *)
Fixpoint contains (needle hay : string) : bool :=
  String.prefix needle hay ||
  match hay with
  | EmptyString => false
  | String _ t => contains needle t
  end.

(** [d.get(key) == value] on an optional string field. *)
Definition field_is (f : option string) (v : string) : bool :=
  match f with
  | Some s => String.eqb s v
  | None => false
  end.

(** * The document store *)

(** One historical incident (collection [incidents]), as the importer
    writes it: the site is there, and a field that is there holds a value
    of its type.  [None] is a field that is missing.  A stored null in
    [incidentType], on which the scoring code raises AttributeError, is not
    a document of this type. *)
Record Incident : Type := {
  i_site : string;
  i_severity : option string;
  i_incidentType : option string;
  i_month : option Z
}.

(** One user-submitted hazard report (collection [hazardreports]); dates
    are in milliseconds. *)
Record HazardReport : Type := {
  h_surfSpot : Z;
  h_reportDate : Z;
  h_status : option string;
  h_severity : option string
}.

(** One location of the registry (collection [surfspots]) that carries
    its name; documents without one are in [Documents.SpotDoc] below. *)
Record SurfSpot : Type := {
  s_id : Z;
  s_name : string;
  s_riskScore : option float;
  s_riskLevel : option string;
  s_flagColor : option string;
  s_lastUpdated : option Z
}.

Record Store : Type := {
  incidents_collection : list Incident;
  surf_spots_collection : list SurfSpot;
  hazard_reports_collection : list HazardReport
}.

(** [incidents_collection.find({'site': spot_name})] *)
Definition find_incidents (d : Store) (spot_name : string) : list Incident :=
  filter (fun i => String.eqb (i_site i) spot_name) (incidents_collection d).

(** [surf_spots_collection.find_one({'name': spot_name})] *)
Definition find_one_spot (d : Store) (spot_name : string) : option SurfSpot :=
  List.find (fun s => String.eqb (s_name s) spot_name) (surf_spots_collection d).

(** The hazard query: same spot, [reportDate >= since], status other than
    ["rejected"] (a report without a status matches [$ne]). *)
Definition recent_hazard (spot : Z) (since : Z) (h : HazardReport) : bool :=
  (h_surfSpot h =? spot) && (since <=? h_reportDate h)
  && negb (field_is (h_status h) "rejected").

Definition find_recent_hazards (d : Store) (spot : Z) (since : Z)
  : list HazardReport :=
  filter (recent_hazard spot since) (hazard_reports_collection d).

(** The fields written back by the batch updater. *)
Record SpotUpdate : Type := {
  u_riskScore : float;
  u_riskLevel : string;
  u_flagColor : string;
  u_lastUpdated : Z
}.

(** What the process prints. *)
Inductive Line : Type :=
| Banner (s : string)
| Updated (name : string) (score : float) (flag : string)
| ErrorUpdating (name : string) (e : exn).

(** The state a run acts on: the store and the console. *)
Record World : Type := {
  db : Store;
  stdout : list Line
}.

(** Computations that read and write the world and may raise; the world
    reached when an exception is raised is kept, as in Python. *)
Definition M (A : Type) : Type := World -> result A * World.

Definition ret {A : Type} (a : A) : M A := fun w => (Ok a, w).

Definition mbind {A B : Type} (c : M A) (k : A -> M B) : M B :=
  fun w =>
    match c w with
    | (Ok a, w') => k a w'
    | (Raise e, w') => (Raise e, w')
    end.

Notation "x <- c ;; k" := (mbind c (fun x => k))
  (at level 61, c at next level, right associativity).
Notation "c ;; k" := (mbind c (fun _ => k))
  (at level 61, right associativity).

Definition lift {A : Type} (r : result A) : M A := fun w => (r, w).

Definition get_db : M Store := fun w => (Ok (db w), w).

Definition print (l : Line) : M unit :=
  fun w => (Ok tt, {| db := db w; stdout := stdout w ++ [l] |}).

(** [try: body except Exception as e: handler(e)] *)
Definition try_except {A : Type} (body : M A) (handler : exn -> M A) : M A :=
  fun w =>
    match body w with
    | (Ok a, w') => (Ok a, w')
    | (Raise e, w') => handler e w'
    end.

(** [for x in xs: body(x)] *)
Fixpoint for_each {A : Type} (xs : list A) (body : A -> M unit) : M unit :=
  match xs with
  | [] => ret tt
  | x :: rest => body x ;; for_each rest body
  end.

(** * predict_risk.py *)

(** The feature dict handed to the classifier. *)
Record FeatureRecord : Type := {
  total_incidents : number;
  fatal_count : Z;
  severe_count : Z;
  moderate_count : Z;
  drowning_count : Z;
  reef_cut_count : Z;
  collision_count : Z;
  rip_current_count : Z;
  is_peak_season : Z;
  incidents_per_year : number
}.

Definition features_dict (f : FeatureRecord) : list (string * number) :=
  [ ("total_incidents", total_incidents f);
    ("fatal_count", PyInt (fatal_count f));
    ("severe_count", PyInt (severe_count f));
    ("moderate_count", PyInt (moderate_count f));
    ("drowning_count", PyInt (drowning_count f));
    ("reef_cut_count", PyInt (reef_cut_count f));
    ("collision_count", PyInt (collision_count f));
    ("rip_current_count", PyInt (rip_current_count f));
    ("is_peak_season", PyInt (is_peak_season f));
    ("incidents_per_year", incidents_per_year f) ]%string.

Fixpoint lookup (k : string) (d : list (string * number)) : option number :=
  match d with
  | [] => None
  | (k', v) :: rest => if String.eqb k' k then Some v else lookup k rest
  end.

(** The one-row frame [pd.DataFrame([features], columns=feature_cols)]: a
    column the dict lacks holds no value. *)
Definition Row : Type := list (string * option number).

Definition data_frame (features : FeatureRecord) (cols : list string) : Row :=
  map (fun c => (c, lookup c (features_dict features))) cols.

(** What [datetime.now()] reads: the time in milliseconds and the month. *)
Record Clock : Type := {
  now : Z;
  current_month : Z
}.

(** [timedelta(days=1)] *)
Definition one_day : Z := 86400000.

(** The dict returned by [predict_risk_score]. *)
Record Prediction : Type := {
  risk_score : float;
  risk_level : string;
  flag_color : string;
  confidence : float;
  has_recent_hazards : bool
}.

(** The JSON envelope of the request layer: [{success: True, data}] or
    [{success: False, message}]. *)
Inductive Envelope : Type :=
| Success (data : Prediction)
| Failure (message : exn).

(** [sum(1 for x in l if p(x))] *)
Definition count {A : Type} (p : A -> bool) (l : list A) : Z :=
  Z.of_nat (List.length (filter p l)).

(** What one recent hazard adds to the boost. *)
Definition hazard_weight (h : HazardReport) : number :=
  if field_is (h_severity h) "high" then PyInt 2
  else if field_is (h_severity h) "medium" then PyInt 1
  else PyFloat 0.5.

(** The loop over [recent_hazards], from [recent_hazard_boost = 0]. *)
Definition boost_loop (recent_hazards : list HazardReport) : number :=
  fold_left (fun boost h => py_add boost (hazard_weight h)) recent_hazards (PyInt 0).

(** [[i.get('month') for i in spot_incidents if i.get('month')]] *)
Definition incident_months (spot_incidents : list Incident) : list Z :=
  flat_map (fun i => match i_month i with
                     | Some m => if m =? 0 then [] else [m]
                     | None => []
                     end) spot_incidents.

(** Guard against an out-of-bounds index, then read the confidence. *)
Definition pick_confidence (risk_level_int : Z) (risk_level_proba : list float)
  : result float :=
  if Z.of_nat (List.length risk_level_proba) <=? risk_level_int
  then Np.getitem risk_level_proba 0
  else Np.getitem risk_level_proba risk_level_int.

(** [(risk_level_int + 1) * 3.33] on an int64 level. *)
Definition base_score (risk_level_int : Z) : float :=
  (float_of_Z (Np.wrap64 (risk_level_int + 1)) * 3.33)%float.

(** [(confidence - 0.5) * 2] *)
Definition confidence_adjustment (confidence : float) : float :=
  ((confidence - 0.5) * 2)%float.

(** The score before clipping. *)
Definition raw_risk_score (risk_level_int : Z) (confidence : float)
  (hazard_boost : number) : float :=
  (base_score risk_level_int + confidence_adjustment confidence
   + to_float hazard_boost)%float.

(** [risk_score] after [np.clip(risk_score, 0, 10)]. *)
Definition clipped_risk_score (risk_level_int : Z) (confidence : float)
  (hazard_boost : number) : float :=
  Np.clip (raw_risk_score risk_level_int confidence hazard_boost) 0 10.

(** The fixed thresholds of the synthesizer. *)
Definition fixed_level_and_flag (risk_score : float) : string * string :=
  if (risk_score <=? 3.3)%float then ("Low", "green")%string
  else if (risk_score <=? 6.6)%float then ("Medium", "yellow")%string
  else ("High", "red")%string.

Section PredictRisk.

(** The clock, the pickled column list and model, and the store's write
    operation are collaborators. *)
Variable clock : Clock.
Variable feature_cols : list string.
Variable rf_predict : Row -> result Z.
Variable rf_predict_proba : Row -> result (list float).
Variable update_one : Store -> Z -> SpotUpdate -> result unit * Store.

Definition calculate_spot_features (spot_name : string)
  : M (FeatureRecord * number) :=
  d <- get_db ;;
  let spot_incidents := find_incidents d spot_name in
  let total := Z.of_nat (List.length spot_incidents) in
  let fatal := count (fun i => field_is (i_severity i) "fatal") spot_incidents in
  let severe := count (fun i => field_is (i_severity i) "severe") spot_incidents in
  let moderate := count (fun i => field_is (i_severity i) "moderate") spot_incidents in
  let incident_types :=
    map (fun i => match i_incidentType i with
                  | Some t => t
                  | None => EmptyString
                  end) spot_incidents in
  let drowning := count (fun t => contains "drowning" (lower t)) incident_types in
  let reef_cut :=
    count (fun t => contains "reef" (lower t) || contains "cut" (lower t))
          incident_types in
  let collision := count (fun t => contains "collision" (lower t)) incident_types in
  let rip_current := count (fun t => contains "rip" (lower t)) incident_types in
  let yesterday := now clock - one_day in
  let recent_hazard_boost :=
    match find_one_spot d spot_name with
    | Some surf_spot =>
        boost_loop (find_recent_hazards d (s_id surf_spot) yesterday)
    | None => PyInt 0
    end in
  let peak :=
    if existsb (Z.eqb (current_month clock)) (incident_months spot_incidents)
    then 1 else 0 in
  per_year <- lift (py_truediv (PyInt total) (PyInt 10)) ;;
  ret ({| total_incidents :=
            py_add (PyInt total) (py_mul recent_hazard_boost (PyInt 5));
          fatal_count := fatal;
          severe_count := severe;
          moderate_count := moderate;
          drowning_count := drowning;
          reef_cut_count := reef_cut;
          collision_count := collision;
          rip_current_count := rip_current;
          is_peak_season := peak;
          incidents_per_year := per_year |},
       recent_hazard_boost).

Definition predict_risk_score (spot_name : string) : M Prediction :=
  fb <- calculate_spot_features spot_name ;;
  let '(features, hazard_boost) := fb in
  let X := data_frame features feature_cols in
  risk_level_int <- lift (rf_predict X) ;;
  risk_level_proba <- lift (rf_predict_proba X) ;;
  conf <- lift (pick_confidence risk_level_int risk_level_proba) ;;
  let score := clipped_risk_score risk_level_int conf hazard_boost in
  let '(level, flag) := fixed_level_and_flag score in
  ret {| risk_score := Np.round2 score;
         risk_level := level;
         flag_color := flag;
         confidence := Np.round2 conf;
         has_recent_hazards := py_gt hazard_boost (PyInt 0) |}.

(** The store's [update_one], run on the world's store. *)
Definition write_back (spot : SurfSpot) (u : SpotUpdate) : M unit :=
  fun w =>
    let '(r, d') := update_one (db w) (s_id spot) u in
    (r, {| db := d'; stdout := stdout w |}).

(** The body of the [try] block for one spot. *)
Definition update_spot (spot : SurfSpot) : M unit :=
  prediction <- predict_risk_score (s_name spot) ;;
  write_back spot {| u_riskScore := risk_score prediction;
                     u_riskLevel := risk_level prediction;
                     u_flagColor := flag_color prediction;
                     u_lastUpdated := now clock |} ;;
  print (Updated (s_name spot) (risk_score prediction) (flag_color prediction)).

(** The batch updater on a registry of named records whose listing
    succeeds; [Documents.update_all_risk_scores] below is the same loop on
    whatever the cursor yields. *)
Definition update_all_risk_scores : M unit :=
  print (Banner "Updating risk scores for all surf spots...") ;;
  d <- get_db ;;
  for_each (surf_spots_collection d)
    (fun spot =>
       try_except (update_spot spot)
                  (fun e => print (ErrorUpdating (s_name spot) e))) ;;
  print (Banner "Risk scores updated successfully!").

(** [app.py], route [/predict-risk/<spot_name>]: the prediction in a
    success envelope, or any exception as a failure envelope with status
    500. *)
Definition predict_risk (spot_name : string) : M (Z * Envelope) :=
  try_except
    (prediction <- predict_risk_score spot_name ;;
     ret (200, Success prediction))
    (fun e => ret (500, Failure e)).

End PredictRisk.

(** A store kept in memory: [update_one({'_id': id}, {'$set': u})] rewrites
    the first spot with that identifier and never fails. *)
Fixpoint set_spot (spots : list SurfSpot) (id : Z) (u : SpotUpdate)
  : list SurfSpot :=
  match spots with
  | [] => []
  | s :: rest =>
      if s_id s =? id
      then {| s_id := s_id s;
              s_name := s_name s;
              s_riskScore := Some (u_riskScore u);
              s_riskLevel := Some (u_riskLevel u);
              s_flagColor := Some (u_flagColor u);
              s_lastUpdated := Some (u_lastUpdated u) |} :: rest
      else s :: set_spot rest id u
  end.

Definition mem_update_one (d : Store) (id : Z) (u : SpotUpdate)
  : result unit * Store :=
  (Ok tt,
   {| incidents_collection := incidents_collection d;
      surf_spots_collection := set_spot (surf_spots_collection d) id u;
      hazard_reports_collection := hazard_reports_collection d |}).

(** ** The batch updater on the documents the cursor yields

    [update_all_risk_scores] above takes the registry as a list of typed
    records and its listing as given.  The collection itself holds
    documents: every one has an [_id], but the [name] may be missing, and
    the cursor of [find()] may fail while it is iterated.  The loop reads
    [spot['name']] inside the [try] and once more in the handler, and it
    iterates the cursor outside the [try]. *)

Module Documents.

(** A registry document, with or without its [name]. *)
Inductive SpotDoc : Type :=
| Named (spot : SurfSpot)
| Nameless (id : Z).

(** What iterating the cursor gives: the documents it yields, and the
    exception that ends the iteration early, if any. *)
Record Cursor : Type := {
  yielded : list SpotDoc;
  failure : option exn
}.

Section Batch.

Variable clock : Clock.
Variable feature_cols : list string.
Variable rf_predict : Row -> result Z.
Variable rf_predict_proba : Row -> result (list float).
Variable update_one : Store -> Z -> SpotUpdate -> result unit * Store.

(** [surf_spots_collection.find()] and its iteration. *)
Variable find : Store -> Cursor.

(** [spot['name']] *)
Definition name_of (doc : SpotDoc) : result string :=
  match doc with
  | Named spot => Ok (s_name spot)
  | Nameless _ => Raise (KeyError "name")
  end.

(** The body of the [try] block: its first step reads [spot['name']]. *)
Definition update_doc (doc : SpotDoc) : M unit :=
  match doc with
  | Named spot =>
      update_spot clock feature_cols rf_predict rf_predict_proba update_one spot
  | Nameless _ => lift (Raise (KeyError "name"))
  end.

(** The handler: [print(f"Error updating {spot['name']}: {e}")]. *)
Definition report_error (doc : SpotDoc) (e : exn) : M unit :=
  name <- lift (name_of doc) ;;
  print (ErrorUpdating name e).

Definition update_all_risk_scores : M unit :=
  print (Banner "Updating risk scores for all surf spots...") ;;
  d <- get_db ;;
  let surf_spots := find d in
  for_each (yielded surf_spots)
    (fun doc => try_except (update_doc doc) (report_error doc)) ;;
  match failure surf_spots with
  | Some e => lift (Raise e)
  | None => ret tt
  end ;;
  print (Banner "Risk scores updated successfully!").

End Batch.

(** The cursor over a registry of typed records. *)
Definition typed_cursor (d : Store) : Cursor :=
  {| yielded := map Named (surf_spots_collection d); failure := None |}.

End Documents.

Section LocationOutcome.

Variable clock : Clock.
Variable feature_cols : list string.
Variable rf_predict : Row -> result Z.
Variable rf_predict_proba : Row -> result (list float).
Variable update_one : Store -> Z -> SpotUpdate -> result unit * Store.

(** What handling one location is expected to leave behind, in terms of
    the two collaborators: the prediction written and its line printed; or,
    when the prediction or the write raises, that exception printed for the
    location, with nothing else undone or skipped. *)
Definition location_outcome (w : World) (spot : SurfSpot) : World :=
  match predict_risk_score clock feature_cols rf_predict rf_predict_proba
                           (s_name spot) w with
  | (Ok prediction, _) =>
      match update_one (db w) (s_id spot)
                       {| u_riskScore := risk_score prediction;
                          u_riskLevel := risk_level prediction;
                          u_flagColor := flag_color prediction;
                          u_lastUpdated := now clock |} with
      | (Ok _, d') =>
          {| db := d';
             stdout := stdout w
                       ++ [Updated (s_name spot) (risk_score prediction)
                                   (flag_color prediction)] |}
      | (Raise e, d') =>
          {| db := d';
             stdout := stdout w ++ [ErrorUpdating (s_name spot) e] |}
      end
  | (Raise e, _) =>
      {| db := db w; stdout := stdout w ++ [ErrorUpdating (s_name spot) e] |}
  end.

(** The world once the opening banner is printed, and once the closing one
    is. *)
Definition batch_opened (w : World) : World :=
  {| db := db w;
     stdout := stdout w ++ [Banner "Updating risk scores for all surf spots..."] |}.

Definition batch_closed (w : World) : World :=
  {| db := db w;
     stdout := stdout w ++ [Banner "Risk scores updated successfully!"] |}.

End LocationOutcome.

(** * calculate_skill_risk.py *)

(** Skill-specific thresholds; the table is the same in both copies of the
    script. *)
Record Thresholds : Type := {
  low : float;
  medium : float
}.

Definition SKILL_THRESHOLDS : list (string * Thresholds) :=
  [ ("beginner", {| low := 5.0; medium := 6.5 |});
    ("intermediate", {| low := 6.0; medium := 7.2 |});
    ("advanced", {| low := 7.0; medium := 8.0 |}) ]%string.

Fixpoint dict_get {V : Type} (d : list (string * V)) (k : string) (default : V) : V :=
  match d with
  | [] => default
  | (k', v) :: rest => if String.eqb k' k then v else dict_get rest k default
  end.

(** [SKILL_THRESHOLDS['beginner']] *)
Definition beginner_thresholds : Thresholds := {| low := 5.0; medium := 6.5 |}.

Definition get_risk_level_and_flag (score : number) (skill_level : string)
  : string * string :=
  let thresholds := dict_get SKILL_THRESHOLDS skill_level beginner_thresholds in
  if py_le score (PyFloat (low thresholds)) then ("Low", "green")%string
  else if py_le score (PyFloat (medium thresholds)) then ("Medium", "yellow")%string
  else ("High", "red")%string.

(** Score, level and flag of one tier (or of the overall risk). *)
Record TierRisk : Type := {
  t_score : number;
  t_level : string;
  t_flag : string
}.

(** The weighted average written in both copies of the script. *)
Definition weighted_average (beginner_score intermediate_score advanced_score : number)
  : number :=
  py_add (py_add (py_mul beginner_score (PyFloat 0.5))
                 (py_mul intermediate_score (PyFloat 0.3)))
         (py_mul advanced_score (PyFloat 0.2)).

(** ** ml-model/calculate_skill_risk.py: scores from incident counts *)

Module SkillRiskModel.

Record SpotCounts : Type := {
  total : Z;
  advanced : Z;
  beginner : Z;
  intermediate : Z
}.

Definition RISK_DATA : list (string * SpotCounts) :=
  [ ("Hikkaduwa", {| total := 425; advanced := 20; beginner := 142; intermediate := 50 |});
    ("Matara", {| total := 324; advanced := 5; beginner := 124; intermediate := 14 |});
    ("Trincomalee", {| total := 298; advanced := 5; beginner := 74; intermediate := 19 |});
    ("Arugam Bay", {| total := 293; advanced := 50; beginner := 69; intermediate := 34 |});
    ("Unawatuna", {| total := 292; advanced := 45; beginner := 102; intermediate := 33 |});
    ("Midigama", {| total := 256; advanced := 44; beginner := 63; intermediate := 68 |});
    ("Point Pedro", {| total := 239; advanced := 0; beginner := 82; intermediate := 0 |});
    ("Ahangama", {| total := 237; advanced := 31; beginner := 66; intermediate := 54 |});
    ("Mirissa", {| total := 224; advanced := 32; beginner := 55; intermediate := 81 |});
    ("Kalpitiya", {| total := 210; advanced := 0; beginner := 73; intermediate := 0 |});
    ("Thalpe", {| total := 209; advanced := 40; beginner := 62; intermediate := 23 |});
    ("Weligama", {| total := 200; advanced := 27; beginner := 87; intermediate := 18 |}) ]%string.

Definition calculate_risk_score (incidents_count max_incidents skill_multiplier : number)
  : result number :=
  if py_eq max_incidents (PyInt 0) then Ok (PyInt 0)
  else
    Py.bind (py_truediv incidents_count max_incidents) (fun ratio =>
    let base_score := py_mul ratio (PyInt 10) in
    let risk_score := py_mul base_score skill_multiplier in
    let risk_score := py_min (PyInt 10) risk_score in
    Ok (py_round2 risk_score)).

(** One entry of the result list. *)
Record SpotRisk : Type := {
  spot_name : string;
  r_total_incidents : Z;
  overall : TierRisk;
  r_beginner : Z * TierRisk;
  r_intermediate : Z * TierRisk;
  r_advanced : Z * TierRisk
}.

(** [max([...])] over a column of the table. *)
Definition column_max (column : SpotCounts -> Z) (table : list (string * SpotCounts)) : Z :=
  match map (fun row => column (snd row)) table with
  | [] => 0
  | x :: rest => fold_left Z.max rest x
  end.

Definition beginner_multiplier : number := PyFloat 1.5.
Definition intermediate_multiplier : number := PyFloat 1.0.
Definition advanced_multiplier : number := PyFloat 0.7.

(** The body of the loop over [RISK_DATA.items()]. *)
Definition spot_risk (max_beginner max_intermediate max_advanced : Z)
  (name : string) (data : SpotCounts) : result SpotRisk :=
  Py.bind (calculate_risk_score (PyInt (beginner data)) (PyInt max_beginner)
                                beginner_multiplier) (fun beginner_score =>
  Py.bind (calculate_risk_score (PyInt (intermediate data)) (PyInt max_intermediate)
                                intermediate_multiplier) (fun intermediate_score =>
  Py.bind (calculate_risk_score (PyInt (advanced data)) (PyInt max_advanced)
                                advanced_multiplier) (fun advanced_score =>
  let '(beginner_level, beginner_flag) :=
    get_risk_level_and_flag beginner_score "beginner" in
  let '(intermediate_level, intermediate_flag) :=
    get_risk_level_and_flag intermediate_score "intermediate" in
  let '(advanced_level, advanced_flag) :=
    get_risk_level_and_flag advanced_score "advanced" in
  let overall_score :=
    weighted_average beginner_score intermediate_score advanced_score in
  let '(overall_level, overall_flag) :=
    get_risk_level_and_flag overall_score "beginner" in
  Ok {| spot_name := name;
        r_total_incidents := total data;
        overall := {| t_score := py_round2 overall_score;
                      t_level := overall_level;
                      t_flag := overall_flag |};
        r_beginner := (beginner data,
                       {| t_score := beginner_score;
                          t_level := beginner_level;
                          t_flag := beginner_flag |});
        r_intermediate := (intermediate data,
                           {| t_score := intermediate_score;
                              t_level := intermediate_level;
                              t_flag := intermediate_flag |});
        r_advanced := (advanced data,
                       {| t_score := advanced_score;
                          t_level := advanced_level;
                          t_flag := advanced_flag |}) |}))).

(** [results.append(result)] for every row, in the table's order. *)
Fixpoint collect {A B : Type} (f : A -> result B) (l : list A) : result (list B) :=
  match l with
  | [] => Ok []
  | x :: rest =>
      Py.bind (f x) (fun y => Py.bind (collect f rest) (fun ys => Ok (y :: ys)))
  end.

Definition calculate_skill_based_risks : result (list SpotRisk) :=
  let max_beginner := column_max beginner RISK_DATA in
  let max_intermediate := column_max intermediate RISK_DATA in
  let max_advanced := column_max advanced RISK_DATA in
  collect (fun row => spot_risk max_beginner max_intermediate max_advanced
                                (fst row) (snd row)) RISK_DATA.

End SkillRiskModel.

(** ** surfapp--ml-engine/calculate_skill_risk.py: scores supplied directly *)

Module SkillRiskEngine.

Record ManualScores : Type := {
  beginner : float;
  intermediate : float;
  advanced : float
}.

Definition MANUAL_RISK_SCORES : list (string * ManualScores) :=
  [ ("Hikkaduwa", {| beginner := 7.5; intermediate := 7.5; advanced := 3.0 |});
    ("Midigama", {| beginner := 7.0; intermediate := 7.3; advanced := 4.0 |});
    ("Mirissa", {| beginner := 6.6; intermediate := 6.8; advanced := 5.0 |});
    ("Unawatuna", {| beginner := 8.0; intermediate := 7.4; advanced := 6.0 |});
    ("Ahangama", {| beginner := 6.0; intermediate := 6.5; advanced := 4.0 |});
    ("Arugam Bay", {| beginner := 5.5; intermediate := 6.3; advanced := 5.0 |});
    ("Matara", {| beginner := 6.2; intermediate := 5.5; advanced := 3.0 |});
    ("Thalpe", {| beginner := 5.8; intermediate := 5.8; advanced := 4.0 |});
    ("Weligama", {| beginner := 6.3; intermediate := 6.7; advanced := 4.5 |});
    ("Kalpitiya", {| beginner := 3.5; intermediate := 4.0; advanced := 3.0 |});
    ("Point Pedro", {| beginner := 4.0; intermediate := 4.5; advanced := 3.5 |});
    ("Trincomalee", {| beginner := 4.5; intermediate := 5.0; advanced := 4.0 |}) ]%string.

Record SpotRisk : Type := {
  spot_name : string;
  overall : TierRisk;
  r_beginner : TierRisk;
  r_intermediate : TierRisk;
  r_advanced : TierRisk
}.

(** The body of the loop over [MANUAL_RISK_SCORES.items()]. *)
Definition spot_risk (name : string) (scores : ManualScores) : SpotRisk :=
  let beginner_score := PyFloat (beginner scores) in
  let intermediate_score := PyFloat (intermediate scores) in
  let advanced_score := PyFloat (advanced scores) in
  let '(beginner_level, beginner_flag) :=
    get_risk_level_and_flag beginner_score "beginner" in
  let '(intermediate_level, intermediate_flag) :=
    get_risk_level_and_flag intermediate_score "intermediate" in
  let '(advanced_level, advanced_flag) :=
    get_risk_level_and_flag advanced_score "advanced" in
  let overall_score :=
    weighted_average beginner_score intermediate_score advanced_score in
  let '(overall_level, overall_flag) :=
    get_risk_level_and_flag overall_score "beginner" in
  {| spot_name := name;
     overall := {| t_score := py_round2 overall_score;
                   t_level := overall_level;
                   t_flag := overall_flag |};
     r_beginner := {| t_score := beginner_score;
                      t_level := beginner_level;
                      t_flag := beginner_flag |};
     r_intermediate := {| t_score := intermediate_score;
                          t_level := intermediate_level;
                          t_flag := intermediate_flag |};
     r_advanced := {| t_score := advanced_score;
                      t_level := advanced_level;
                      t_flag := advanced_flag |} |}.

Definition calculate_skill_based_risks : list SpotRisk :=
  map (fun row => spot_risk (fst row) (snd row)) MANUAL_RISK_SCORES.

End SkillRiskEngine.

(** The cut-offs as the specification tabulates them: tier, the bound of
    Low and the bound of Medium. *)
Definition spec_cutoffs : list (string * (float * float)) :=
  [ ("beginner", (5.0, 6.5));
    ("intermediate", (6.0, 7.2));
    ("advanced", (7.0, 8.0)) ]%string%float.

(** The per-tier score as the specification words it:
    [10 x count / maximum x multiplier], capped at 10 from above. *)
Definition spec_tier_score (count maximum : Z) (multiplier : float) : number :=
  let product := (int_truediv (10 * count) maximum * multiplier)%float in
  if (product <=? 10)%float then PyFloat product else PyFloat 10.

(** The recency boost as the specification words it: the sum, over the
    reports of the location dated within the last 24 hours whose status is
    not "rejected", of 2 for a high severity, 1 for a medium one and 0.5
    otherwise.  (Python's [2] and [2.0] are the same number; the weights are
    written as the program adds them.) *)
Definition spec_weight (h : HazardReport) : number :=
  if field_is (h_severity h) "high" then PyInt 2
  else if field_is (h_severity h) "medium" then PyInt 1
  else PyFloat 0.5.

(** [sum(l)] *)
Definition py_sum (l : list number) : number := fold_left py_add l (PyInt 0).

Definition spec_recency_boost (time spot : Z) (reports : list HazardReport) : number :=
  py_sum (map spec_weight
              (filter (fun h => (h_surfSpot h =? spot)
                                && (time - one_day <=? h_reportDate h)
                                && negb (field_is (h_status h) "rejected"))
                      reports)).

(** ** Sample data *)

Definition sample_clock : Clock :=
  {| now := 1762128000000; current_month := 11 |}.

Definition sample_store : Store :=
  {| incidents_collection :=
       [ {| i_site := "Hikkaduwa"; i_severity := Some "fatal"%string;
            i_incidentType := Some "Drowning"%string; i_month := Some 11 |};
         {| i_site := "Hikkaduwa"; i_severity := Some "moderate"%string;
            i_incidentType := Some "Reef cut"%string; i_month := Some 3 |};
         {| i_site := "Midigama"; i_severity := Some "severe"%string;
            i_incidentType := Some "Board collision"%string; i_month := None |} ];
     surf_spots_collection :=
       [ {| s_id := 1; s_name := "Hikkaduwa"; s_riskScore := None;
            s_riskLevel := None; s_flagColor := None; s_lastUpdated := None |};
         {| s_id := 2; s_name := "Weligama"; s_riskScore := None;
            s_riskLevel := None; s_flagColor := None; s_lastUpdated := None |} ];
     hazard_reports_collection :=
       [ {| h_surfSpot := 1; h_reportDate := 1762124400000;
            h_status := Some "pending"%string; h_severity := Some "high"%string |};
         {| h_surfSpot := 1; h_reportDate := 1761955200000;
            h_status := Some "verified"%string; h_severity := Some "high"%string |};
         {| h_surfSpot := 1; h_reportDate := 1762124400000;
            h_status := Some "rejected"%string; h_severity := Some "medium"%string |} ] |}.

Definition sample_world : World := {| db := sample_store; stdout := [] |}.

Definition sample_cols : list string :=
  [ "total_incidents"; "fatal_count"; "severe_count"; "moderate_count";
    "drowning_count"; "reef_cut_count"; "collision_count"; "rip_current_count";
    "is_peak_season"; "incidents_per_year" ]%string.

(** A classifier that answers level 1 with probabilities 0.2, 0.7, 0.1. *)
Definition sample_predict (X : Row) : result Z := Ok 1.
Definition sample_predict_proba (X : Row) : result (list float) :=
  Ok [0.2; 0.7; 0.1]%float.

(** * Further parts of the code *)

(** A binary64 value of sign [s] that is a normal number (53 digits) or an
    infinity: neither a zero, a subnormal nor a NaN. *)
Definition normal_or_inf (s : bool) (x : spec_float) : bool :=
  match x with
  | S754_finite s' m e =>
      Bool.eqb s' s && (Zpos (digits2_pos m) =? 53) && (-1074 <=? e)
  | S754_infinity s' => Bool.eqb s' s
  | _ => false
  end.

(** The order of the three levels: Low < Medium < High. *)
Definition level_rank (level : string) : Z :=
  if String.eqb level "Low" then 0
  else if String.eqb level "Medium" then 1
  else 2.

(** ** ml-model/calculate_skill_risk.py, [generate_risk_summary]: the
    counts per level printed for each skill *)

Module SkillRiskSummary.

(** [r[skill]] for the three skills of the loop. *)
Definition tier_of (r : SkillRiskModel.SpotRisk) (skill : string) : TierRisk :=
  if String.eqb skill "beginner" then snd (SkillRiskModel.r_beginner r)
  else if String.eqb skill "intermediate" then snd (SkillRiskModel.r_intermediate r)
  else snd (SkillRiskModel.r_advanced r).

(** [sum(1 for r in results if r[skill]['level'] == level)] *)
Definition level_count (results : list SkillRiskModel.SpotRisk) (skill level : string) : Z :=
  count (fun r => String.eqb (t_level (tier_of r skill)) level) results.

(** The loop over the three skills: high, medium and low counts. *)
Definition risk_level_distribution (results : list SkillRiskModel.SpotRisk)
  : list (string * (Z * Z * Z)) :=
  map (fun skill => (skill, (level_count results skill "High",
                              level_count results skill "Medium",
                              level_count results skill "Low")))
      ["beginner"; "intermediate"; "advanced"]%string.

End SkillRiskSummary.

(** * import_incidents.py *)

Module ImportIncidents.

(** [any(keyword in text for keyword in keywords)] *)
Definition any_keyword (keywords : list string) (text : string) : bool :=
  existsb (fun keyword => contains keyword text) keywords.

Definition fatal_keywords : list string :=
  ["drowning"; "drowned"; "fatal"; "death"; "died"]%string.
Definition severe_keywords : list string :=
  ["fracture"; "broken"; "severe"; "hospital"; "emergency"]%string.
Definition moderate_keywords : list string :=
  ["injury"; "laceration"; "strain"; "sprain"; "cut"; "contusion"]%string.

Definition categorize_severity (incident_type : string) : string :=
  let incident_lower := lower incident_type in
  if any_keyword fatal_keywords incident_lower then "fatal"
  else if any_keyword severe_keywords incident_lower then "severe"
  else if any_keyword moderate_keywords incident_lower then "moderate"
  else "minor".

Definition get_season (month : Z) : string :=
  if existsb (Z.eqb month) [12; 1; 2] then "Northeast Monsoon"
  else if existsb (Z.eqb month) [3; 4; 5] then "Inter-Monsoon (Spring)"
  else if existsb (Z.eqb month) [6; 7; 8; 9] then "Southwest Monsoon"
  else "Inter-Monsoon (Fall)".

(** The ASCII characters that [str.strip()] removes ([str.strip()] also
    removes the white space outside ASCII, such as U+00A0). *)
Definition is_space (c : ascii) : bool :=
  let n := nat_of_ascii c in
  (((9 <=? n) && (n <=? 13)) || ((28 <=? n) && (n <=? 32)))%nat.

Fixpoint lstrip (s : string) : string :=
  match s with
  | EmptyString => EmptyString
  | String c t => if is_space c then lstrip t else s
  end.

Fixpoint rstrip (s : string) : string :=
  match s with
  | EmptyString => EmptyString
  | String c t =>
      match rstrip t with
      | EmptyString => if is_space c then EmptyString else String c EmptyString
      | t' => String c t'
      end
  end.

(** [s.strip()] *)
Definition strip (s : string) : string := rstrip (lstrip s).

(** A cell of the CSV frame: a string, or nothing (pandas' NaN). *)
Definition Cell : Type := option string.

(** [str(cell)] *)
Definition cell_str (c : Cell) : string :=
  match c with
  | Some s => s
  | None => "nan"
  end.

(** [str(cell) if pd.notna(cell) else ''] *)
Definition cell_or_empty (c : Cell) : string :=
  match c with
  | Some s => s
  | None => EmptyString
  end.

Record CsvRow : Type := {
  c_Date : Cell;
  c_Location : Cell;
  c_Site : Cell;
  c_IncidentType : Cell;
  c_VictimDetails : Cell;
  c_Circumstances : Cell;
  c_Source : Cell
}.

(** What the importer reads off a parsed date. *)
Record ParsedDate : Type := {
  d_year : Z;
  d_month : Z
}.

(** The document inserted for one row. *)
Record IncidentDoc : Type := {
  doc_date : option ParsedDate;
  doc_location : string;
  doc_site : string;
  doc_incidentType : string;
  doc_victimDetails : string;
  doc_circumstances : string;
  doc_source : string;
  doc_severity : string;
  doc_month : option Z;
  doc_year : option Z;
  doc_season : option string
}.

(** The dict built in the loop of [import_incidents], given what
    [parse_date] returned for the row's date. *)
Definition incident_doc (row : CsvRow) (incident_date : option ParsedDate) : IncidentDoc :=
  {| doc_date := incident_date;
     doc_location := strip (cell_str (c_Location row));
     doc_site := strip (cell_str (c_Site row));
     doc_incidentType := strip (cell_str (c_IncidentType row));
     doc_victimDetails := cell_or_empty (c_VictimDetails row);
     doc_circumstances := cell_or_empty (c_Circumstances row);
     doc_source := cell_or_empty (c_Source row);
     doc_severity := categorize_severity (cell_str (c_IncidentType row));
     doc_month := option_map d_month incident_date;
     doc_year := option_map d_year incident_date;
     doc_season := option_map (fun d => get_season (d_month d)) incident_date |}.

(** The fields of a stored document that the scoring code reads. *)
Definition as_incident (doc : IncidentDoc) : Incident :=
  {| i_site := doc_site doc;
     i_severity := Some (doc_severity doc);
     i_incidentType := Some (doc_incidentType doc);
     i_month := doc_month doc |}.

End ImportIncidents.

(** Severities in increasing order of gravity. *)
Definition severity_rank (severity : string) : Z :=
  if String.eqb severity "fatal" then 3
  else if String.eqb severity "severe" then 2
  else if String.eqb severity "moderate" then 1
  else 0.

(** An in-memory [insert_one] on the incidents collection. *)
Definition mem_insert_one (d : Store) (doc : ImportIncidents.IncidentDoc)
  : result unit * Store :=
  (Ok tt,
   {| incidents_collection :=
        incidents_collection d ++ [ImportIncidents.as_incident doc];
      surf_spots_collection := surf_spots_collection d;
      hazard_reports_collection := hazard_reports_collection d |}).

(** [incidents_collection.delete_many({})] *)
Definition delete_all_incidents (d : Store) : Store :=
  {| incidents_collection := [];
     surf_spots_collection := surf_spots_collection d;
     hazard_reports_collection := hazard_reports_collection d |}.

Section ImportLoop.

(** [parse_date] handles its own errors and returns a date or nothing;
    the store's [insert_one] may fail. *)
Variable parse_date : ImportIncidents.Cell -> option ImportIncidents.ParsedDate.
Variable insert_one :
  Store -> ImportIncidents.IncidentDoc -> result unit * Store.

(** One turn of the loop: a row whose insert raises is reported and
    skipped. *)
Definition import_row (st : Z * Store) (row : ImportIncidents.CsvRow)
  : Z * Store :=
  let '(imported_count, d) := st in
  let incident_date := parse_date (ImportIncidents.c_Date row) in
  match insert_one d (ImportIncidents.incident_doc row incident_date) with
  | (Ok _, d') => (imported_count + 1, d')
  | (Raise _, d') => (imported_count, d')
  end.

(** [import_incidents()] on the rows of the CSV frame: the number of
    imported rows and the store afterwards. *)
Definition import_incidents (rows : list ImportIncidents.CsvRow) (d : Store)
  : Z * Store :=
  fold_left import_row rows (0, delete_all_incidents d).

End ImportLoop.

(** A one-row CSV frame and its import into the sample store. *)
Definition sample_rows : list ImportIncidents.CsvRow :=
  [ {| ImportIncidents.c_Date := None;
       ImportIncidents.c_Location := Some "Southern Province"%string;
       ImportIncidents.c_Site := Some " Hikkaduwa "%string;
       ImportIncidents.c_IncidentType := Some "Near-DROWNING (reef) "%string;
       ImportIncidents.c_VictimDetails := None;
       ImportIncidents.c_Circumstances := None;
       ImportIncidents.c_Source := None |} ].

Definition sample_import : Z * Store :=
  import_incidents (fun _ => None) mem_insert_one sample_rows sample_store.

(** * train_model.py *)

Module TrainModel.

(** [max(a, b)]: the first argument unless the second is greater. *)
Definition py_max (a b : number) : number :=
  if py_gt b a then b else a.

Definition occurrences (m : Z) (l : list Z) : nat := count_occ Z.eq_dec l m.

Definition max_occurrences (l : list Z) : nat :=
  fold_right (fun m acc => Nat.max (occurrences m l) acc) 0%nat l.

Fixpoint insert_sorted (m : Z) (l : list Z) : list Z :=
  match l with
  | [] => [m]
  | x :: t => if m <=? x then m :: l else x :: insert_sorted m t
  end.

Definition sort_values (l : list Z) : list Z := fold_right insert_sorted [] l.

(** [pd.Series(l).mode().tolist()]: the most frequent values, ascending. *)
Definition mode (l : list Z) : list Z :=
  sort_values
    (filter (fun m => (occurrences m l =? max_occurrences l)%nat)
            (nodup Z.eq_dec l)).

(** One row of the training frame. *)
Record TrainingRow : Type := {
  tr_surf_spot : string;
  tr_total_incidents : Z;
  tr_fatal_count : Z;
  tr_severe_count : Z;
  tr_moderate_count : Z;
  tr_drowning_count : Z;
  tr_reef_cut_count : Z;
  tr_collision_count : Z;
  tr_rip_current_count : Z;
  tr_is_peak_season : Z;
  tr_incidents_per_year : number;
  tr_risk_score : number;
  tr_risk_level : Z
}.

(** The target variable: the weighted counts over
    [max(1, len(spot_incidents) / 10)], capped at 10. *)
Definition target_score
  (fatal severe moderate drowning reef_cut rip_current collision n : Z)
  : result number :=
  let weighted :=
    py_add (py_add (py_add (py_add (py_add (py_add
      (py_mul (PyInt fatal) (PyInt 10))
      (py_mul (PyInt severe) (PyInt 5)))
      (py_mul (PyInt moderate) (PyInt 2)))
      (py_mul (PyInt drowning) (PyInt 3)))
      (py_mul (PyInt reef_cut) (PyFloat 1.5)))
      (py_mul (PyInt rip_current) (PyFloat 2.5)))
      (py_mul (PyInt collision) (PyInt 1)) in
  bind (py_truediv (PyInt n) (PyInt 10)) (fun per_decade =>
  bind (py_truediv weighted (py_max (PyInt 1) per_decade)) (fun risk_score =>
  Ok (py_min (PyInt 10) risk_score))).

Definition target_level (risk_score : number) : Z :=
  if py_le risk_score (PyFloat 3.3) then 0
  else if py_le risk_score (PyFloat 6.6) then 1
  else 2.

(** The body of the loop over sites; [None] is [continue]. *)
Definition spot_row (clock : Clock) (incidents : list Incident) (spot : string)
  : result (option TrainingRow) :=
  let spot_incidents := filter (fun i => String.eqb (i_site i) spot) incidents in
  if (List.length spot_incidents =? 0)%nat then Ok None
  else
    let total := Z.of_nat (List.length spot_incidents) in
    let fatal := count (fun i => field_is (i_severity i) "fatal") spot_incidents in
    let severe := count (fun i => field_is (i_severity i) "severe") spot_incidents in
    let moderate := count (fun i => field_is (i_severity i) "moderate") spot_incidents in
    let months := incident_months spot_incidents in
    let peak_months :=
      match months with
      | [] => [6]
      | _ => mode months
      end in
    let incident_types :=
      map (fun i => match i_incidentType i with
                    | Some t => t
                    | None => EmptyString
                    end) spot_incidents in
    let drowning := count (fun t => contains "drowning" (lower t)) incident_types in
    let reef_cut :=
      count (fun t => contains "reef" (lower t) || contains "cut" (lower t))
            incident_types in
    let collision := count (fun t => contains "collision" (lower t)) incident_types in
    let rip_current := count (fun t => contains "rip" (lower t)) incident_types in
    let peak := if existsb (Z.eqb (current_month clock)) peak_months then 1 else 0 in
    bind (target_score fatal severe moderate drowning reef_cut rip_current
                       collision total) (fun risk_score =>
    bind (py_truediv (PyInt total) (PyInt 10)) (fun per_year =>
    Ok (Some {| tr_surf_spot := spot;
                tr_total_incidents := total;
                tr_fatal_count := fatal;
                tr_severe_count := severe;
                tr_moderate_count := moderate;
                tr_drowning_count := drowning;
                tr_reef_cut_count := reef_cut;
                tr_collision_count := collision;
                tr_rip_current_count := rip_current;
                tr_is_peak_season := peak;
                tr_incidents_per_year := per_year;
                tr_risk_score := risk_score;
                tr_risk_level := target_level risk_score |}))).

Fixpoint rows_of (clock : Clock) (incidents : list Incident) (spots : list string)
  : result (list TrainingRow) :=
  match spots with
  | [] => Ok []
  | spot :: rest =>
      bind (spot_row clock incidents spot) (fun row =>
      bind (rows_of clock incidents rest) (fun rows =>
      Ok (match row with
          | Some r => r :: rows
          | None => rows
          end)))
  end.

(** [incidents_collection.distinct('site')] *)
Definition distinct_sites (incidents : list Incident) : list string :=
  nodup string_dec (map i_site incidents).

Definition is_int (a : number) : bool :=
  match a with
  | PyInt _ => true
  | PyFloat _ => false
  end.

Definition with_risk_score (r : TrainingRow) (score : number) : TrainingRow :=
  {| tr_surf_spot := tr_surf_spot r;
     tr_total_incidents := tr_total_incidents r;
     tr_fatal_count := tr_fatal_count r;
     tr_severe_count := tr_severe_count r;
     tr_moderate_count := tr_moderate_count r;
     tr_drowning_count := tr_drowning_count r;
     tr_reef_cut_count := tr_reef_cut_count r;
     tr_collision_count := tr_collision_count r;
     tr_rip_current_count := tr_rip_current_count r;
     tr_is_peak_season := tr_is_peak_season r;
     tr_incidents_per_year := tr_incidents_per_year r;
     tr_risk_score := score;
     tr_risk_level := tr_risk_level r |}.

(** [pd.DataFrame(features_list)]: one row per dict.  The [risk_score]
    column is the only one that can mix ints (the cap 10) with floats: it
    is an int64 column when every value is an int and a float64 column
    otherwise, so a capped score is stored as 10.0 next to floats.  The
    other columns hold values of one type and keep them. *)
Definition DataFrame (features_list : list TrainingRow) : list TrainingRow :=
  let all_int := forallb is_int (map tr_risk_score features_list) in
  map (fun r =>
         with_risk_score r
           (if all_int then tr_risk_score r
            else PyFloat (to_float (tr_risk_score r))))
      features_list.

Definition extract_features_from_incidents (clock : Clock) (d : Store)
  : result (list TrainingRow) :=
  let incidents := incidents_collection d in
  bind (rows_of clock incidents (distinct_sites incidents)) (fun features_list =>
  Ok (DataFrame features_list)).

End TrainModel.

(** What every row of the training frame satisfies. *)
Definition row_is_sound (r : TrainModel.TrainingRow) : Prop :=
  1 <= TrainModel.tr_total_incidents r
  /\ (TrainModel.tr_risk_score r = PyInt 10
      \/ exists s, TrainModel.tr_risk_score r = PyFloat s
                   /\ py_lt (TrainModel.tr_risk_score r) (PyInt 10) = true)
  /\ TrainModel.tr_risk_level r
     = level_rank (fst (fixed_level_and_flag (to_float (TrainModel.tr_risk_score r))))
  /\ 0 <= TrainModel.tr_risk_level r <= 2.

(** The features of the sample store's first site. *)
Definition sample_features : FeatureRecord :=
  {| total_incidents := PyInt 12;
     fatal_count := 1;
     severe_count := 0;
     moderate_count := 1;
     drowning_count := 1;
     reef_cut_count := 1;
     collision_count := 0;
     rip_current_count := 0;
     is_peak_season := 1;
     incidents_per_year := PyFloat 0.2 |}.

(** The training frame of the sample store: the capped score of the first
    site is stored as a float next to the second site's 6.0. *)
Definition sample_frame : list TrainModel.TrainingRow :=
  [ {| TrainModel.tr_surf_spot := "Hikkaduwa";
       TrainModel.tr_total_incidents := 2;
       TrainModel.tr_fatal_count := 1;
       TrainModel.tr_severe_count := 0;
       TrainModel.tr_moderate_count := 1;
       TrainModel.tr_drowning_count := 1;
       TrainModel.tr_reef_cut_count := 1;
       TrainModel.tr_collision_count := 0;
       TrainModel.tr_rip_current_count := 0;
       TrainModel.tr_is_peak_season := 1;
       TrainModel.tr_incidents_per_year := PyFloat 0.2;
       TrainModel.tr_risk_score := PyFloat 10;
       TrainModel.tr_risk_level := 2 |};
    {| TrainModel.tr_surf_spot := "Midigama";
       TrainModel.tr_total_incidents := 1;
       TrainModel.tr_fatal_count := 0;
       TrainModel.tr_severe_count := 1;
       TrainModel.tr_moderate_count := 0;
       TrainModel.tr_drowning_count := 0;
       TrainModel.tr_reef_cut_count := 0;
       TrainModel.tr_collision_count := 1;
       TrainModel.tr_rip_current_count := 0;
       TrainModel.tr_is_peak_season := 0;
       TrainModel.tr_incidents_per_year := PyFloat 0.1;
       TrainModel.tr_risk_score := PyFloat 6;
       TrainModel.tr_risk_level := 1 |} ].

(** The training row of the sample store's first site. *)
Definition sample_training_row : TrainModel.TrainingRow :=
  {| TrainModel.tr_surf_spot := "Hikkaduwa";
     TrainModel.tr_total_incidents := 2;
     TrainModel.tr_fatal_count := 1;
     TrainModel.tr_severe_count := 0;
     TrainModel.tr_moderate_count := 1;
     TrainModel.tr_drowning_count := 1;
     TrainModel.tr_reef_cut_count := 1;
     TrainModel.tr_collision_count := 0;
     TrainModel.tr_rip_current_count := 0;
     TrainModel.tr_is_peak_season := 1;
     TrainModel.tr_incidents_per_year := PyFloat 0.2;
     TrainModel.tr_risk_score := PyInt 10;
     TrainModel.tr_risk_level := 2 |}.

(** * analyze_hazard.py *)

Module AnalyzeHazard.

(** What the OpenCV calls measure on a loaded image: the pixels inside the
    water mask, the image's shape, the variance of the Laplacian and the
    pixels darker than 50. *)
Record Measurements : Type := {
  water_pixels : Z;
  rows : Z;
  cols : Z;
  variance : float;
  dark_pixels : Z
}.

(** [cv2.imread] gives [None] or an image. *)
Inductive Image : Type :=
| Unreadable
| Readable (m : Measurements).

(** [aiSuggestions]: a text, or [f'Error analyzing image: {str(e)}']. *)
Inductive Suggestions : Type :=
| Text (s : string)
| ErrorAnalyzing (e : exn).

Record Analysis : Type := {
  detectedHazards : list string;
  confidenceScore : number;
  aiSuggestions : Suggestions
}.

(** The hazard-specific suggestion, if any. *)
Definition hazard_suggestion (hazard_type : string) : list string :=
  if contains "rip" (lower hazard_type) || contains "current" (lower hazard_type)
  then ["Rip current reported - avoid swimming perpendicular to shore"%string]
  else if contains "reef" (lower hazard_type)
  then ["Reef hazard - wear booties and check tide levels"%string]
  else if contains "jellyfish" (lower hazard_type)
  then ["Jellyfish present - avoid swimming and use vinegar for stings"%string]
  else [].

(** The body of the [try] block once the image is loaded. *)
Definition analyze_loaded (m : Measurements) (hazard_type : string)
  : result Analysis :=
  bind (py_truediv (PyInt (water_pixels m)) (PyInt (rows m * cols m)))
       (fun ratio =>
  let water_percentage := py_mul ratio (PyInt 100) in
  let water := py_gt water_percentage (PyInt 30) in
  let rough := (500 <? variance m)%float in
  let dark_percentage :=
    (float_of_Z (dark_pixels m) / float_of_Z (rows m * cols m) * 100)%float in
  let dark := (20 <? dark_percentage)%float in
  let detected_hazards :=
    (if water then ["Visible water conditions"%string] else [])
    ++ (if rough then ["Rough water surface detected"%string] else [])
    ++ (if dark then ["Dark water areas visible"%string] else []) in
  let suggestions :=
    (if rough then ["High wave activity visible"%string] else [])
    ++ hazard_suggestion hazard_type in
  let raw :=
    (float_of_Z (Z.of_nat (List.length detected_hazards) * 30)
     + variance m / 20)%float in
  let confidence :=
    if (raw <? 100)%float then PyFloat (Np.round2 raw) else PyInt 100 in
  Ok {| detectedHazards :=
          match detected_hazards with
          | [] => ["General hazard"%string]
          | _ => detected_hazards
          end;
        confidenceScore := confidence;
        aiSuggestions :=
          match suggestions with
          | [] => Text "Exercise caution"
          | _ => Text (String.concat "; " suggestions)
          end |}).

(** [analyze_hazard_image]: [cv] is what loading the image gives, or the
    exception an OpenCV call raises. *)
Definition analyze_hazard_image (cv : result Image) (hazard_type : string)
  : Analysis :=
  let failed e :=
    {| detectedHazards := ["Analysis failed"%string];
       confidenceScore := PyInt 0;
       aiSuggestions := ErrorAnalyzing e |} in
  match cv with
  | Raise e => failed e
  | Ok Unreadable =>
      {| detectedHazards := [];
         confidenceScore := PyInt 0;
         aiSuggestions := Text "Could not load image" |}
  | Ok (Readable m) =>
      match analyze_loaded m hazard_type with
      | Ok analysis => analysis
      | Raise e => failed e
      end
  end.

End AnalyzeHazard.

(** * app.py, route [/update-risk-score] *)

Inductive UpdateReply : Type :=
| RiskScoresUpdated
| UpdateFailed (message : exn).

Section UpdateRoute.

Variable clock : Clock.
Variable feature_cols : list string.
Variable rf_predict : Row -> result Z.
Variable rf_predict_proba : Row -> result (list float).
Variable update_one : Store -> Z -> SpotUpdate -> result unit * Store.
Variable find : Store -> Documents.Cursor.

(** [data.get('surf_spot_id')]; [data] is [None] when the body is JSON
    [null]. *)
Definition get_spot_id (data : option (list (string * string)))
  : result (option string) :=
  match data with
  | Some obj =>
      Ok (option_map snd
            (List.find (fun kv => String.eqb (fst kv) "surf_spot_id") obj))
  | None => Raise (ExternalError "'NoneType' object has no attribute 'get'")
  end.

(** [request_json] is what reading [request.json] gives: the parsed body,
    or the exception raised for a body that is not JSON. *)
Definition update_risk (request_json : result (option (list (string * string))))
  : M (Z * UpdateReply) :=
  try_except
    (data <- lift request_json ;;
     spot_id <- lift (get_spot_id data) ;;
     Documents.update_all_risk_scores clock feature_cols rf_predict
                                      rf_predict_proba update_one find ;;
     ret (200, RiskScoresUpdated))
    (fun e => ret (500, UpdateFailed e)).

End UpdateRoute.

(** * What a batch update leaves in an in-memory store *)

Section Refreshed.

Variable clock : Clock.
Variable feature_cols : list string.
Variable rf_predict : Row -> result Z.
Variable rf_predict_proba : Row -> result (list float).

(** The registry entry of [spot] once the prediction made in world [w] is
    written to it; an entry whose prediction raises is left as it is. *)
Definition refreshed (w : World) (spot : SurfSpot) : SurfSpot :=
  match fst (predict_risk_score clock feature_cols rf_predict rf_predict_proba
                                (s_name spot) w) with
  | Ok prediction =>
      {| s_id := s_id spot;
         s_name := s_name spot;
         s_riskScore := Some (risk_score prediction);
         s_riskLevel := Some (risk_level prediction);
         s_flagColor := Some (flag_color prediction);
         s_lastUpdated := Some (now clock) |}
  | Raise _ => spot
  end.

(** The registry [spots] after the write for [spot], with the prediction
    made in world [w]. *)
Definition write_refreshed (w : World) (spots : list SurfSpot) (spot : SurfSpot)
  : list SurfSpot :=
  match fst (predict_risk_score clock feature_cols rf_predict rf_predict_proba
                                (s_name spot) w) with
  | Ok prediction =>
      set_spot spots (s_id spot)
               {| u_riskScore := risk_score prediction;
                  u_riskLevel := risk_level prediction;
                  u_flagColor := flag_color prediction;
                  u_lastUpdated := now clock |}
  | Raise _ => spots
  end.

End Refreshed.

(** * surfapp--ml-engine/calculate_skill_risk.py: the self-check *)

Module SkillRiskCheck.

Import SkillRiskEngine.

Fixpoint insert_name (name : string) (l : list string) : list string :=
  match l with
  | [] => [name]
  | x :: t => if String.leb name x then name :: l else x :: insert_name name t
  end.

(** [sorted(names)] *)
Definition sorted (names : list string) : list string :=
  fold_right insert_name [] names.

(** [[r['spot_name'] for r in results if r[skill]['flag'] == flag]] *)
Definition names_with_flag (tier : SpotRisk -> TierRisk) (flag : string)
  (results : list SpotRisk) : list string :=
  map spot_name (filter (fun r => String.eqb (t_flag (tier r)) flag) results).

Definition names_eqb (a b : list string) : bool :=
  if list_eq_dec string_dec a b then true else false.

Record Expected : Type := {
  green : list string;
  yellow : list string;
  red : list string
}.

Definition expected_beginner : Expected :=
  {| green := ["Kalpitiya"; "Point Pedro"; "Trincomalee"];
     yellow := ["Ahangama"; "Arugam Bay"; "Matara"; "Thalpe"; "Weligama"];
     red := ["Hikkaduwa"; "Midigama"; "Mirissa"; "Unawatuna"] |}%string.

Definition expected_intermediate : Expected :=
  {| green := ["Kalpitiya"; "Point Pedro"; "Trincomalee"; "Matara"; "Thalpe"];
     yellow := ["Ahangama"; "Arugam Bay"; "Mirissa"; "Weligama"];
     red := ["Hikkaduwa"; "Midigama"; "Unawatuna"] |}%string.

(** One turn of the loop over the beginner and intermediate tiers. *)
Definition tier_matches (tier : SpotRisk -> TierRisk) (expected : Expected)
  (results : list SpotRisk) : bool :=
  let green_match :=
    names_eqb (sorted (names_with_flag tier "green" results))
              (sorted (green expected)) in
  let yellow_match :=
    names_eqb (sorted (names_with_flag tier "yellow" results))
              (sorted (yellow expected)) in
  let red_match :=
    names_eqb (sorted (names_with_flag tier "red" results))
              (sorted (red expected)) in
  green_match && yellow_match && red_match.

Definition verify_expected_results : bool :=
  let results := calculate_skill_based_risks in
  let all_correct := true in
  let all_correct :=
    if negb (tier_matches r_beginner expected_beginner results)
    then false else all_correct in
  let all_correct :=
    if negb (tier_matches r_intermediate expected_intermediate results)
    then false else all_correct in
  let actual_advanced :=
    map spot_name
        (filter (fun r => negb (String.eqb (t_flag (r_advanced r)) "green"))
                results) in
  if (List.length actual_advanced =? 0)%nat then all_correct else false.

End SkillRiskCheck.

(** * Theorems *)


(** * Facts about binary64 values

    The primitive operations are specified by the library on [spec_float];
    the order facts below are read off [SFcompare]. *)

Section FloatOrder.

Local Ltac cmp_cases :=
  repeat match goal with
         | |- context [Z.compare ?a ?b] => destruct (Z.compare_spec a b); subst
         | H : context [Z.compare ?a ?b] |- _ => destruct (Z.compare_spec a b); subst
         | |- context [Pos.compare_cont Eq ?a ?b] =>
             change (Pos.compare_cont Eq a b) with (Pos.compare a b);
             destruct (Pos.compare_spec a b); subst
         | H : context [Pos.compare_cont Eq ?a ?b] |- _ =>
             change (Pos.compare_cont Eq a b) with (Pos.compare a b) in H;
             destruct (Pos.compare_spec a b); subst
         end;
  simpl in *; try discriminate; try reflexivity; try lia.

Lemma SFcompare_antisym (x y : spec_float) :
  SFcompare y x = option_map CompOpp (SFcompare x y).
Proof.
  destruct x as [sx | sx | | sx mx ex], y as [sy | sy | | sy my ey];
    try destruct sx; try destruct sy; simpl; try reflexivity; cmp_cases.
Qed.

Lemma SFcompare_lt_trans (x y z : spec_float) :
  SFcompare x y = Some Lt -> SFcompare y z = Some Lt -> SFcompare x z = Some Lt.
Proof.
  destruct x as [sx | sx | | sx mx ex], y as [sy | sy | | sy my ey],
    z as [sz | sz | | sz mz ez];
    try destruct sx; try destruct sy; try destruct sz; simpl;
    intros Hxy Hyz; try discriminate; try reflexivity;
    injection Hxy as Hxy; injection Hyz as Hyz; f_equal; cmp_cases.
Qed.

Lemma SFcompare_refl (x : spec_float) :
  x <> S754_nan -> SFcompare x x = Some Eq.
Proof.
  destruct x as [s | s | | s m e]; try destruct s; simpl; intros H;
    try reflexivity; try congruence;
    rewrite Z.compare_refl;
    change (Pos.compare_cont Eq m m) with (Pos.compare m m);
    rewrite Pos.compare_refl; reflexivity.
Qed.

Lemma ltb_leb (x y : float) : (x <? y)%float = true -> (x <=? y)%float = true.
Proof.
  rewrite ltb_spec, leb_spec. unfold SFltb, SFleb.
  destruct (SFcompare (Prim2SF x) (Prim2SF y)) as [[ | | ] | ]; congruence.
Qed.

Lemma ltb_not_leb (x y : float) : (x <? y)%float = true -> (y <=? x)%float = false.
Proof.
  rewrite ltb_spec, leb_spec. unfold SFltb, SFleb.
  rewrite (SFcompare_antisym (Prim2SF x) (Prim2SF y)).
  destruct (SFcompare (Prim2SF x) (Prim2SF y)) as [[ | | ] | ]; simpl; congruence.
Qed.

Lemma ltb_ltb_not_leb (x y z : float) :
  (x <? y)%float = true -> (y <? z)%float = true -> (z <=? x)%float = false.
Proof.
  intros Hxy Hyz. apply ltb_not_leb.
  rewrite ltb_spec in *. unfold SFltb in *.
  destruct (SFcompare (Prim2SF x) (Prim2SF y)) as [[ | | ] | ] eqn:E1; try discriminate.
  destruct (SFcompare (Prim2SF y) (Prim2SF z)) as [[ | | ] | ] eqn:E2; try discriminate.
  rewrite (SFcompare_lt_trans _ _ _ E1 E2). reflexivity.
Qed.

Lemma is_nan_false (x : float) : is_nan x = false <-> Prim2SF x <> S754_nan.
Proof.
  unfold is_nan. rewrite eqb_spec. unfold SFeqb. split.
  - intros H E. rewrite E in H. discriminate.
  - intros H. rewrite (SFcompare_refl _ H). reflexivity.
Qed.

End FloatOrder.

(** The rounding of a non-negative mantissa never yields a NaN, so a NaN
    can only come out of an operation on infinities or NaNs. *)

Section NotNaN.

Lemma shr_1_nonneg (mrs : shr_record) : 0 <= shr_m mrs -> 0 <= shr_m (shr_1 mrs).
Proof.
  destruct mrs as [m r s]. simpl.
  destruct m as [ | [p | p | ] | p]; simpl; lia.
Qed.

Lemma iter_shr_1_nonneg (p : positive) :
  forall mrs, 0 <= shr_m mrs -> 0 <= shr_m (iter_pos shr_1 p mrs).
Proof.
  induction p as [p IH | p IH | ]; intros mrs H; simpl.
  - apply IH, IH, shr_1_nonneg, H.
  - apply IH, IH, H.
  - apply shr_1_nonneg, H.
Qed.

Lemma shr_fexp_nonneg (m e : Z) (l : location) :
  0 <= m -> 0 <= shr_m (fst (shr_fexp prec emax m e l)).
Proof.
  intros H. unfold shr_fexp, shr.
  assert (H0 : 0 <= shr_m (shr_record_of_loc m l)).
  { destruct l as [ | [ | | ]]; exact H. }
  destruct (fexp prec emax (Zdigits2 m + e) - e) as [ | p | p]; simpl; auto.
  apply iter_shr_1_nonneg, H0.
Qed.

Lemma round_nearest_even_nonneg (m : Z) (l : location) :
  0 <= m -> 0 <= round_nearest_even m l.
Proof.
  intros H. destruct l as [ | [ | | ]]; simpl; try lia.
  destruct (Z.even m); lia.
Qed.

Lemma binary_round_aux_not_nan (s : bool) (m e : Z) (l : location) :
  0 <= m -> binary_round_aux prec emax s m e l <> S754_nan.
Proof.
  intros H. unfold binary_round_aux.
  pose proof (shr_fexp_nonneg m e l H) as H1.
  destruct (shr_fexp prec emax m e l) as [mrs' e']. simpl in H1.
  pose proof (shr_fexp_nonneg _ e' loc_Exact
                (round_nearest_even_nonneg _ (loc_of_shr_record mrs') H1)) as H2.
  destruct (shr_fexp prec emax _ e' loc_Exact) as [mrs'' e'']. simpl in H2.
  destruct (shr_m mrs'') as [ | p | p]; try discriminate; try lia.
  destruct (e'' <=? emax - prec); discriminate.
Qed.

Lemma binary_normalize_not_nan (m e : Z) (sz : bool) :
  binary_normalize prec emax m e sz <> S754_nan.
Proof.
  unfold binary_normalize, binary_round.
  destruct m as [ | p | p]; try discriminate.
  - destruct (shl_align p e _) as [mz ez]. apply binary_round_aux_not_nan. lia.
  - destruct (shl_align p e _) as [mz ez]. apply binary_round_aux_not_nan. lia.
Qed.

(** A sum is a number when one operand is finite and the other a number. *)
Lemma SF64add_not_nan (x y : spec_float) :
  x <> S754_nan -> y <> S754_nan ->
  (forall s, x <> S754_infinity s) \/ (forall s, y <> S754_infinity s) ->
  SF64add x y <> S754_nan.
Proof.
  intros Hx Hy Hfin. unfold SF64add, SFadd.
  destruct x as [sx | sx | | sx mx ex], y as [sy | sy | | sy my ey];
    try congruence;
    try (destruct sx, sy; discriminate).
  - destruct Hfin as [H | H]; [ elim (H sx) | elim (H sy) ]; reflexivity.
  - apply binary_normalize_not_nan.
Qed.

Lemma SF64sub_not_nan (x y : spec_float) :
  x <> S754_nan -> y <> S754_nan -> (forall s, y <> S754_infinity s) ->
  SF64sub x y <> S754_nan.
Proof.
  intros Hx Hy Hfin. unfold SF64sub, SFsub.
  destruct x as [sx | sx | | sx mx ex], y as [sy | sy | | sy my ey];
    try congruence;
    try (destruct sx, sy; discriminate);
    try (elim (Hfin sy); reflexivity).
  apply binary_normalize_not_nan.
Qed.

Lemma SF64mul_not_nan (x : spec_float) (s : bool) (m : positive) (e : Z) :
  x <> S754_nan -> SF64mul x (S754_finite s m e) <> S754_nan.
Proof.
  intros Hx. unfold SF64mul, SFmul.
  destruct x as [sx | sx | | sx mx ex]; try congruence; try discriminate.
  apply binary_round_aux_not_nan. lia.
Qed.

End NotNaN.

(** The conversion of an int other than 0 to binary64. *)

Section IntConversion.

Lemma digits2_pos_bounds (p : positive) :
  2 ^ (Zpos (digits2_pos p) - 1) <= Zpos p < 2 ^ Zpos (digits2_pos p).
Proof.
  induction p as [p IH | p IH | ]; cbn [digits2_pos].
  - rewrite Pos2Z.inj_succ, (Pos2Z.inj_xI p).
    replace (Z.succ (Zpos (digits2_pos p)) - 1) with (Z.succ (Zpos (digits2_pos p) - 1)) by lia.
    rewrite !Z.pow_succ_r by lia.
    generalize dependent (2 ^ (Zpos (digits2_pos p) - 1)).
    generalize dependent (2 ^ Zpos (digits2_pos p)). intros; lia.
  - rewrite Pos2Z.inj_succ, (Pos2Z.inj_xO p).
    replace (Z.succ (Zpos (digits2_pos p)) - 1) with (Z.succ (Zpos (digits2_pos p) - 1)) by lia.
    rewrite !Z.pow_succ_r by lia.
    generalize dependent (2 ^ (Zpos (digits2_pos p) - 1)).
    generalize dependent (2 ^ Zpos (digits2_pos p)). intros; lia.
  - simpl. lia.
Qed.

Lemma digits2_pos_unique (p : positive) (k : Z) :
  2 ^ (k - 1) <= Zpos p < 2 ^ k -> Zpos (digits2_pos p) = k.
Proof.
  intros [Hlo Hhi].
  destruct (digits2_pos_bounds p) as [Dlo Dhi].
  assert (Hk : 0 < k).
  { destruct (Z.ltb_spec 0 k) as [ | Hle]; [ assumption | ].
    assert (2 ^ k <= 1).
    { destruct (Z.eq_dec k 0) as [-> | ]; [ simpl; lia | ].
      rewrite Z.pow_neg_r by lia. lia. }
    lia. }
  assert (H1 : Zpos (digits2_pos p) - 1 < k).
  { apply (Z.pow_lt_mono_r_iff 2); lia. }
  assert (H2 : k - 1 < Zpos (digits2_pos p)).
  { apply (Z.pow_lt_mono_r_iff 2); lia. }
  lia.
Qed.

Lemma shr_1_halves (mrs : shr_record) :
  0 <= shr_m mrs -> shr_m (shr_1 mrs) = shr_m mrs / 2.
Proof.
  destruct mrs as [m r s]. cbn [shr_m]. intros H.
  destruct m as [ | [p | p | ] | p]; cbn [shr_1 shr_m]; try lia.
  - reflexivity.
  - rewrite (Pos2Z.inj_xI p). apply (Z.div_unique _ _ _ 1); lia.
  - rewrite (Pos2Z.inj_xO p). apply (Z.div_unique _ _ _ 0); lia.
  - reflexivity.
Qed.

Lemma iter_shr_1_divides (n : positive) :
  forall mrs, 0 <= shr_m mrs ->
  shr_m (iter_pos shr_1 n mrs) = shr_m mrs / 2 ^ Zpos n.
Proof.
  induction n as [n IH | n IH | ]; intros mrs H; cbn [iter_pos].
  - rewrite IH, IH, shr_1_halves; auto using shr_1_nonneg, iter_shr_1_nonneg.
    rewrite !Z.div_div by lia. f_equal.
    rewrite (Pos2Z.inj_xI n).
    replace (2 * Zpos n + 1) with (1 + Zpos n + Zpos n) by lia.
    rewrite !Z.pow_add_r by lia. lia.
  - rewrite IH, IH; auto using iter_shr_1_nonneg.
    rewrite Z.div_div by lia. f_equal.
    rewrite (Pos2Z.inj_xO n).
    replace (2 * Zpos n) with (Zpos n + Zpos n) by lia.
    rewrite Z.pow_add_r by lia. reflexivity.
  - rewrite shr_1_halves by assumption. reflexivity.
Qed.

Lemma iter_xO_value (k m : positive) :
  Zpos (Pos.iter xO m k) = Zpos m * 2 ^ Zpos k.
Proof.
  revert m. induction k as [ | k IH] using Pos.peano_ind; intros m.
  - simpl. lia.
  - rewrite Pos.iter_succ, (Pos2Z.inj_xO (Pos.iter xO m k)), IH, Pos2Z.inj_succ, Z.pow_succ_r by lia. lia.
Qed.

Lemma fexp_normal (x : Z) : -1021 <= x -> fexp prec emax x = x - 53.
Proof. intros H. unfold fexp, SpecFloat.emin, prec, emax. lia. Qed.

Lemma round_nearest_even_step (m : Z) (l : location) :
  m <= round_nearest_even m l <= m + 1.
Proof.
  destruct l as [ | [ | | ]]; simpl; try lia.
  destruct (Z.even m); lia.
Qed.

(** Shifting a mantissa of at least 53 digits down to 53 digits. *)
Lemma shr_fexp_normal (m : positive) (e : Z) (l : location) :
  53 <= Zpos (digits2_pos m) -> -1074 <= e ->
  exists mrs,
    shr_fexp prec emax (Zpos m) e l = (mrs, e + (Zpos (digits2_pos m) - 53))
    /\ shr_m mrs = Zpos m / 2 ^ (Zpos (digits2_pos m) - 53).
Proof.
  intros Hd He. unfold shr_fexp, shr. cbn [Zdigits2].
  rewrite fexp_normal by lia.
  replace (Zpos (digits2_pos m) + e - 53 - e) with (Zpos (digits2_pos m) - 53) by lia.
  assert (H0 : shr_m (shr_record_of_loc (Zpos m) l) = Zpos m).
  { destruct l as [ | [ | | ]]; reflexivity. }
  destruct (Zpos (digits2_pos m) - 53) as [ | n | n] eqn:En; try lia.
  - eexists. split.
    + rewrite Z.add_0_r. reflexivity.
    + rewrite H0, Z.pow_0_r, Z.div_1_r. reflexivity.
  - eexists. split.
    + reflexivity.
    + rewrite iter_shr_1_divides, H0 by (rewrite H0; lia). reflexivity.
Qed.

Lemma top_53_digits (m : positive) :
  53 <= Zpos (digits2_pos m) ->
  2 ^ 52 <= Zpos m / 2 ^ (Zpos (digits2_pos m) - 53) < 2 ^ 53.
Proof.
  intros Hd. destruct (digits2_pos_bounds m) as [Hlo Hhi].
  set (n := Zpos (digits2_pos m) - 53) in *.
  assert (Hn : 0 <= n) by lia.
  assert (Hp : 0 < 2 ^ n) by (apply Z.pow_pos_nonneg; lia).
  replace (Zpos (digits2_pos m) - 1) with (n + 52) in Hlo by lia.
  replace (Zpos (digits2_pos m)) with (n + 53) in Hhi by lia.
  rewrite Z.pow_add_r in Hlo, Hhi by lia.
  split.
  - apply Z.div_le_lower_bound; assumption.
  - apply Z.div_lt_upper_bound; assumption.
Qed.

(** Rounding a mantissa of at least 53 digits, in the normal range, gives a
    valid finite number or an infinity. *)
Lemma binary_round_aux_normal (s : bool) (m : positive) (e : Z) (l : location) :
  53 <= Zpos (digits2_pos m) -> -1074 <= e ->
  valid_binary (binary_round_aux prec emax s (Zpos m) e l) = true
  /\ ((exists m' e', binary_round_aux prec emax s (Zpos m) e l = S754_finite s m' e')
      \/ binary_round_aux prec emax s (Zpos m) e l = S754_infinity s).
Proof.
  intros Hd He. unfold binary_round_aux.
  destruct (shr_fexp_normal m e l Hd He) as (mrs1 & -> & Hm1).
  pose proof (top_53_digits m Hd) as Hb1. rewrite <- Hm1 in Hb1.
  pose proof (round_nearest_even_step (shr_m mrs1) (loc_of_shr_record mrs1)) as Hr.
  destruct (round_nearest_even (shr_m mrs1) (loc_of_shr_record mrs1))
    as [ | q | q] eqn:Eq; try lia.
  assert (Hq : 2 ^ 52 <= Zpos q <= 2 ^ 53) by lia.
  assert (Hdq : Zpos (digits2_pos q) = 53 \/ (Zpos q = 2 ^ 53 /\ Zpos (digits2_pos q) = 54)).
  { destruct (Z.eq_dec (Zpos q) (2 ^ 53)) as [E | N].
    - right. split; [ exact E | ]. apply digits2_pos_unique. rewrite E. simpl. lia.
    - left. apply digits2_pos_unique. simpl. simpl in Hq. lia. }
  destruct (shr_fexp_normal q (e + (Zpos (digits2_pos m) - 53)) loc_Exact
              ltac:(lia) ltac:(lia)) as (mrs2 & -> & Hm2).
  assert (Hb2 : 2 ^ 52 <= shr_m mrs2 < 2 ^ 53).
  { rewrite Hm2. apply top_53_digits. lia. }
  destruct (shr_m mrs2) as [ | m3 | m3] eqn:E3; try (simpl in Hb2; lia).
  assert (Hd3 : Zpos (digits2_pos m3) = 53) by (apply digits2_pos_unique; exact Hb2).
  set (e3 := e + (Zpos (digits2_pos m) - 53) + (Zpos (digits2_pos q) - 53)).
  assert (He3 : -1074 <= e3) by (unfold e3; lia).
  destruct (Z.leb_spec e3 (emax - prec)) as [Hle | Hgt].
  - split; [ | left; eauto ].
    cbn [valid_binary]. unfold bounded, canonical_mantissa.
    rewrite Hd3, fexp_normal by lia.
    apply andb_true_intro. split.
    + apply Z.eqb_eq. lia.
    + apply Z.leb_le. exact Hle.
  - split; [ reflexivity | right; reflexivity ].
Qed.

(** [float(z)] for [z <> 0]: the conversion is a valid binary64 value,
    finite or infinite, hence not a zero. *)
Lemma binary_normalize_int (z : Z) :
  z <> 0 ->
  valid_binary (binary_normalize prec emax z 0 false) = true
  /\ ((exists s m e, binary_normalize prec emax z 0 false = S754_finite s m e)
      \/ exists s, binary_normalize prec emax z 0 false = S754_infinity s).
Proof.
  intros Hz.
  assert (Hround : forall s m,
             valid_binary (binary_round prec emax s m 0) = true
             /\ ((exists m' e', binary_round prec emax s m 0 = S754_finite s m' e')
                 \/ binary_round prec emax s m 0 = S754_infinity s)).
  { intros s m. unfold binary_round, shl_align.
    rewrite Z.add_0_r, fexp_normal, Z.sub_0_r by lia.
    destruct (Zpos (digits2_pos m) - 53) as [ | n | n] eqn:En.
    - apply binary_round_aux_normal; lia.
    - apply binary_round_aux_normal; lia.
    - apply binary_round_aux_normal; [ | lia ].
      assert (E : Zpos (digits2_pos (Pos.iter xO m n)) = 53); [ | lia ].
      apply digits2_pos_unique. rewrite iter_xO_value.
      destruct (digits2_pos_bounds m) as [Hlo Hhi].
      assert (Hn : Zpos n = 53 - Zpos (digits2_pos m)) by lia.
      assert (Hp : 0 < 2 ^ Zpos n) by (apply Z.pow_pos_nonneg; lia).
      assert (E1 : 2 ^ (53 - 1) = 2 ^ (Zpos (digits2_pos m) - 1) * 2 ^ Zpos n).
      { rewrite <- Z.pow_add_r by lia. f_equal. lia. }
      assert (E2 : 2 ^ 53 = 2 ^ Zpos (digits2_pos m) * 2 ^ Zpos n).
      { rewrite <- Z.pow_add_r by lia. f_equal. lia. }
      rewrite E1, E2.
      split; [ apply Z.mul_le_mono_nonneg_r | apply Z.mul_lt_mono_pos_r ]; lia. }
  destruct z as [ | m | m]; [ congruence | | ]; cbn [binary_normalize].
  - destruct (Hround false m) as [Hv [(m' & e' & E) | E]];
      split; eauto.
  - destruct (Hround true m) as [Hv [(m' & e' & E) | E]];
      split; eauto.
Qed.

Lemma float_of_Z_nonzero (z : Z) :
  z <> 0 -> (float_of_Z z =? 0)%float = false.
Proof.
  intros Hz. unfold float_of_Z.
  destruct (binary_normalize_int z Hz) as [Hv Hshape].
  rewrite eqb_spec, Prim2SF_SF2Prim by exact Hv.
  change (Prim2SF 0) with (S754_zero false).
  destruct Hshape as [(s & m & e & ->) | (s & ->)]; destruct s; reflexivity.
Qed.

End IntConversion.

(** * The score synthesizer *)

Section ScoreSynthesis.

Lemma clip_range (x : float) :
  is_nan x = false ->
  (0 <=? Np.clip x 0 10)%float = true /\ (Np.clip x 0 10 <=? 10)%float = true.
Proof.
  intros Hx. unfold Np.clip, Np.maximum. rewrite Hx.
  destruct (0 <? x)%float eqn:Hpos.
  - unfold Np.minimum. rewrite Hx.
    destruct (x <? 10)%float eqn:Hlt.
    + split; apply ltb_leb; assumption.
    + split; reflexivity.
  - split; reflexivity.
Qed.

Lemma leb_zero_number (b : float) :
  (0 <=? b)%float = true -> (b <? infinity)%float = true ->
  Prim2SF b <> S754_nan /\ forall s, Prim2SF b <> S754_infinity s.
Proof.
  rewrite leb_spec, ltb_spec. unfold SFleb, SFltb.
  change (Prim2SF 0) with (S754_zero false).
  change (Prim2SF infinity) with (S754_infinity false).
  destruct (Prim2SF b) as [s | s | | s m e]; simpl; intros H1 H2.
  - split; [ discriminate | intros s'; discriminate ].
  - destruct s; discriminate.
  - discriminate.
  - split; [ discriminate | intros s'; discriminate ].
Qed.

Lemma confidence_adjustment_number (confidence : float) :
  is_nan confidence = false ->
  Prim2SF (confidence_adjustment confidence) <> S754_nan.
Proof.
  intros H. apply is_nan_false in H. unfold confidence_adjustment.
  rewrite mul_spec, sub_spec.
  change (Prim2SF 2) with (S754_finite false 4503599627370496 (-51)).
  apply SF64mul_not_nan, SF64sub_not_nan.
  - exact H.
  - vm_compute. discriminate.
  - intros s. vm_compute. discriminate.
Qed.

Lemma raw_risk_score_number (level : Z) (confidence : float) (hazard_boost : number) :
  0 <= level <= 2 ->
  is_nan confidence = false ->
  (0 <=? to_float hazard_boost)%float = true ->
  (to_float hazard_boost <? infinity)%float = true ->
  is_nan (raw_risk_score level confidence hazard_boost) = false.
Proof.
  intros Hl Hc Hb0 Hb1. apply is_nan_false. unfold raw_risk_score.
  destruct (leb_zero_number _ Hb0 Hb1) as [Hbn Hbi].
  rewrite add_spec. apply SF64add_not_nan; [ | exact Hbn | right; exact Hbi ].
  rewrite add_spec.
  assert (Hbase : exists m e, Prim2SF (base_score level) = S754_finite false m e).
  { assert (E : level = 0 \/ level = 1 \/ level = 2) by lia.
    destruct E as [-> | [-> | ->]]; vm_compute; eauto. }
  destruct Hbase as (m & e & ->).
  apply SF64add_not_nan.
  - discriminate.
  - apply confidence_adjustment_number, Hc.
  - left. intros s. discriminate.
Qed.

Lemma ten_leb_positive (x : float) :
  (10 <=? x)%float = true -> (0 <? x)%float = true.
Proof.
  rewrite leb_spec, ltb_spec. unfold SFleb, SFltb.
  change (Prim2SF 0) with (S754_zero false).
  change (Prim2SF 10) with (S754_finite false 5629499534213120 (-49)).
  destruct (Prim2SF x) as [s | s | | s m e]; try discriminate.
  - destruct s; [ discriminate | reflexivity ].
  - destruct s; [ discriminate | reflexivity ].
Qed.

(** What [np.clip(x, 0, 10)] is on a number, case by case. *)
Lemma clip_cases (x : float) :
  is_nan x = false ->
  ((x <=? 0)%float = true -> Np.clip x 0 10 = 0%float)
  /\ ((0 <? x)%float = true -> (x <? 10)%float = true -> Np.clip x 0 10 = x)
  /\ ((10 <=? x)%float = true -> Np.clip x 0 10 = 10%float).
Proof.
  intros Hx. unfold Np.clip, Np.maximum. rewrite Hx.
  split; [ | split ].
  - intros H. destruct (0 <? x)%float eqn:E.
    + apply ltb_not_leb in E. congruence.
    + reflexivity.
  - intros H1 H2. rewrite H1. unfold Np.minimum. rewrite Hx, H2. reflexivity.
  - intros H. rewrite (ten_leb_positive x H). unfold Np.minimum. rewrite Hx.
    destruct (x <? 10)%float eqn:E.
    + apply ltb_not_leb in E. congruence.
    + reflexivity.
Qed.

(** C1.  For a predicted level in {0, 1, 2}, a confidence that is a number
    and a finite recency boost [>= 0], the synthesized score is the clamp
    of [raw = base_score + (confidence - 0.5) * 2 + recency_boost] to the
    range from 0 to 10: it is 0 when [raw <= 0], [raw] itself when
    [0 < raw < 10] and 10 when [raw >= 10]; so it lies between 0 and 10. *)
Theorem risk_score_is_clamped :
  forall (level : Z) (confidence : float) (hazard_boost : number),
    0 <= level <= 2 ->
    is_nan confidence = false ->
    (0 <=? to_float hazard_boost)%float = true ->
    (to_float hazard_boost <? infinity)%float = true ->
    let raw :=
      (base_score level + (confidence - 0.5) * 2 + to_float hazard_boost)%float in
    clipped_risk_score level confidence hazard_boost = Np.clip raw 0 10
    /\ ((raw <=? 0)%float = true ->
        clipped_risk_score level confidence hazard_boost = 0%float)
    /\ ((0 <? raw)%float = true -> (raw <? 10)%float = true ->
        clipped_risk_score level confidence hazard_boost = raw)
    /\ ((10 <=? raw)%float = true ->
        clipped_risk_score level confidence hazard_boost = 10%float)
    /\ (0 <=? clipped_risk_score level confidence hazard_boost)%float = true
    /\ (clipped_risk_score level confidence hazard_boost <=? 10)%float = true.
Proof.
  intros level confidence hazard_boost Hl Hc Hb0 Hb1 raw.
  assert (Hraw : is_nan raw = false)
    by (apply raw_risk_score_number; assumption).
  destruct (clip_cases raw Hraw) as (Hlow & Hmid & Hhigh).
  split; [ reflexivity | ].
  split; [ exact Hlow | ].
  split; [ exact Hmid | ].
  split; [ exact Hhigh | ].
  apply clip_range. exact Hraw.
Qed.

Lemma risk_score_is_clamped_witness :
  clipped_risk_score 0 0 (PyFloat 1e300) = 10%float
  /\ clipped_risk_score 0 0.75 (PyInt 2) = 5.83%float
  /\ clipped_risk_score 0 neg_infinity (PyInt 2) = 0%float
  /\ (0 <=? clipped_risk_score 0 0 (PyFloat 1e300))%float = true.
Proof.
  destruct (risk_score_is_clamped 0 0 (PyFloat 1e300))
    as (_ & _ & _ & Hhigh & Hpos & _);
    [ lia | reflexivity | reflexivity | reflexivity | ].
  destruct (risk_score_is_clamped 0 0.75 (PyInt 2))
    as (_ & _ & Hmid & _);
    [ lia | reflexivity | reflexivity | reflexivity | ].
  destruct (risk_score_is_clamped 0 neg_infinity (PyInt 2))
    as (_ & Hlow & _);
    [ lia | reflexivity | reflexivity | reflexivity | ].
  split; [ exact (Hhigh eq_refl) | ].
  split; [ exact (Hmid eq_refl eq_refl) | ].
  split; [ exact (Hlow eq_refl) | exact Hpos ].
Defined.

End ScoreSynthesis.

(** The two ends of the clamp: a confidence of 0 shifts the base score by
    -1, and a huge boost is cut down to 10. *)
Example risk_score_low_end :
  confidence_adjustment 0 = (-1)%float
  /\ clipped_risk_score 0 0 (PyInt 0) = 2.33%float.
Proof. split; vm_compute; reflexivity. Qed.

Example risk_score_high_end :
  clipped_risk_score 2 1 (PyFloat 1e300) = 10%float
  /\ clipped_risk_score 0 0 (PyInt (10 ^ 300)) = 10%float.
Proof. split; vm_compute; reflexivity. Qed.

(** C2.  The base score [(level + 1) * 3.33] is 3.33 at level 0 and 6.66 at
    level 1; at level 2 the program computes 9.99, which is not the 10.0
    announced by the comment on that line. *)
Theorem base_score_per_level :
  base_score 0 = 3.33%float
  /\ base_score 1 = 6.66%float
  /\ base_score 2 = 9.99%float
  /\ (base_score 2 =? 10)%float = false.
Proof. repeat split; vm_compute; reflexivity. Qed.

(** * The threshold engine *)

Section Thresholds.

Lemma py_lt_not_le (a b : number) : py_lt a b = true -> py_le b a = false.
Proof.
  destruct a as [x | f], b as [y | g]; unfold py_lt, py_le, py_cmp.
  - rewrite (Z.compare_antisym x y).
    destruct (x ?= y); simpl; congruence.
  - destruct (cmp_int_float x g) as [[ | | ] | ]; simpl; congruence.
  - destruct (cmp_int_float y f) as [[ | | ] | ]; simpl; congruence.
  - apply ltb_not_leb.
Qed.

(** An int against a positive float with a fraction part: the int is
    scaled by the float's exponent and compared with the mantissa. *)
Lemma cmp_int_float_scaled (z : Z) (f : float) (m : positive) (e : Z) :
  Prim2SF f = S754_finite false m e -> e < 0 ->
  cmp_int_float z f = Some (z * 2 ^ (- e) ?= Zpos m).
Proof.
  intros E He. unfold cmp_int_float. rewrite E. simpl cond_Zopp.
  destruct (Z.leb_spec 0 e); [ lia | reflexivity ].
Qed.

Local Ltac scale_by c :=
  let v := eval vm_compute in (Prim2SF c) in
  lazymatch v with
  | S754_finite false ?m ?e =>
      rewrite (cmp_int_float_scaled _ c m e) in * by (vm_compute; reflexivity || lia);
      let k := eval vm_compute in (2 ^ (- e)) in
      change (2 ^ (- e)) with k in *
  end.

(** A score above the medium cut-off is above the low one too. *)
Lemma above_medium_above_low (lo med : float) (score : number) :
  In (lo, med) [(5.0, 6.5); (6.0, 7.2); (7.0, 8.0)]%float ->
  py_lt (PyFloat med) score = true ->
  py_le score (PyFloat lo) = false.
Proof.
  intros Hin H. simpl in Hin.
  destruct score as [z | f].
  - unfold py_lt, py_le, py_cmp in *.
    destruct Hin as [E | [E | [E | []]]]; injection E as <- <-;
      match type of H with context [cmp_int_float _ ?c] => scale_by c end;
      match goal with |- context [cmp_int_float _ ?c] => scale_by c end;
      simpl option_map in H;
      repeat match goal with
             | H : context [Z.compare ?a ?b] |- _ => destruct (Z.compare_spec a b)
             | |- context [Z.compare ?a ?b] => destruct (Z.compare_spec a b)
             end; simpl in H; try discriminate; try reflexivity; lia.
  - unfold py_lt, py_le in *.
    apply (ltb_ltb_not_leb lo med f); [ | exact H ].
    destruct Hin as [E | [E | [E | []]]]; injection E as <- <-; reflexivity.
Qed.

(** C5.  For each tier of the table, a score at most the low cut-off is
    Low/green, a score above it and at most the medium cut-off is
    Medium/yellow, and a score above the medium cut-off is High/red; the low
    cut-off is below the medium one.  At the beginner tier 5.0 is Low, 5.01
    and 6.5 are Medium, 6.51 is High. *)
Theorem thresholds_split_scores :
  (forall (tier : string) (lo med : float) (score : number),
      In (tier, (lo, med)) spec_cutoffs ->
      (lo <? med)%float = true
      /\ (py_le score (PyFloat lo) = true ->
          get_risk_level_and_flag score tier = ("Low", "green")%string)
      /\ (py_lt (PyFloat lo) score = true ->
          py_le score (PyFloat med) = true ->
          get_risk_level_and_flag score tier = ("Medium", "yellow")%string)
      /\ (py_lt (PyFloat med) score = true ->
          get_risk_level_and_flag score tier = ("High", "red")%string))
  /\ get_risk_level_and_flag (PyFloat 5.0) "beginner" = ("Low", "green")%string
  /\ get_risk_level_and_flag (PyFloat 5.01) "beginner" = ("Medium", "yellow")%string
  /\ get_risk_level_and_flag (PyFloat 6.5) "beginner" = ("Medium", "yellow")%string
  /\ get_risk_level_and_flag (PyFloat 6.51) "beginner" = ("High", "red")%string.
Proof.
  split; [ | repeat split; vm_compute; reflexivity ].
  intros tier lo med score Hin.
  assert (Hpair : In (lo, med) [(5.0, 6.5); (6.0, 7.2); (7.0, 8.0)]%float).
  { simpl in Hin. simpl.
    destruct Hin as [E | [E | [E | []]]]; injection E as _ <- <-; auto. }
  assert (Hget : get_risk_level_and_flag score tier =
                 if py_le score (PyFloat lo) then ("Low", "green")%string
                 else if py_le score (PyFloat med) then ("Medium", "yellow")%string
                 else ("High", "red")%string).
  { simpl in Hin.
    destruct Hin as [E | [E | [E | []]]]; injection E as <- <- <-; reflexivity. }
  rewrite Hget. repeat split.
  - simpl in Hpair.
    destruct Hpair as [E | [E | [E | []]]]; injection E as <- <-; reflexivity.
  - intros ->. reflexivity.
  - intros Hlo ->. rewrite (py_lt_not_le _ _ Hlo). reflexivity.
  - intros Hmed.
    rewrite (above_medium_above_low lo med score Hpair Hmed).
    rewrite (py_lt_not_le _ _ Hmed). reflexivity.
Qed.

Lemma thresholds_split_scores_witness :
  get_risk_level_and_flag (PyInt 7) "intermediate" = ("Medium", "yellow")%string.
Proof.
  destruct (proj1 thresholds_split_scores "intermediate"%string 6.0%float 7.2%float
                  (PyInt 7)) as (_ & _ & H & _).
  - simpl. right. left. reflexivity.
  - apply H; vm_compute; reflexivity.
Defined.

End Thresholds.

(** * The confidence read from the classifier *)

Section Confidence.

Lemma getitem_in_range (a : list float) (i : Z) :
  0 <= i < Z.of_nat (List.length a) ->
  exists p, nth_error a (Z.to_nat i) = Some p /\ Np.getitem a i = Ok p.
Proof.
  intros H. unfold Np.getitem.
  destruct (Z.ltb_spec i 0); [ lia | ].
  destruct (Z.leb_spec 0 i); [ | lia ].
  destruct (Z.ltb_spec i (Z.of_nat (List.length a))); [ | lia ].
  simpl.
  destruct (nth_error a (Z.to_nat i)) as [p | ] eqn:E.
  - exists p. split; reflexivity.
  - apply nth_error_None in E. lia.
Qed.

(** C7.  With a predicted level that is an index ([>= 0]) and a
    probability vector that is not empty: when the level falls outside the
    vector the confidence is the probability at index 0 and nothing is
    raised; otherwise it is the probability at the level's index. *)
Theorem confidence_falls_back_to_first :
  forall (level : Z) (proba : list float),
    0 <= level ->
    proba <> [] ->
    (Z.of_nat (List.length proba) <= level ->
     exists p0, nth_error proba 0 = Some p0 /\ pick_confidence level proba = Ok p0)
    /\ (level < Z.of_nat (List.length proba) ->
        exists p, nth_error proba (Z.to_nat level) = Some p
                  /\ pick_confidence level proba = Ok p).
Proof.
  intros level proba Hlevel Hne. unfold pick_confidence. split; intros H.
  - destruct (Z.leb_spec (Z.of_nat (List.length proba)) level); [ | lia ].
    apply (getitem_in_range proba 0).
    destruct proba; [ congruence | simpl; lia ].
  - destruct (Z.leb_spec (Z.of_nat (List.length proba)) level); [ lia | ].
    apply getitem_in_range. lia.
Qed.

Lemma confidence_falls_back_to_first_witness :
  pick_confidence 2 [0.25; 0.75]%float = Ok 0.25%float.
Proof.
  destruct (confidence_falls_back_to_first 2 [0.25; 0.75]%float) as [H _].
  - lia.
  - discriminate.
  - destruct H as (p0 & E0 & E).
    + simpl. lia.
    + injection E0 as <-. exact E.
Defined.

(** The case named by the specification: level 2 against a vector of
    length 2 reads index 0. *)
Example confidence_level_2_length_2 (a b : float) :
  pick_confidence 2 [a; b] = Ok a.
Proof. reflexivity. Qed.

End Confidence.

(** * Per-tier scores *)

Section TierScores.

Import SkillRiskModel.

Lemma py_eq_zero_int (y : Z) : py_eq (PyInt y) (PyInt 0) = (y =? 0).
Proof.
  unfold py_eq, py_cmp. destruct (Z.eqb_spec y 0) as [-> | H].
  - reflexivity.
  - destruct (Z.compare_spec y 0); try reflexivity. contradiction.
Qed.

Lemma py_eq_zero_float (g : float) : py_eq (PyFloat g) (PyInt 0) = (g =? 0)%float.
Proof.
  unfold py_eq, py_cmp, cmp_int_float. rewrite eqb_spec. unfold SFeqb.
  change (Prim2SF 0) with (S754_zero false).
  destruct (Prim2SF g) as [s | s | | s m e].
  - reflexivity.
  - destruct s; reflexivity.
  - reflexivity.
  - assert (H : (if 0 <=? e then 0 ?= cond_Zopp s (Z.pos m) * 2 ^ e
                 else 0 * 2 ^ (- e) ?= cond_Zopp s (Z.pos m)) <> Eq).
    { destruct (Z.leb_spec 0 e) as [He | He]; intros Hc; apply Z.compare_eq in Hc.
      - pose proof (Z.pow_pos_nonneg 2 e ltac:(lia) He) as Hp.
        destruct s; unfold cond_Zopp in Hc; nia.
      - destruct s; unfold cond_Zopp in Hc; lia. }
    unfold option_map.
    destruct (if 0 <=? e then _ else _); try congruence; destruct s; reflexivity.
Qed.

Lemma float_of_Z_10 : float_of_Z 10 = 10%float.
Proof. reflexivity. Qed.

(** C8, as the code has it.  For an int count in the range of the floats
    and a maximum above 0, the per-tier score is the product
    [count / maximum * 10 * multiplier] rounded to two decimals when the
    product is below 10, and 10 otherwise.  (Beyond that range the division
    raises OverflowError.) *)
Theorem tier_score_is_rounded_clamp :
  forall (count maximum : Z) (multiplier : float),
    0 < maximum ->
    fits_float count ->
    calculate_risk_score (PyInt count) (PyInt maximum) (PyFloat multiplier)
    = Ok (let product := (int_truediv count maximum * 10 * multiplier)%float in
          if py_lt (PyFloat product) (PyInt 10)
          then PyFloat (float_round2 product)
          else PyInt 10).
Proof.
  intros count maximum multiplier Hmax _.
  unfold calculate_risk_score. rewrite py_eq_zero_int.
  destruct (Z.eqb_spec maximum 0) as [E | _]; [ lia | ].
  unfold py_truediv.
  destruct (Z.eqb_spec maximum 0) as [E | _]; [ lia | ].
  cbn [Py.bind py_mul to_float]. rewrite float_of_Z_10.
  unfold py_min.
  destruct (py_lt (PyFloat (int_truediv count maximum * 10 * multiplier)) (PyInt 10));
    reflexivity.
Qed.

Lemma tier_score_is_rounded_clamp_witness :
  calculate_risk_score (PyInt 50) (PyInt 81) (PyFloat 1.0) = Ok (PyFloat 6.17).
Proof.
  rewrite (tier_score_is_rounded_clamp 50 81 1.0%float).
  - vm_compute. reflexivity.
  - lia.
  - vm_compute. reflexivity.
Defined.

(** C8, as stated, fails: at Hikkaduwa's intermediate tier (50 incidents,
    the maximum is 81, multiplier 1.0) the product is 6.172839506172839 and
    the computed score is 6.17. *)
Lemma tier_score_differs_from_plain_clamp :
  calculate_risk_score (PyInt 50) (PyInt 81) (PyFloat 1.0) = Ok (PyFloat 6.17)
  /\ spec_tier_score 50 81 1.0 = PyFloat 6.172839506172839
  /\ py_eq (PyFloat 6.17) (spec_tier_score 50 81 1.0) = false.
Proof. repeat split; vm_compute; reflexivity. Qed.

(** C10.  Whatever the incident count and the multiplier, a maximum equal
    to 0 (the int 0 or a float zero) gives the score 0.  The division is
    therefore never reached with a zero divisor: on no numbers at all does
    the function raise ZeroDivisionError, and on numbers whose ints are in
    the range of the floats it returns a score. *)
Theorem zero_maximum_gives_zero :
  (forall incidents_count max_incidents skill_multiplier : number,
      py_eq max_incidents (PyInt 0) = true ->
      calculate_risk_score incidents_count max_incidents skill_multiplier
      = Ok (PyInt 0))
  /\ (forall incidents_count max_incidents skill_multiplier : number,
         calculate_risk_score incidents_count max_incidents skill_multiplier
         <> Raise ZeroDivisionError)
  /\ (forall incidents_count max_incidents skill_multiplier : number,
         number_fits incidents_count ->
         number_fits max_incidents ->
         number_fits skill_multiplier ->
         exists score,
           calculate_risk_score incidents_count max_incidents skill_multiplier
           = Ok score).
Proof.
  assert (Hdiv : forall c m : number,
             py_eq m (PyInt 0) = false -> exists ratio, py_truediv c m = Ok ratio).
  { intros c m Hzero. unfold py_truediv.
    destruct m as [y | g].
    - rewrite py_eq_zero_int in Hzero.
      destruct c as [x | f].
      + rewrite Hzero. eauto.
      + cbn [to_float]. rewrite float_of_Z_nonzero; [ eauto | ].
        apply Z.eqb_neq. exact Hzero.
    - rewrite py_eq_zero_float in Hzero.
      destruct c as [x | f]; cbn [to_float]; rewrite Hzero; eauto. }
  assert (Hreturns : forall c m k : number,
             exists score, calculate_risk_score c m k = Ok score).
  { intros c m k. unfold calculate_risk_score.
    destruct (py_eq m (PyInt 0)) eqn:Hzero; [ eauto | ].
    destruct (Hdiv c m Hzero) as (ratio & ->). simpl. eauto. }
  split; [ | split ].
  - intros c m k H. unfold calculate_risk_score. rewrite H. reflexivity.
  - intros c m k. destruct (Hreturns c m k) as (score & ->). discriminate.
  - intros c m k _ _ _. apply Hreturns.
Qed.

Lemma zero_maximum_gives_zero_witness :
  calculate_risk_score (PyInt 142) (PyFloat (-0)) (PyFloat 1.5) = Ok (PyInt 0).
Proof.
  apply (proj1 zero_maximum_gives_zero). reflexivity.
Defined.

End TierScores.

(** * The overall score *)

Section OverallScore.



End OverallScore.

(** * Feature extraction *)

Section FeatureExtraction.

Variable clock : Clock.

Lemma boost_loop_is_sum (hs : list HazardReport) :
  boost_loop hs = py_sum (map spec_weight hs).
Proof.
  unfold boost_loop, py_sum. generalize (PyInt 0).
  induction hs as [ | h hs IH]; intros acc; simpl.
  - reflexivity.
  - apply IH.
Qed.

(** Feature extraction reads the store and leaves the world as it was; the
    boost and the [total_incidents] feature are as computed here. *)
Lemma calculate_spot_features_returns (spot_name : string) (w : World) :
  exists features,
    calculate_spot_features clock spot_name w
    = (Ok (features,
           match find_one_spot (db w) spot_name with
           | Some surf_spot =>
               boost_loop (find_recent_hazards (db w) (s_id surf_spot)
                                               (now clock - one_day))
           | None => PyInt 0
           end), w)
    /\ total_incidents features
       = py_add (PyInt (Z.of_nat (List.length (find_incidents (db w) spot_name))))
                (py_mul match find_one_spot (db w) spot_name with
                        | Some surf_spot =>
                            boost_loop (find_recent_hazards (db w) (s_id surf_spot)
                                                            (now clock - one_day))
                        | None => PyInt 0
                        end (PyInt 5)).
Proof.
  unfold calculate_spot_features, mbind, get_db, lift, ret.
  cbn [py_truediv Z.eqb].
  eexists. split; reflexivity.
Qed.

(** C6.  For a location of the registry, the recency boost is the sum, over
    its reports dated within the last 24 hours whose status is not
    "rejected", of 2 for high, 1 for medium and 0.5 otherwise, and the
    [total_incidents] feature is the raw incident count plus 5 times the
    boost; with one recent report, of high severity, the boost is 2 and
    [total_incidents] is the raw count plus 10. *)
Theorem recency_boost_is_weighted_sum :
  forall (w : World) (spot_name : string) (surf_spot : SurfSpot),
    find_one_spot (db w) spot_name = Some surf_spot ->
    let raw := Z.of_nat (List.length (find_incidents (db w) spot_name)) in
    let boost :=
      spec_recency_boost (now clock) (s_id surf_spot)
                         (hazard_reports_collection (db w)) in
    exists features,
      calculate_spot_features clock spot_name w = (Ok (features, boost), w)
      /\ total_incidents features = py_add (PyInt raw) (py_mul boost (PyInt 5))
      /\ (forall h,
             find_recent_hazards (db w) (s_id surf_spot) (now clock - one_day) = [h] ->
             h_severity h = Some "high"%string ->
             boost = PyInt 2 /\ total_incidents features = PyInt (raw + 10)).
Proof.
  intros w spot_name surf_spot Hspot raw boost.
  destruct (calculate_spot_features_returns spot_name w) as (features & Hrun & Htotal).
  rewrite Hspot in Hrun, Htotal.
  assert (Hboost : boost_loop (find_recent_hazards (db w) (s_id surf_spot)
                                                   (now clock - one_day)) = boost).
  { rewrite boost_loop_is_sum. reflexivity. }
  rewrite Hboost in Hrun, Htotal.
  exists features. split; [ exact Hrun | split; [ exact Htotal | ] ].
  intros h Hone Hhigh.
  assert (E : boost = PyInt 2).
  { rewrite <- Hboost, Hone. unfold boost_loop, hazard_weight. simpl.
    rewrite Hhigh. reflexivity. }
  split; [ exact E | ].
  rewrite Htotal, E. simpl. reflexivity.
Qed.

End FeatureExtraction.

Lemma recency_boost_is_weighted_sum_witness :
  exists features,
    calculate_spot_features sample_clock "Hikkaduwa" sample_world
    = (Ok (features, PyInt 2), sample_world)
    /\ total_incidents features = PyInt 12.
Proof.
  destruct (recency_boost_is_weighted_sum sample_clock sample_world "Hikkaduwa"%string
              {| s_id := 1; s_name := "Hikkaduwa"; s_riskScore := None;
                 s_riskLevel := None; s_flagColor := None; s_lastUpdated := None |}
              eq_refl) as (features & Hrun & _ & Hone).
  exists features. split.
  - exact Hrun.
  - apply (Hone {| h_surfSpot := 1; h_reportDate := 1762124400000;
                   h_status := Some "pending"%string;
                   h_severity := Some "high"%string |}); reflexivity.
Defined.

(** * Scoring one location *)

Section SingleLocation.

Variable clock : Clock.
Variable feature_cols : list string.
Variable rf_predict : Row -> result Z.
Variable rf_predict_proba : Row -> result (list float).

(** Scoring one location never writes: whatever it returns or raises, the
    world is the one it started from. *)
Lemma predict_risk_score_reads_only (spot_name : string) (w : World) :
  snd (predict_risk_score clock feature_cols rf_predict rf_predict_proba spot_name w) = w.
Proof.
  unfold predict_risk_score.
  destruct (calculate_spot_features_returns clock spot_name w) as (features & Hrun & _).
  unfold mbind at 1. rewrite Hrun.
  unfold mbind, lift, ret.
  destruct (rf_predict _) as [level | e]; [ | reflexivity ].
  destruct (rf_predict_proba _) as [proba | e]; [ | reflexivity ].
  destruct (pick_confidence level proba) as [conf | e]; [ | reflexivity ].
  destruct (fixed_level_and_flag _). reflexivity.
Qed.

(** What a returned prediction is made of. *)
Lemma predict_risk_score_returned (spot_name : string) (w w' : World)
  (prediction : Prediction) :
  predict_risk_score clock feature_cols rf_predict rf_predict_proba spot_name w
  = (Ok prediction, w') ->
  exists features hazard_boost level proba conf,
    calculate_spot_features clock spot_name w = (Ok (features, hazard_boost), w)
    /\ rf_predict (data_frame features feature_cols) = Ok level
    /\ rf_predict_proba (data_frame features feature_cols) = Ok proba
    /\ pick_confidence level proba = Ok conf
    /\ risk_score prediction = Np.round2 (clipped_risk_score level conf hazard_boost)
    /\ (risk_level prediction, flag_color prediction)
       = fixed_level_and_flag (clipped_risk_score level conf hazard_boost)
    /\ confidence prediction = Np.round2 conf
    /\ has_recent_hazards prediction = py_gt hazard_boost (PyInt 0).
Proof.
  unfold predict_risk_score.
  destruct (calculate_spot_features_returns clock spot_name w) as (features & Hrun & _).
  unfold mbind at 1. rewrite Hrun.
  unfold mbind, lift, ret.
  destruct (rf_predict _) as [level | e] eqn:Hlevel; [ | discriminate ].
  destruct (rf_predict_proba _) as [proba | e] eqn:Hproba; [ | discriminate ].
  destruct (pick_confidence level proba) as [conf | e] eqn:Hconf; [ | discriminate ].
  destruct (fixed_level_and_flag _) as [lvl flag] eqn:Hflag.
  intros H. injection H as <- <-.
  do 5 eexists. repeat split; try eassumption; try reflexivity.
  symmetry. exact Hflag.
Qed.

(** C3, as the code has it.  When the location has no record in the
    registry, feature extraction still succeeds: the recency boost is 0 and
    [total_incidents] is the raw incident count.  Scoring then succeeds
    whenever the classifier answers, with the score synthesized from its
    answer and a boost of 0 and with [has_recent_hazards] false, and the
    request layer answers with status 200. *)
Theorem missing_spot_scores_without_boost :
  forall (w : World) (spot_name : string),
    find_one_spot (db w) spot_name = None ->
    exists features,
      calculate_spot_features clock spot_name w = (Ok (features, PyInt 0), w)
      /\ total_incidents features
         = PyInt (Z.of_nat (List.length (find_incidents (db w) spot_name)))
      /\ (forall (level : Z) (proba : list float) (conf : float),
             rf_predict (data_frame features feature_cols) = Ok level ->
             rf_predict_proba (data_frame features feature_cols) = Ok proba ->
             pick_confidence level proba = Ok conf ->
             exists prediction,
               predict_risk_score clock feature_cols rf_predict rf_predict_proba
                                  spot_name w = (Ok prediction, w)
               /\ predict_risk clock feature_cols rf_predict rf_predict_proba
                               spot_name w = (Ok (200, Success prediction), w)
               /\ risk_score prediction
                  = Np.round2 (clipped_risk_score level conf (PyInt 0))
               /\ has_recent_hazards prediction = false).
Proof.
  intros w spot_name Hnone.
  destruct (calculate_spot_features_returns clock spot_name w)
    as (features & Hrun & Htotal).
  rewrite Hnone in Hrun, Htotal.
  exists features. split; [ exact Hrun | split ].
  - rewrite Htotal. cbn [py_mul py_add]. f_equal. lia.
  - intros level proba conf Hlevel Hproba Hconf.
    assert (Hscore : exists prediction,
               predict_risk_score clock feature_cols rf_predict rf_predict_proba
                                  spot_name w = (Ok prediction, w)
               /\ risk_score prediction
                  = Np.round2 (clipped_risk_score level conf (PyInt 0))
               /\ has_recent_hazards prediction = false).
    { unfold predict_risk_score. unfold mbind at 1. rewrite Hrun.
      unfold mbind, lift, ret. rewrite Hlevel, Hproba, Hconf.
      destruct (fixed_level_and_flag _) as [lvl flag].
      eexists. split; [ reflexivity | split; reflexivity ]. }
    destruct Hscore as (prediction & Hp & Hs & Hr).
    exists prediction. repeat split; try assumption.
    unfold predict_risk, try_except, mbind. rewrite Hp. reflexivity.
Qed.

End SingleLocation.

Lemma missing_spot_scores_without_boost_witness :
  exists prediction,
    predict_risk_score sample_clock sample_cols sample_predict sample_predict_proba
                       "Midigama" sample_world = (Ok prediction, sample_world)
    /\ has_recent_hazards prediction = false.
Proof.
  destruct (missing_spot_scores_without_boost sample_clock sample_cols sample_predict
              sample_predict_proba sample_world "Midigama"%string eq_refl)
    as (features & _ & _ & Hscore).
  destruct (Hscore 1 [0.2; 0.7; 0.1]%float 0.7%float eq_refl eq_refl eq_refl)
    as (prediction & Hrun & _ & _ & Hrecent).
  exists prediction. split; assumption.
Defined.

(** C3, as stated, fails: "Midigama" has incidents but no record in the
    sample registry; scoring it returns a prediction instead of raising,
    and the request layer answers with a success envelope. *)
Lemma missing_spot_is_not_an_error :
  find_one_spot sample_store "Midigama" = None
  /\ fst (predict_risk_score sample_clock sample_cols sample_predict
                             sample_predict_proba "Midigama" sample_world)
     = Ok {| risk_score := 7.06;
             risk_level := "High";
             flag_color := "red";
             confidence := 0.7;
             has_recent_hazards := false |}
  /\ fst (predict_risk sample_clock sample_cols sample_predict
                       sample_predict_proba "Midigama" sample_world)
     = Ok (200, Success {| risk_score := 7.06;
                           risk_level := "High";
                           flag_color := "red";
                           confidence := 0.7;
                           has_recent_hazards := false |}).
Proof. repeat split; vm_compute; reflexivity. Qed.

(** * The batch updater *)

Section BatchUpdate.

Variable clock : Clock.
Variable feature_cols : list string.
Variable rf_predict : Row -> result Z.
Variable rf_predict_proba : Row -> result (list float).
Variable update_one : Store -> Z -> SpotUpdate -> result unit * Store.

Local Abbreviation update_spot' :=
  (update_spot clock feature_cols rf_predict rf_predict_proba update_one).

Variable find : Store -> Documents.Cursor.

Local Abbreviation outcome :=
  (location_outcome clock feature_cols rf_predict rf_predict_proba update_one).
Local Abbreviation update_doc' :=
  (Documents.update_doc clock feature_cols rf_predict rf_predict_proba update_one).

(** One location inside the [try], with a handler that prints the error
    for it: the prediction is written and printed, or the exception raised
    by the prediction or by the write is printed for this location. *)
Lemma location_handled (spot : SurfSpot) (handler : exn -> M unit) :
  (forall e w, handler e w = print (ErrorUpdating (s_name spot) e) w) ->
  forall w : World,
    try_except (update_spot' spot) handler w = (Ok tt, outcome w spot).
Proof.
  intros Hhandler w.
  pose proof (predict_risk_score_reads_only clock feature_cols rf_predict
                rf_predict_proba (s_name spot) w) as Hw.
  unfold try_except, location_outcome, update_spot. unfold mbind at 1.
  destruct (predict_risk_score clock feature_cols rf_predict rf_predict_proba
                               (s_name spot) w) as [[prediction | e] w1];
    cbn [snd] in Hw; subst w1.
  - unfold mbind, write_back.
    destruct (update_one (db w) (s_id spot) _) as [[[] | e] d'].
    + reflexivity.
    + rewrite Hhandler. reflexivity.
  - rewrite Hhandler. reflexivity.
Qed.

Lemma typed_loop_outcomes (spots : list SurfSpot) :
  forall w : World,
    for_each spots
      (fun spot => try_except (update_spot' spot)
                              (fun e => print (ErrorUpdating (s_name spot) e))) w
    = (Ok tt, fold_left outcome spots w).
Proof.
  induction spots as [ | spot rest IH]; intros w; [ reflexivity | ].
  cbn [for_each fold_left]. unfold mbind at 1.
  rewrite (location_handled spot (fun e => print (ErrorUpdating (s_name spot) e))
             (fun e w' => eq_refl) w).
  apply IH.
Qed.

Lemma named_loop_outcomes (spots : list SurfSpot) :
  forall w : World,
    for_each (map Documents.Named spots)
      (fun doc => try_except (update_doc' doc) (Documents.report_error doc)) w
    = (Ok tt, fold_left outcome spots w).
Proof.
  induction spots as [ | spot rest IH]; intros w; [ reflexivity | ].
  cbn [map for_each fold_left]. unfold mbind at 1.
  cbn [Documents.update_doc].
  rewrite (location_handled spot (Documents.report_error (Documents.Named spot))
             (fun e w' => eq_refl) w).
  apply IH.
Qed.

Lemma nameless_loop_stops (before : list SurfSpot) (id : Z)
  (rest : list Documents.SpotDoc) :
  forall w : World,
    for_each (map Documents.Named before ++ Documents.Nameless id :: rest)
      (fun doc => try_except (update_doc' doc) (Documents.report_error doc)) w
    = (Raise (KeyError "name"), fold_left outcome before w).
Proof.
  induction before as [ | spot before IH]; intros w.
  - reflexivity.
  - cbn [map app for_each fold_left]. unfold mbind at 1.
    cbn [Documents.update_doc].
    rewrite (location_handled spot (Documents.report_error (Documents.Named spot))
               (fun e w' => eq_refl) w).
    apply IH.
Qed.

Lemma typed_batch_outcomes (w : World) :
  update_all_risk_scores clock feature_cols rf_predict rf_predict_proba update_one w
  = (Ok tt,
     batch_closed (fold_left outcome (surf_spots_collection (db w)) (batch_opened w))).
Proof.
  unfold update_all_risk_scores.
  unfold mbind at 1. unfold print at 1.
  unfold mbind at 1. unfold get_db. cbn [db].
  unfold mbind at 1.
  rewrite (typed_loop_outcomes (surf_spots_collection (db w))).
  reflexivity.
Qed.

Lemma documents_batch_outcomes (spots : list SurfSpot) (w : World) :
  find (db w) = {| Documents.yielded := map Documents.Named spots;
                   Documents.failure := None |} ->
  Documents.update_all_risk_scores clock feature_cols rf_predict rf_predict_proba
                                   update_one find w
  = (Ok tt, batch_closed (fold_left outcome spots (batch_opened w))).
Proof.
  intros Hfind. unfold Documents.update_all_risk_scores.
  unfold mbind at 1. unfold print at 1.
  unfold mbind at 1. unfold get_db. cbn [db]. rewrite Hfind.
  cbn [Documents.yielded Documents.failure].
  unfold mbind at 1.
  rewrite (named_loop_outcomes spots).
  reflexivity.
Qed.

Lemma documents_batch_nameless (before : list SurfSpot) (id : Z)
  (rest : list Documents.SpotDoc) (failure : option exn) (w : World) :
  find (db w) = {| Documents.yielded :=
                     map Documents.Named before ++ Documents.Nameless id :: rest;
                   Documents.failure := failure |} ->
  Documents.update_all_risk_scores clock feature_cols rf_predict rf_predict_proba
                                   update_one find w
  = (Raise (KeyError "name"), fold_left outcome before (batch_opened w)).
Proof.
  intros Hfind. unfold Documents.update_all_risk_scores.
  unfold mbind at 1. unfold print at 1.
  unfold mbind at 1. unfold get_db. cbn [db]. rewrite Hfind.
  cbn [Documents.yielded Documents.failure].
  unfold mbind at 1.
  rewrite (nameless_loop_stops before id rest).
  reflexivity.
Qed.

Lemma documents_batch_cursor_fails (spots : list SurfSpot) (e : exn) (w : World) :
  find (db w) = {| Documents.yielded := map Documents.Named spots;
                   Documents.failure := Some e |} ->
  Documents.update_all_risk_scores clock feature_cols rf_predict rf_predict_proba
                                   update_one find w
  = (Raise e, fold_left outcome spots (batch_opened w)).
Proof.
  intros Hfind. unfold Documents.update_all_risk_scores.
  unfold mbind at 1. unfold print at 1.
  unfold mbind at 1. unfold get_db. cbn [db]. rewrite Hfind.
  cbn [Documents.yielded Documents.failure].
  unfold mbind at 1.
  rewrite (named_loop_outcomes spots).
  reflexivity.
Qed.


End BatchUpdate.


(** The failing input: the cursor yields a document without a name, then
    Hikkaduwa.  The batch ends with the handler's KeyError after the
    opening banner; Hikkaduwa is not handled and nothing else is printed. *)
Example batch_update_with_nameless_document :
  Documents.update_all_risk_scores sample_clock sample_cols sample_predict
    sample_predict_proba mem_update_one
    (fun _ =>
       {| Documents.yielded :=
            [ Documents.Nameless 7;
              Documents.Named
                {| s_id := 1; s_name := "Hikkaduwa"; s_riskScore := None;
                   s_riskLevel := None; s_flagColor := None;
                   s_lastUpdated := None |} ];
          Documents.failure := None |})
    sample_world
  = (Raise (KeyError "name"),
     {| db := sample_store;
        stdout := [ Banner "Updating risk scores for all surf spots..." ] |}).
Proof. vm_compute. reflexivity. Qed.

(** A run over the sample registry with a classifier that fails: both
    locations are visited and both failures are printed. *)
Example batch_update_with_failing_classifier :
  update_all_risk_scores sample_clock sample_cols
    (fun _ => Raise (ExternalError "model failure")) sample_predict_proba
    mem_update_one sample_world
  = (Ok tt,
     {| db := sample_store;
        stdout :=
          [ Banner "Updating risk scores for all surf spots...";
            ErrorUpdating "Hikkaduwa" (ExternalError "model failure");
            ErrorUpdating "Weligama" (ExternalError "model failure");
            Banner "Risk scores updated successfully!" ] |}).
Proof. vm_compute. reflexivity. Qed.

(** * More facts about binary64 values *)

Section FloatOrderLe.

Local Ltac cmp_cases' :=
  repeat match goal with
         | |- context [Z.compare ?a ?b] => destruct (Z.compare_spec a b); subst
         | H : context [Z.compare ?a ?b] |- _ => destruct (Z.compare_spec a b); subst
         | |- context [Pos.compare_cont Eq ?a ?b] =>
             change (Pos.compare_cont Eq a b) with (Pos.compare a b);
             destruct (Pos.compare_spec a b); subst
         | H : context [Pos.compare_cont Eq ?a ?b] |- _ =>
             change (Pos.compare_cont Eq a b) with (Pos.compare a b) in H;
             destruct (Pos.compare_spec a b); subst
         end;
  simpl in *; try discriminate; try reflexivity; try lia.

Lemma SFleb_trans (x y z : spec_float) :
  SFleb x y = true -> SFleb y z = true -> SFleb x z = true.
Proof.
  unfold SFleb.
  destruct x as [sx | sx | | sx mx ex], y as [sy | sy | | sy my ey],
    z as [sz | sz | | sz mz ez];
    try destruct sx; try destruct sy; try destruct sz; simpl;
    intros Hxy Hyz; try discriminate; try reflexivity; cmp_cases'.
Qed.

Lemma leb_trans (x y z : float) :
  (x <=? y)%float = true -> (y <=? z)%float = true -> (x <=? z)%float = true.
Proof. rewrite !leb_spec. apply SFleb_trans. Qed.

(** A comparison with a NaN is false. *)
Lemma leb_nan_l (x y : float) : is_nan x = true -> (x <=? y)%float = false.
Proof.
  intros H. rewrite leb_spec.
  destruct (Prim2SF x) eqn:E; try reflexivity;
    assert (Hn : is_nan x = false) by (apply is_nan_false; rewrite E; discriminate);
    congruence.
Qed.

End FloatOrderLe.

Section PositiveSums.

Lemma digits_at_least_53 (p : positive) : 2 ^ 52 <= Zpos p -> 53 <= Zpos (digits2_pos p).
Proof.
  intros H. destruct (digits2_pos_bounds p) as [_ Hhi].
  assert (52 < Zpos (digits2_pos p)); [ | lia ].
  apply (Z.pow_lt_mono_r_iff 2); lia.
Qed.

(** Rounding a mantissa of at least 53 digits, in the normal range: the
    result keeps the sign and is a normal number or an infinity. *)
Lemma binary_round_aux_normal_shape (s : bool) (m : positive) (e : Z) (l : location) :
  53 <= Zpos (digits2_pos m) -> -1074 <= e ->
  normal_or_inf s (binary_round_aux prec emax s (Zpos m) e l) = true.
Proof.
  intros Hd He. unfold binary_round_aux.
  destruct (shr_fexp_normal m e l Hd He) as (mrs1 & -> & Hm1).
  pose proof (top_53_digits m Hd) as Hb1. rewrite <- Hm1 in Hb1.
  pose proof (round_nearest_even_step (shr_m mrs1) (loc_of_shr_record mrs1)) as Hr.
  destruct (round_nearest_even (shr_m mrs1) (loc_of_shr_record mrs1))
    as [ | q | q] eqn:Eq; try lia.
  assert (Hdq : 53 <= Zpos (digits2_pos q)) by (apply digits_at_least_53; lia).
  destruct (digits2_pos_bounds q) as [Hqlo Hqhi].
  assert (Hdq' : Zpos (digits2_pos q) <= 54).
  { assert (Zpos (digits2_pos q) - 1 < 54); [ | lia ].
    apply (Z.pow_lt_mono_r_iff 2); lia. }
  destruct (shr_fexp_normal q (e + (Zpos (digits2_pos m) - 53)) loc_Exact
              ltac:(lia) ltac:(lia)) as (mrs2 & -> & Hm2).
  assert (Hb2 : 2 ^ 52 <= shr_m mrs2 < 2 ^ 53).
  { rewrite Hm2. apply top_53_digits. lia. }
  destruct (shr_m mrs2) as [ | m3 | m3] eqn:E3; try (simpl in Hb2; lia).
  assert (Hd3 : Zpos (digits2_pos m3) = 53) by (apply digits2_pos_unique; exact Hb2).
  destruct (Z.leb_spec (e + (Zpos (digits2_pos m) - 53) + (Zpos (digits2_pos q) - 53))
                       (emax - prec)) as [Hle | Hgt].
  - cbn [normal_or_inf]. rewrite Bool.eqb_reflx, Hd3, Z.eqb_refl. cbn [andb].
    apply Z.leb_le. lia.
  - cbn [normal_or_inf]. apply Bool.eqb_reflx.
Qed.

Lemma shl_align_grows (m : positive) (e e' : Z) :
  Zpos m <= Zpos (fst (shl_align m e e')).
Proof.
  unfold shl_align. destruct (e' - e) as [ | d | d]; cbn [fst]; try lia.
  rewrite iter_xO_value.
  assert (0 < 2 ^ Zpos d) by (apply Z.pow_pos_nonneg; lia). nia.
Qed.

Lemma binary_round_keeps_normal (s : bool) (m : positive) (e : Z) :
  53 <= Zpos (digits2_pos m) -> -1074 <= e ->
  normal_or_inf s (binary_round prec emax s m e) = true.
Proof.
  intros Hd He. unfold binary_round, shl_align.
  rewrite fexp_normal by lia.
  destruct (Zpos (digits2_pos m) + e - 53 - e) as [ | d | d] eqn:E; try lia;
    apply binary_round_aux_normal_shape; assumption.
Qed.

(** The sum of two positive normal numbers (or infinities) is one. *)
Lemma SF64add_keeps_positive (x y : spec_float) :
  normal_or_inf false x = true -> normal_or_inf false y = true ->
  normal_or_inf false (SF64add x y) = true.
Proof.
  unfold SF64add, SFadd.
  destruct x as [sx | sx | | sx mx ex], y as [sy | sy | | sy my ey];
    cbn [normal_or_inf]; try discriminate; intros Hx Hy.
  - destruct sx, sy; try discriminate. reflexivity.
  - destruct sx; try discriminate. reflexivity.
  - destruct sy; try discriminate. reflexivity.
  - destruct sx, sy; try discriminate. cbn [Bool.eqb andb] in Hx, Hy.
    apply andb_prop in Hx, Hy. destruct Hx as [Hdx Hex], Hy as [Hdy Hey].
    apply Z.eqb_eq in Hdx, Hdy. apply Z.leb_le in Hex, Hey.
    cbn [cond_Zopp].
    pose proof (shl_align_grows mx ex (Z.min ex ey)) as Hgx.
    destruct (digits2_pos_bounds mx) as [Hlo _]. rewrite Hdx in Hlo.
    change (Zpos (fst (shl_align mx ex (Z.min ex ey)))
            + Zpos (fst (shl_align my ey (Z.min ex ey))))
      with (Zpos (fst (shl_align mx ex (Z.min ex ey))
                  + fst (shl_align my ey (Z.min ex ey)))).
    cbn [binary_normalize].
    apply binary_round_keeps_normal; [ | lia ].
    apply digits_at_least_53. rewrite Pos2Z.inj_add. simpl in Hlo. lia.
Qed.

(** [float(n)] for a positive int. *)
Lemma float_of_Z_positive (n : Z) :
  0 < n -> normal_or_inf false (Prim2SF (float_of_Z n)) = true.
Proof.
  intros Hn. unfold float_of_Z.
  destruct (binary_normalize_int n ltac:(lia)) as [Hv _].
  rewrite Prim2SF_SF2Prim by exact Hv.
  destruct n as [ | p | p]; try lia. cbn [binary_normalize].
  unfold binary_round, shl_align.
  rewrite Z.add_0_r, fexp_normal, Z.sub_0_r by lia.
  destruct (Zpos (digits2_pos p) - 53) as [ | d | d] eqn:Ed.
  - apply binary_round_aux_normal_shape; lia.
  - apply binary_round_aux_normal_shape; lia.
  - apply binary_round_aux_normal_shape; [ | lia ].
    apply digits_at_least_53. rewrite iter_xO_value.
    destruct (digits2_pos_bounds p) as [Hlo _].
    assert (E : 2 ^ 52 = 2 ^ (Zpos (digits2_pos p) - 1) * 2 ^ Zpos d).
    { rewrite <- Z.pow_add_r by lia. f_equal. lia. }
    rewrite E. apply Z.mul_le_mono_nonneg_r; [ | exact Hlo ].
    apply Z.pow_nonneg. lia.
Qed.

(** Such a value is above the int 0. *)
Lemma positive_above_zero (f : float) :
  normal_or_inf false (Prim2SF f) = true -> py_gt (PyFloat f) (PyInt 0) = true.
Proof.
  unfold py_gt, py_lt, py_cmp, cmp_int_float.
  destruct (Prim2SF f) as [s | s | | s m e]; cbn [normal_or_inf]; try discriminate.
  - destruct s; [ discriminate | reflexivity ].
  - destruct s; [ discriminate | ]. intros _. cbn [cond_Zopp].
    destruct (Z.leb_spec 0 e) as [He | He].
    + assert (0 < Zpos m * 2 ^ e).
      { apply Z.mul_pos_pos; [ lia | apply Z.pow_pos_nonneg; lia ]. }
      destruct (Z.compare_spec 0 (Zpos m * 2 ^ e)); [ lia | reflexivity | lia ].
    + reflexivity.
Qed.

(** The boost after at least one report is above 0, whatever the
    severities. *)
Lemma boost_step_positive (boost : number) (h : HazardReport) :
  (boost = PyInt 0
   \/ (exists n, boost = PyInt n /\ 0 < n)
   \/ (exists f, boost = PyFloat f /\ normal_or_inf false (Prim2SF f) = true)) ->
  (exists n, py_add boost (hazard_weight h) = PyInt n /\ 0 < n)
  \/ (exists f, py_add boost (hazard_weight h) = PyFloat f
                /\ normal_or_inf false (Prim2SF f) = true).
Proof.
  assert (Hw : hazard_weight h = PyInt 2 \/ hazard_weight h = PyInt 1
               \/ hazard_weight h = PyFloat 0.5).
  { unfold hazard_weight.
    destruct (field_is (h_severity h) "high"); [ auto | ].
    destruct (field_is (h_severity h) "medium"); auto. }
  intros [-> | [(n & -> & Hn) | (f & -> & Hf)]];
    destruct Hw as [-> | [-> | ->]]; cbn [py_add to_float].
  - left. exists 2. split; [ reflexivity | lia ].
  - left. exists 1. split; [ reflexivity | lia ].
  - right. eexists. split; [ reflexivity | vm_compute; reflexivity ].
  - left. exists (n + 2). split; [ reflexivity | lia ].
  - left. exists (n + 1). split; [ reflexivity | lia ].
  - right. eexists. split; [ reflexivity | ].
    rewrite add_spec. apply SF64add_keeps_positive.
    + apply float_of_Z_positive, Hn.
    + vm_compute. reflexivity.
  - right. eexists. split; [ reflexivity | ].
    rewrite add_spec. apply SF64add_keeps_positive; [ exact Hf | vm_compute; reflexivity ].
  - right. eexists. split; [ reflexivity | ].
    rewrite add_spec. apply SF64add_keeps_positive; [ exact Hf | vm_compute; reflexivity ].
  - right. eexists. split; [ reflexivity | ].
    rewrite add_spec. apply SF64add_keeps_positive; [ exact Hf | vm_compute; reflexivity ].
Qed.

Lemma boost_loop_positive (hs : list HazardReport) :
  hs <> [] -> py_gt (boost_loop hs) (PyInt 0) = true.
Proof.
  intros Hne. unfold boost_loop.
  assert (Hinv : forall hs boost,
             ((exists n, boost = PyInt n /\ 0 < n)
              \/ (exists f, boost = PyFloat f
                            /\ normal_or_inf false (Prim2SF f) = true)) ->
             py_gt (fold_left (fun b h => py_add b (hazard_weight h)) hs boost)
                   (PyInt 0) = true).
  { clear. induction hs as [ | h hs IH]; intros boost Hb; cbn [fold_left].
    - destruct Hb as [(n & -> & Hn) | (f & -> & Hf)].
      + unfold py_gt, py_lt, py_cmp.
        destruct (Z.compare_spec 0 n); [ lia | reflexivity | lia ].
      + apply positive_above_zero, Hf.
    - apply IH, boost_step_positive. tauto. }
  destruct hs as [ | h hs]; [ congruence | ]. cbn [fold_left].
  apply Hinv, boost_step_positive. auto.
Qed.

End PositiveSums.

(** * Feature extraction, beyond the boost *)

Section FeatureCounts.

Variable clock : Clock.

Lemma count_bounds {A : Type} (p : A -> bool) (l : list A) :
  0 <= count p l <= Z.of_nat (List.length l).
Proof.
  unfold count. pose proof (filter_length_le p l). lia.
Qed.

Lemma severity_counts_disjoint (l : list Incident) :
  count (fun i => field_is (i_severity i) "fatal") l
  + count (fun i => field_is (i_severity i) "severe") l
  + count (fun i => field_is (i_severity i) "moderate") l
  <= Z.of_nat (List.length l).
Proof.
  unfold count. induction l as [ | i l IH]; [ simpl; lia | ].
  cbn [filter List.length].
  assert (Hex : (field_is (i_severity i) "fatal" = false
                 /\ field_is (i_severity i) "severe" = false)
                \/ (field_is (i_severity i) "fatal" = false
                    /\ field_is (i_severity i) "moderate" = false)
                \/ (field_is (i_severity i) "severe" = false
                    /\ field_is (i_severity i) "moderate" = false)).
  { unfold field_is. destruct (i_severity i) as [s | ]; [ | auto ].
    destruct (String.eqb_spec s "fatal") as [-> | ]; [ right; right; auto | ].
    destruct (String.eqb_spec s "severe") as [-> | ]; [ right; left; auto | ].
    left. auto. }
  destruct Hex as [[-> ->] | [[-> ->] | [-> ->]]];
    match goal with
    | |- context [if ?b then _ else _] => destruct b
    end; cbn [List.length]; lia.
Qed.

Lemma feature_counts_hold :
  forall (w : World) (spot_name : string),
  exists features hazard_boost,
    calculate_spot_features clock spot_name w = (Ok (features, hazard_boost), w)
    /\ let raw := Z.of_nat (List.length (find_incidents (db w) spot_name)) in
       0 <= fatal_count features
       /\ 0 <= severe_count features
       /\ 0 <= moderate_count features
       /\ fatal_count features + severe_count features + moderate_count features <= raw
       /\ 0 <= drowning_count features <= raw
       /\ 0 <= reef_cut_count features <= raw
       /\ 0 <= collision_count features <= raw
       /\ 0 <= rip_current_count features <= raw
       /\ (is_peak_season features = 0 \/ is_peak_season features = 1).
Proof.
  intros w spot_name.
  unfold calculate_spot_features, mbind, get_db, lift, ret.
  cbn [py_truediv Z.eqb].
  do 2 eexists. split; [ reflexivity | ].
  cbn [fatal_count severe_count moderate_count drowning_count reef_cut_count
       collision_count rip_current_count is_peak_season].
  set (l := find_incidents (db w) spot_name).
  pose proof (severity_counts_disjoint l) as Hsum.
  pose proof (count_bounds (fun i => field_is (i_severity i) "fatal") l).
  pose proof (count_bounds (fun i => field_is (i_severity i) "severe") l).
  pose proof (count_bounds (fun i => field_is (i_severity i) "moderate") l).
  repeat split; try lia;
    try (match goal with
         | |- context [count ?p ?l'] =>
             pose proof (count_bounds p l') as Hc;
             rewrite ?length_map in Hc; lia
         end).
  destruct (existsb _ _); auto.
Qed.

(** X1.  Whenever feature extraction returns features, it has left the
    world as it was and the counts are consistent: every count lies between
    0 and the raw number of incidents of the location, the fatal, severe
    and moderate counts together do not exceed that number, and
    [is_peak_season] is 0 or 1. *)
Theorem feature_counts_are_consistent :
  forall (w w' : World) (spot_name : string) (features : FeatureRecord)
         (hazard_boost : number),
    calculate_spot_features clock spot_name w = (Ok (features, hazard_boost), w') ->
    w' = w
    /\ let raw := Z.of_nat (List.length (find_incidents (db w) spot_name)) in
       0 <= fatal_count features
       /\ 0 <= severe_count features
       /\ 0 <= moderate_count features
       /\ fatal_count features + severe_count features + moderate_count features <= raw
       /\ 0 <= drowning_count features <= raw
       /\ 0 <= reef_cut_count features <= raw
       /\ 0 <= collision_count features <= raw
       /\ 0 <= rip_current_count features <= raw
       /\ (is_peak_season features = 0 \/ is_peak_season features = 1).
Proof.
  intros w w' spot_name features hazard_boost Hrun.
  destruct (feature_counts_hold w spot_name) as (f & b & Hrun' & Hcounts).
  rewrite Hrun' in Hrun. injection Hrun as <- <- <-.
  split; [ reflexivity | exact Hcounts ].
Qed.

(** X2.  [is_peak_season] is 1 exactly when some incident of the location
    carries the current month; an incident without a month, or with month
    0, never counts. *)
Theorem peak_season_iff_current_month_seen :
  forall (w : World) (spot_name : string),
  exists features hazard_boost,
    calculate_spot_features clock spot_name w = (Ok (features, hazard_boost), w)
    /\ (is_peak_season features = 1
        <-> current_month clock <> 0
            /\ exists i, In i (find_incidents (db w) spot_name)
                         /\ i_month i = Some (current_month clock)).
Proof.
  intros w spot_name.
  unfold calculate_spot_features, mbind, get_db, lift, ret.
  cbn [py_truediv Z.eqb].
  do 2 eexists. split; [ reflexivity | ].
  cbn [is_peak_season].
  set (l := find_incidents (db w) spot_name).
  destruct (existsb (Z.eqb (current_month clock)) (incident_months l)) eqn:E.
  - split; [ intros _ | reflexivity ].
    apply existsb_exists in E. destruct E as (m & Hin & Hm).
    apply Z.eqb_eq in Hm. subst m.
    unfold incident_months in Hin. apply in_flat_map in Hin.
    destruct Hin as (i & Hi & Hmonth).
    destruct (i_month i) as [m | ] eqn:Em; [ | contradiction ].
    destruct (Z.eqb_spec m 0) as [ | Hnz]; [ contradiction | ].
    destruct Hmonth as [<- | []]. split; [ exact Hnz | ]. eauto.
  - split; [ discriminate | ].
    intros (Hnz & i & Hi & Hmonth). exfalso.
    assert (Hex : existsb (Z.eqb (current_month clock)) (incident_months l) = true);
      [ | congruence ].
    apply existsb_exists. exists (current_month clock).
    split; [ | apply Z.eqb_refl ].
    unfold incident_months. apply in_flat_map. exists i. split; [ exact Hi | ].
    rewrite Hmonth. destruct (Z.eqb_spec (current_month clock) 0); [ contradiction | ].
    left. reflexivity.
Qed.

End FeatureCounts.

Lemma feature_counts_are_consistent_witness :
  sample_world = sample_world
  /\ let raw := Z.of_nat (List.length (find_incidents (db sample_world) "Hikkaduwa")) in
     0 <= fatal_count sample_features
     /\ 0 <= severe_count sample_features
     /\ 0 <= moderate_count sample_features
     /\ fatal_count sample_features + severe_count sample_features
        + moderate_count sample_features <= raw
     /\ 0 <= drowning_count sample_features <= raw
     /\ 0 <= reef_cut_count sample_features <= raw
     /\ 0 <= collision_count sample_features <= raw
     /\ 0 <= rip_current_count sample_features <= raw
     /\ (is_peak_season sample_features = 0 \/ is_peak_season sample_features = 1).
Proof.
  exact (feature_counts_are_consistent sample_clock sample_world sample_world
           "Hikkaduwa" sample_features (PyInt 2) eq_refl).
Defined.

(** * Scoring one location: errors and flags *)

Section ScoringEdges.

(** X3.  Reading the confidence raises exactly when the probability vector
    is empty or the level lies below minus its length, and then the error
    is IndexError: the guard covers levels at or beyond the end only. *)
Theorem confidence_read_raises_iff :
  forall (level : Z) (proba : list float),
    (forall e, pick_confidence level proba = Raise e -> e = IndexError)
    /\ ((exists e, pick_confidence level proba = Raise e)
        <-> proba = [] \/ level < - Z.of_nat (List.length proba)).
Proof.
  intros level proba.
  assert (Hget : forall i, (forall e, Np.getitem proba i = Raise e -> e = IndexError)
                           /\ ((exists e, Np.getitem proba i = Raise e)
                               <-> i < - Z.of_nat (List.length proba)
                                   \/ Z.of_nat (List.length proba) <= i)).
  { intros i. unfold Np.getitem.
    set (n := Z.of_nat (List.length proba)).
    destruct (Z.ltb_spec i 0) as [Hneg | Hpos].
    - destruct (Z.leb_spec 0 (i + n)); destruct (Z.ltb_spec (i + n) n);
        cbn [andb]; try lia.
      + destruct (nth_error proba (Z.to_nat (i + n))) as [x | ] eqn:E.
        * split; [ discriminate | ].
          split; [ intros [e He]; discriminate | lia ].
        * apply nth_error_None in E. lia.
      + split; [ intros e He; congruence | ]. split; [ lia | eauto ].
    - destruct (Z.leb_spec 0 i); destruct (Z.ltb_spec i n); cbn [andb]; try lia.
      + destruct (nth_error proba (Z.to_nat i)) as [x | ] eqn:E.
        * split; [ discriminate | ].
          split; [ intros [e He]; discriminate | lia ].
        * apply nth_error_None in E. lia.
      + split; [ intros e He; congruence | ]. split; [ lia | eauto ]. }
  unfold pick_confidence.
  destruct (Z.leb_spec (Z.of_nat (List.length proba)) level) as [Hge | Hlt].
  - destruct (Hget 0) as [H1 H2]. split; [ exact H1 | ].
    rewrite H2. destruct proba; cbn [List.length]; split; intros H.
    + auto.
    + right. lia.
    + lia.
    + destruct H as [H | H]; [ discriminate | lia ].
  - destruct (Hget level) as [H1 H2]. split; [ exact H1 | ].
    rewrite H2. destruct proba; cbn [List.length] in *; split; intros H.
    + auto.
    + lia.
    + right. lia.
    + destruct H as [H | H]; [ discriminate | lia ].
Qed.

Variable clock : Clock.
Variable feature_cols : list string.
Variable rf_predict : Row -> result Z.
Variable rf_predict_proba : Row -> result (list float).

Local Abbreviation score_spot :=
  (predict_risk_score clock feature_cols rf_predict rf_predict_proba).
Local Abbreviation route :=
  (predict_risk clock feature_cols rf_predict rf_predict_proba).

(** X5.  The request layer never raises and never writes: it answers 200
    with the prediction when scoring returns one, and 500 with the
    exception when scoring raises. *)
Theorem predict_route_always_answers :
  forall (spot_name : string) (w : World),
    (exists prediction,
        score_spot spot_name w = (Ok prediction, w)
        /\ route spot_name w = (Ok (200, Success prediction), w))
    \/ (exists e,
           score_spot spot_name w = (Raise e, w)
           /\ route spot_name w = (Ok (500, Failure e), w)).
Proof.
  intros spot_name w.
  pose proof (predict_risk_score_reads_only clock feature_cols rf_predict
                rf_predict_proba spot_name w) as Hw.
  unfold predict_risk, try_except, mbind, ret.
  destruct (score_spot spot_name w) as [[prediction | e] w1];
    cbn [snd] in Hw; subst w1; [ left | right ]; eauto.
Qed.

(** X6.  A returned prediction has [has_recent_hazards] true exactly when
    the location is registered and the hazard query (last 24 hours, not
    rejected) returns at least one report. *)
Theorem recent_hazards_flag_iff_reports :
  forall (spot_name : string) (w w' : World) (prediction : Prediction),
    score_spot spot_name w = (Ok prediction, w') ->
    (has_recent_hazards prediction = true
     <-> exists surf_spot,
           find_one_spot (db w) spot_name = Some surf_spot
           /\ find_recent_hazards (db w) (s_id surf_spot) (now clock - one_day) <> []).
Proof.
  intros spot_name w w' prediction Hrun.
  destruct (predict_risk_score_returned clock feature_cols rf_predict rf_predict_proba
              spot_name w w' prediction Hrun)
    as (features & boost & level & proba & conf & Hfeat & _ & _ & _ & _ & _ & _ & Hflag).
  destruct (calculate_spot_features_returns clock spot_name w) as (features' & Hfeat' & _).
  rewrite Hfeat in Hfeat'. injection Hfeat' as _ Hboost.
  rewrite Hflag, Hboost.
  destruct (find_one_spot (db w) spot_name) as [surf_spot | ].
  - destruct (find_recent_hazards (db w) (s_id surf_spot) (now clock - one_day))
      as [ | h hs] eqn:Ehs.
    + split; [ discriminate | ].
      intros (s & Hs & Hne). injection Hs as <-. congruence.
    + split; [ intros _ | intros _; apply boost_loop_positive; discriminate ].
      exists surf_spot. split; [ reflexivity | ]. rewrite Ehs. discriminate.
  - split; [ discriminate | ]. intros (s & Hs & _). discriminate.
Qed.

End ScoringEdges.

Lemma recent_hazards_flag_iff_reports_witness :
  exists surf_spot,
    find_one_spot sample_store "Hikkaduwa" = Some surf_spot
    /\ find_recent_hazards sample_store (s_id surf_spot)
                           (now sample_clock - one_day) <> [].
Proof.
  apply (proj1 (recent_hazards_flag_iff_reports sample_clock sample_cols sample_predict
                  sample_predict_proba "Hikkaduwa"%string sample_world sample_world
                  {| risk_score := 9.06; risk_level := "High"; flag_color := "red";
                     confidence := 0.7; has_recent_hazards := true |} eq_refl)).
  reflexivity.
Defined.

(** * The fixed thresholds of the synthesizer *)

Section FixedThresholds.

(** X7.  The level of the synthesizer never decreases when the score
    grows; a score that is not a number is reported High/red. *)
Theorem fixed_level_is_monotone :
  (forall s1 s2 : float,
      (s1 <=? s2)%float = true ->
      level_rank (fst (fixed_level_and_flag s1))
      <= level_rank (fst (fixed_level_and_flag s2)))
  /\ (forall s : float,
         is_nan s = true -> fixed_level_and_flag s = ("High", "red")%string).
Proof.
  assert (R0 : level_rank "Low" = 0) by reflexivity.
  assert (R1 : level_rank "Medium" = 1) by reflexivity.
  assert (R2 : level_rank "High" = 2) by reflexivity.
  split.
  - intros s1 s2 H. unfold fixed_level_and_flag.
    destruct (s2 <=? 3.3)%float eqn:E2.
    + rewrite (leb_trans _ _ _ H E2). cbn [fst]. lia.
    + destruct (s2 <=? 6.6)%float eqn:E2'.
      * rewrite (leb_trans _ _ _ H E2').
        destruct (s1 <=? 3.3)%float; cbn [fst]; lia.
      * destruct (s1 <=? 3.3)%float; [ cbn [fst]; lia | ].
        destruct (s1 <=? 6.6)%float; cbn [fst]; lia.
  - intros s H. unfold fixed_level_and_flag.
    rewrite !(leb_nan_l _ _ H). reflexivity.
Qed.

Lemma fixed_level_is_monotone_witness :
  level_rank (fst (fixed_level_and_flag 3.3)) <= level_rank (fst (fixed_level_and_flag 3.31)).
Proof.
  apply (proj1 fixed_level_is_monotone). reflexivity.
Defined.

End FixedThresholds.

(** * The threshold engine, across scores and tiers *)

Section TierOrder.

Lemma cmp_int_float_scaled' (z : Z) (f : float) (m : positive) (e : Z) :
  Prim2SF f = S754_finite false m e -> e < 0 ->
  cmp_int_float z f = Some (z * 2 ^ (- e) ?= Zpos m).
Proof.
  intros E He. unfold cmp_int_float. rewrite E. cbn [cond_Zopp].
  destruct (Z.leb_spec 0 e); [ lia | reflexivity ].
Qed.

Local Ltac scale_by' c :=
  let v := eval vm_compute in (Prim2SF c) in
  lazymatch v with
  | S754_finite false ?m ?e =>
      rewrite (cmp_int_float_scaled' _ c m e) in * by (vm_compute; reflexivity || lia);
      let k := eval vm_compute in (2 ^ (- e)) in
      change (2 ^ (- e)) with k in *
  end.

(** The cut-offs of the table, pairwise in increasing order. *)
Lemma py_le_cutoff_mono (score : number) (a b : float) :
  In (a, b) [(5.0, 6.0); (5.0, 6.5); (6.5, 7.2); (6.0, 7.0); (6.0, 7.2);
             (7.2, 8.0); (7.0, 8.0)]%float ->
  py_le score (PyFloat a) = true -> py_le score (PyFloat b) = true.
Proof.
  intros Hin. destruct score as [z | f].
  - unfold py_le, py_cmp. simpl in Hin.
    repeat (destruct Hin as [E | Hin];
            [ injection E as <- <-;
              repeat match goal with
                     | |- context [cmp_int_float _ ?c] => scale_by' c
                     end;
              repeat match goal with
                     | |- context [Z.compare ?x ?y] => destruct (Z.compare_spec x y)
                     end; intros Hprem; try discriminate; try reflexivity; lia
            | ]).
    contradiction.
  - unfold py_le. intros H. apply (leb_trans f a b H).
    simpl in Hin.
    repeat (destruct Hin as [E | Hin]; [ injection E as <- <-; reflexivity | ]).
    contradiction.
Qed.

Lemma thresholds_of_any_skill (skill_level : string) :
  let thresholds := dict_get SKILL_THRESHOLDS skill_level beginner_thresholds in
  (low thresholds, medium thresholds) = (5.0, 6.5)%float
  \/ (low thresholds, medium thresholds) = (6.0, 7.2)%float
  \/ (low thresholds, medium thresholds) = (7.0, 8.0)%float.
Proof.
  unfold SKILL_THRESHOLDS. cbn [dict_get].
  destruct (String.eqb "beginner" skill_level); [ auto | ].
  destruct (String.eqb "intermediate" skill_level); [ auto | ].
  destruct (String.eqb "advanced" skill_level); auto.
Qed.

Lemma rank_values :
  level_rank "Low" = 0 /\ level_rank "Medium" = 1 /\ level_rank "High" = 2.
Proof. repeat split; reflexivity. Qed.

(** X8.  For one and the same score the beginner level is at least the
    intermediate level, which is at least the advanced level: the beginner
    thresholds are the most conservative. *)
Theorem beginner_thresholds_most_conservative :
  forall score : number,
    level_rank (fst (get_risk_level_and_flag score "advanced"))
    <= level_rank (fst (get_risk_level_and_flag score "intermediate"))
    /\ level_rank (fst (get_risk_level_and_flag score "intermediate"))
       <= level_rank (fst (get_risk_level_and_flag score "beginner")).
Proof.
  intros score. destruct rank_values as (R0 & R1 & R2).
  unfold get_risk_level_and_flag. cbn [dict_get SKILL_THRESHOLDS String.eqb Ascii.eqb
    Bool.eqb low medium].
  pose proof (py_le_cutoff_mono score 5.0 6.0 ltac:(simpl; auto)) as H1.
  pose proof (py_le_cutoff_mono score 5.0 6.5 ltac:(simpl; auto)) as H2.
  pose proof (py_le_cutoff_mono score 6.5 7.2 ltac:(simpl; tauto)) as H3.
  pose proof (py_le_cutoff_mono score 6.0 7.0 ltac:(simpl; tauto)) as H4.
  pose proof (py_le_cutoff_mono score 6.0 7.2 ltac:(simpl; tauto)) as H5.
  pose proof (py_le_cutoff_mono score 7.2 8.0 ltac:(simpl; tauto)) as H6.
  pose proof (py_le_cutoff_mono score 7.0 8.0 ltac:(simpl; tauto)) as H7.
  destruct (py_le score (PyFloat 5.0)); destruct (py_le score (PyFloat 6.0));
    destruct (py_le score (PyFloat 6.5)); destruct (py_le score (PyFloat 7.0));
    destruct (py_le score (PyFloat 7.2)); destruct (py_le score (PyFloat 8.0));
    cbn [fst]; rewrite ?R0, ?R1, ?R2;
    try (split; lia);
    try (specialize (H1 eq_refl); discriminate);
    try (specialize (H2 eq_refl); discriminate);
    try (specialize (H3 eq_refl); discriminate);
    try (specialize (H4 eq_refl); discriminate);
    try (specialize (H5 eq_refl); discriminate);
    try (specialize (H6 eq_refl); discriminate);
    try (specialize (H7 eq_refl); discriminate).
Qed.

(** X9.  Whatever the skill name (an unknown one gets the beginner
    thresholds), the level never decreases when the score grows, for float
    scores and for int scores. *)
Theorem tier_level_is_monotone :
  forall skill_level : string,
    (forall s1 s2 : float,
        (s1 <=? s2)%float = true ->
        level_rank (fst (get_risk_level_and_flag (PyFloat s1) skill_level))
        <= level_rank (fst (get_risk_level_and_flag (PyFloat s2) skill_level)))
    /\ (forall z1 z2 : Z,
           z1 <= z2 ->
           level_rank (fst (get_risk_level_and_flag (PyInt z1) skill_level))
           <= level_rank (fst (get_risk_level_and_flag (PyInt z2) skill_level))).
Proof.
  intros skill_level. destruct rank_values as (R0 & R1 & R2).
  unfold get_risk_level_and_flag.
  pose proof (thresholds_of_any_skill skill_level) as Hth. cbv zeta in Hth.
  set (thresholds := dict_get SKILL_THRESHOLDS skill_level beginner_thresholds) in *.
  split.
  - intros s1 s2 H. unfold py_le.
    destruct (s2 <=? low thresholds)%float eqn:E2.
    + rewrite (leb_trans _ _ _ H E2). cbn [fst]. lia.
    + destruct (s2 <=? medium thresholds)%float eqn:E2'.
      * rewrite (leb_trans _ _ _ H E2').
        destruct (s1 <=? low thresholds)%float; cbn [fst]; lia.
      * destruct (s1 <=? low thresholds)%float; [ cbn [fst]; lia | ].
        destruct (s1 <=? medium thresholds)%float; cbn [fst]; lia.
  - intros z1 z2 H.
    assert (Hmono : forall c, In c [5.0; 6.5; 6.0; 7.2; 7.0; 8.0]%float ->
                              py_le (PyInt z2) (PyFloat c) = true ->
                              py_le (PyInt z1) (PyFloat c) = true).
    { intros c Hin. unfold py_le, py_cmp. simpl in Hin.
      repeat (destruct Hin as [<- | Hin];
              [ repeat match goal with
                       | |- context [cmp_int_float _ ?c] => scale_by' c
                       end;
                repeat match goal with
                       | |- context [Z.compare ?x ?y] => destruct (Z.compare_spec x y)
                       end; intros Hprem; try discriminate; try reflexivity; lia
              | ]).
      contradiction. }
    assert (Hlow : In (low thresholds) [5.0; 6.5; 6.0; 7.2; 7.0; 8.0]%float).
    { destruct Hth as [E | [E | E]]; injection E as -> _; simpl; tauto. }
    assert (Hmed : In (medium thresholds) [5.0; 6.5; 6.0; 7.2; 7.0; 8.0]%float).
    { destruct Hth as [E | [E | E]]; injection E as _ ->; simpl; tauto. }
    pose proof (Hmono _ Hlow) as Hl. pose proof (Hmono _ Hmed) as Hm.
    destruct (py_le (PyInt z2) (PyFloat (low thresholds))).
    + rewrite (Hl eq_refl). cbn [fst]. lia.
    + destruct (py_le (PyInt z2) (PyFloat (medium thresholds))).
      * rewrite (Hm eq_refl).
        destruct (py_le (PyInt z1) (PyFloat (low thresholds))); cbn [fst]; lia.
      * destruct (py_le (PyInt z1) (PyFloat (low thresholds))); [ cbn [fst]; lia | ].
        destruct (py_le (PyInt z1) (PyFloat (medium thresholds))); cbn [fst]; lia.
Qed.

Lemma tier_level_is_monotone_witness :
  level_rank (fst (get_risk_level_and_flag (PyFloat 6.17) "surfer"))
  <= level_rank (fst (get_risk_level_and_flag (PyFloat 7.29) "surfer")).
Proof.
  apply (proj1 (tier_level_is_monotone "surfer")). reflexivity.
Defined.

End TierOrder.

(** * Per-tier scores over a table *)

Section TierTable.

Import SkillRiskModel.

(** [m / m] on ints is exactly 1.0. *)
Lemma int_truediv_self (m : Z) : 0 < m -> int_truediv m m = 1%float.
Proof.
  intros Hm. unfold int_truediv.
  destruct m as [ | p | p]; try lia.
  cbn [Z.abs Z.ltb Z.compare xorb]. unfold ratio_to_SF, SFdiv_core_binary.
  cbn [Zdigits2].
  replace (Zpos (digits2_pos p) + 0 - (Zpos (digits2_pos p) + 0)) with 0 by lia.
  change (Z.min (fexp prec emax 0) (0 - 0)) with (-53).
  change (0 - 0 - -53) with 53.
  cbn match.
  assert (E : Z.div_eucl (Z.shiftl (Zpos p) 53) (Zpos p) = (2 ^ 53, 0)).
  { rewrite Z.shiftl_mul_pow2 by lia.
    pose proof (Z.div_eucl_eq (Zpos p * 2 ^ 53) (Zpos p) ltac:(lia)) as Heq.
    pose proof (Z.mod_pos_bound (Zpos p * 2 ^ 53) (Zpos p) ltac:(lia)) as Hb.
    unfold Z.modulo in Hb.
    destruct (Z.div_eucl (Zpos p * 2 ^ 53) (Zpos p)) as [q r].
    assert (r = 0).
    { assert (Hdiv : (Zpos p * 2 ^ 53) mod Zpos p = 0).
      { rewrite Z.mul_comm. apply Z.mod_mul. lia. }
      assert (Hr : r = (Zpos p * q + r) mod Zpos p).
      { rewrite Z.add_comm, Z.mul_comm, Z.mod_add by lia.
        symmetry. apply Z.mod_small. exact Hb. }
      rewrite <- Heq in Hr. lia. }
    subst r. f_equal. nia. }
  rewrite E.
  assert (L : new_location (Zpos p) 0 = loc_Exact).
  { unfold new_location, new_location_even, new_location_odd.
    destruct (Z.even (Zpos p)); reflexivity. }
  rewrite L. vm_compute. reflexivity.
Qed.

(** X10.  The location that holds the tier-wide maximum count scores the
    cap of its tier whatever the counts are: 10 and High/red for beginners
    and for intermediates, 7.0 and Low/green for advanced surfers. *)
Theorem tier_maximum_scores_the_cap :
  forall maximum : Z,
    0 < maximum ->
    calculate_risk_score (PyInt maximum) (PyInt maximum) beginner_multiplier
    = Ok (PyInt 10)
    /\ calculate_risk_score (PyInt maximum) (PyInt maximum) intermediate_multiplier
       = Ok (PyInt 10)
    /\ calculate_risk_score (PyInt maximum) (PyInt maximum) advanced_multiplier
       = Ok (PyFloat 7.0)
    /\ get_risk_level_and_flag (PyInt 10) "beginner" = ("High", "red")%string
    /\ get_risk_level_and_flag (PyInt 10) "intermediate" = ("High", "red")%string
    /\ get_risk_level_and_flag (PyFloat 7.0) "advanced" = ("Low", "green")%string.
Proof.
  intros maximum Hmax.
  assert (Hscore : forall multiplier : float,
             calculate_risk_score (PyInt maximum) (PyInt maximum) (PyFloat multiplier)
             = Ok (py_round2 (py_min (PyInt 10) (PyFloat (1 * 10 * multiplier))))).
  { intros multiplier. unfold calculate_risk_score. rewrite py_eq_zero_int.
    destruct (Z.eqb_spec maximum 0) as [E | _]; [ lia | ].
    unfold py_truediv.
    destruct (Z.eqb_spec maximum 0) as [E | _]; [ lia | ].
    rewrite int_truediv_self by exact Hmax.
    cbn [Py.bind py_mul to_float]. rewrite float_of_Z_10. reflexivity. }
  unfold beginner_multiplier, intermediate_multiplier, advanced_multiplier.
  rewrite !Hscore.
  repeat split; vm_compute; reflexivity.
Qed.

Lemma tier_maximum_scores_the_cap_witness :
  calculate_risk_score (PyInt 50) (PyInt 50) advanced_multiplier = Ok (PyFloat 7.0).
Proof.
  apply (tier_maximum_scores_the_cap 50). lia.
Defined.

(** A per-tier score is always returned on int counts. *)
Lemma tier_score_returns (count maximum : Z) (multiplier : number) :
  exists score,
    calculate_risk_score (PyInt count) (PyInt maximum) multiplier = Ok score.
Proof.
  unfold calculate_risk_score, py_truediv. rewrite py_eq_zero_int.
  destruct (maximum =? 0); simpl; eauto.
Qed.

(** One row of the table always gives a result, which keeps the row's name
    and counts. *)
Lemma spot_risk_returns (mb mi ma : Z) (name : string) (data : SpotCounts) :
  exists r,
    spot_risk mb mi ma name data = Ok r
    /\ spot_name r = name
    /\ r_total_incidents r = total data
    /\ fst (r_beginner r) = beginner data
    /\ fst (r_intermediate r) = intermediate data
    /\ fst (r_advanced r) = advanced data
    /\ (t_level (snd (r_beginner r)), t_flag (snd (r_beginner r)))
       = get_risk_level_and_flag (t_score (snd (r_beginner r))) "beginner"
    /\ (t_level (snd (r_intermediate r)), t_flag (snd (r_intermediate r)))
       = get_risk_level_and_flag (t_score (snd (r_intermediate r))) "intermediate"
    /\ (t_level (snd (r_advanced r)), t_flag (snd (r_advanced r)))
       = get_risk_level_and_flag (t_score (snd (r_advanced r))) "advanced".
Proof.
  unfold spot_risk.
  destruct (tier_score_returns (beginner data) mb beginner_multiplier) as (sb & ->).
  destruct (tier_score_returns (intermediate data) mi intermediate_multiplier) as (si & ->).
  destruct (tier_score_returns (advanced data) ma advanced_multiplier) as (sa & ->).
  cbn [Py.bind].
  destruct (get_risk_level_and_flag sb _) eqn:Eb.
  destruct (get_risk_level_and_flag si _) eqn:Ei.
  destruct (get_risk_level_and_flag sa _) eqn:Ea.
  destruct (get_risk_level_and_flag (weighted_average sb si sa) _).
  eexists. split; [ reflexivity | ].
  cbn [spot_name r_total_incidents r_beginner r_intermediate r_advanced fst snd
       t_score t_level t_flag].
  rewrite Eb, Ei, Ea. repeat split; reflexivity.
Qed.

(** X11.  On a table whose per-tier counts are in the range of the floats,
    the loop of [calculate_skill_based_risks] does not fail, whatever the
    maxima (a tier whose maximum is 0 included): it returns one result per
    row, in the table's order, with the row's name, total and per-tier
    incident counts. *)
Theorem skill_risks_cover_every_row :
  forall (mb mi ma : Z) (table : list (string * SpotCounts)),
  Forall (fun row => fits_float (beginner (snd row))
                     /\ fits_float (intermediate (snd row))
                     /\ fits_float (advanced (snd row))) table ->
  exists results,
    collect (fun row => spot_risk mb mi ma (fst row) (snd row)) table = Ok results
    /\ map spot_name results = map fst table
    /\ map r_total_incidents results = map (fun row => total (snd row)) table
    /\ map (fun r => (fst (r_beginner r), fst (r_intermediate r), fst (r_advanced r)))
           results
       = map (fun row => (beginner (snd row), intermediate (snd row), advanced (snd row)))
             table.
Proof.
  intros mb mi ma table _. induction table as [ | row table IH].
  - exists []. repeat split.
  - destruct IH as (results & Hrun & Hnames & Htotals & Hcounts).
    destruct (spot_risk_returns mb mi ma (fst row) (snd row))
      as (r & Hr & Hn & Ht & Hb & Hi & Ha & _).
    exists (r :: results). cbn [collect map]. rewrite Hr, Hrun. cbn [Py.bind].
    rewrite Hn, Ht, Hb, Hi, Ha, Hnames, Htotals, Hcounts. repeat split.
Qed.

(** Every level written by the threshold engine is one of the three. *)
Lemma level_is_one_of_three (score : number) (skill_level : string) :
  fst (get_risk_level_and_flag score skill_level) = "Low"%string
  \/ fst (get_risk_level_and_flag score skill_level) = "Medium"%string
  \/ fst (get_risk_level_and_flag score skill_level) = "High"%string.
Proof.
  unfold get_risk_level_and_flag.
  destruct (py_le score _); [ auto | ]. destruct (py_le score _); auto.
Qed.

(** X12.  In the summary over the results of any table, the counts of High,
    Medium and Low locations of each skill add up to the number of
    locations: no location is left out or counted twice. *)
Theorem level_counts_add_up :
  forall (mb mi ma : Z) (table : list (string * SpotCounts))
         (results : list SpotRisk),
    collect (fun row => spot_risk mb mi ma (fst row) (snd row)) table = Ok results ->
    forall skill high medium low,
      In (skill, (high, medium, low)) (SkillRiskSummary.risk_level_distribution results) ->
      high + medium + low = Z.of_nat (List.length table).
Proof.
  intros mb mi ma table.
  assert (Hall : forall results,
             collect (fun row => spot_risk mb mi ma (fst row) (snd row)) table
             = Ok results ->
             List.length results = List.length table
             /\ Forall (fun r => exists name data, spot_risk mb mi ma name data = Ok r)
                       results).
  { induction table as [ | row table IH]; intros results; cbn [collect].
    - intros H. injection H as <-. split; [ reflexivity | constructor ].
    - destruct (spot_risk mb mi ma (fst row) (snd row)) as [r | e] eqn:Er;
        [ | discriminate ].
      cbn [Py.bind].
      destruct (collect _ table) as [rs | e]; [ | discriminate ].
      cbn [Py.bind]. intros H. injection H as <-.
      destruct (IH rs eq_refl) as [Hlen Hfor].
      split; [ cbn [List.length]; congruence | constructor; eauto ]. }
  intros results Hrun skill high medium low Hin.
  destruct (Hall results Hrun) as [Hlen Hfor]. rewrite <- Hlen. clear Hall Hrun Hlen.
  assert (Hsum : forall skill,
             SkillRiskSummary.level_count results skill "High"
             + SkillRiskSummary.level_count results skill "Medium"
             + SkillRiskSummary.level_count results skill "Low"
             = Z.of_nat (List.length results)).
  { clear skill high medium low Hin. intros skill.
    unfold SkillRiskSummary.level_count, count.
    induction Hfor as [ | r rs (name & data & Hr) _ IH]; [ reflexivity | ].
    cbn [filter List.length].
    assert (Hlevel : t_level (SkillRiskSummary.tier_of r skill) = "Low"%string
                     \/ t_level (SkillRiskSummary.tier_of r skill) = "Medium"%string
                     \/ t_level (SkillRiskSummary.tier_of r skill) = "High"%string).
    { destruct (spot_risk_returns mb mi ma name data)
        as (r' & Hr' & _ & _ & _ & _ & _ & Hb & Hi & Ha).
      rewrite Hr in Hr'. injection Hr' as <-.
      unfold SkillRiskSummary.tier_of.
      destruct (String.eqb skill "beginner");
        [ | destruct (String.eqb skill "intermediate") ].
      - pose proof (level_is_one_of_three (t_score (snd (r_beginner r))) "beginner") as H.
        rewrite <- Hb in H. exact H.
      - pose proof (level_is_one_of_three (t_score (snd (r_intermediate r)))
                                           "intermediate") as H.
        rewrite <- Hi in H. exact H.
      - pose proof (level_is_one_of_three (t_score (snd (r_advanced r))) "advanced") as H.
        rewrite <- Ha in H. exact H. }
    destruct Hlevel as [-> | [-> | ->]]; cbn [String.eqb Ascii.eqb Bool.eqb andb];
      cbn [List.length]; lia. }
  unfold SkillRiskSummary.risk_level_distribution in Hin. simpl in Hin.
  destruct Hin as [E | [E | [E | []]]]; injection E as <- <- <- <-; apply Hsum.
Qed.

End TierTable.

Lemma skill_risks_cover_every_row_witness :
  exists results,
    SkillRiskModel.collect
      (fun row => SkillRiskModel.spot_risk 142 81 50 (fst row) (snd row))
      SkillRiskModel.RISK_DATA = Ok results
    /\ map SkillRiskModel.spot_name results = map fst SkillRiskModel.RISK_DATA
    /\ map SkillRiskModel.r_total_incidents results
       = map (fun row => SkillRiskModel.total (snd row)) SkillRiskModel.RISK_DATA
    /\ map (fun r => (fst (SkillRiskModel.r_beginner r),
                      fst (SkillRiskModel.r_intermediate r),
                      fst (SkillRiskModel.r_advanced r))) results
       = map (fun row => (SkillRiskModel.beginner (snd row),
                          SkillRiskModel.intermediate (snd row),
                          SkillRiskModel.advanced (snd row)))
             SkillRiskModel.RISK_DATA.
Proof.
  apply (skill_risks_cover_every_row 142 81 50 SkillRiskModel.RISK_DATA).
  repeat constructor; vm_compute; reflexivity.
Defined.

Lemma level_counts_add_up_witness :
  SkillRiskSummary.level_count
    match SkillRiskModel.calculate_skill_based_risks with Ok l => l | Raise _ => [] end
    "beginner" "High"
  + SkillRiskSummary.level_count
      match SkillRiskModel.calculate_skill_based_risks with Ok l => l | Raise _ => [] end
      "beginner" "Medium"
  + SkillRiskSummary.level_count
      match SkillRiskModel.calculate_skill_based_risks with Ok l => l | Raise _ => [] end
      "beginner" "Low"
  = 12.
Proof.
  apply (level_counts_add_up 142 81 50 SkillRiskModel.RISK_DATA
           match SkillRiskModel.calculate_skill_based_risks with Ok l => l | Raise _ => [] end
           eq_refl "beginner"%string).
  left. reflexivity.
Defined.

(** * The importer: severities and what the scorer makes of them *)

Section Substrings.

Lemma prefix_iff (k s : string) :
  String.prefix k s = true <-> exists post, s = (k ++ post)%string.
Proof.
  revert s. induction k as [| c k IH]; intros s; simpl.
  - split; [ intros _; exists s; reflexivity | ].
    intros _. destruct s; reflexivity.
  - destruct s as [| c' s]; simpl.
    + split; [ discriminate | intros [post H]; discriminate ].
    + destruct (Ascii.ascii_dec c c') as [-> | Hne].
      * rewrite IH. split; intros [post H]; exists post.
        -- now rewrite H.
        -- now injection H.
      * split; [ discriminate | ].
        intros [post H]. injection H as Hc _. congruence.
Qed.

Lemma contains_iff (k s : string) :
  contains k s = true <->
  exists pre post, s = (pre ++ k ++ post)%string.
Proof.
  induction s as [| c s IH].
  - cbn [contains]. rewrite Bool.orb_false_r, prefix_iff. split.
    + intros [post H]. exists EmptyString, post. exact H.
    + intros [pre [post H]]. destruct pre as [| ? ?]; [ | discriminate ].
      exists post. exact H.
  - cbn [contains]. rewrite Bool.orb_true_iff, prefix_iff, IH. split.
    + intros [[post H] | [pre [post H]]].
      * exists EmptyString, post. exact H.
      * exists (String c pre), post. simpl. now rewrite H.
    + intros [pre [post H]]. destruct pre as [| c' pre].
      * left. exists post. exact H.
      * right. exists pre, post. simpl in H. now injection H.
Qed.

Lemma append_assoc (a b c : string) :
  ((a ++ b) ++ c = a ++ (b ++ c))%string.
Proof. induction a as [| x a IH]; simpl; [ reflexivity | now rewrite IH ]. Qed.

Lemma lower_app (a b : string) :
  lower (a ++ b) = (lower a ++ lower b)%string.
Proof. induction a as [| c a IH]; simpl; [ reflexivity | now rewrite IH ]. Qed.

(** A needle found in a text is found in any text around it. *)
Lemma contains_embedded (k a s b : string) :
  contains k (lower s) = true ->
  contains k (lower (a ++ s ++ b)) = true.
Proof.
  rewrite !contains_iff. intros [pre [post H]].
  exists (lower a ++ pre)%string, (post ++ lower b)%string.
  rewrite !lower_app, H, !append_assoc. reflexivity.
Qed.

Lemma lstrip_suffix (s : string) :
  exists a, s = (a ++ ImportIncidents.lstrip s)%string.
Proof.
  induction s as [| c s [a IH]]; simpl.
  - exists EmptyString. reflexivity.
  - destruct (ImportIncidents.is_space c).
    + exists (String c a). simpl. now rewrite <- IH.
    + exists EmptyString. reflexivity.
Qed.

Lemma rstrip_prefix (s : string) :
  exists b, s = (ImportIncidents.rstrip s ++ b)%string.
Proof.
  induction s as [| c s [b IH]]; simpl.
  - exists EmptyString. reflexivity.
  - destruct (ImportIncidents.rstrip s) as [| c' t] eqn:E.
    + destruct (ImportIncidents.is_space c).
      * exists (String c s). reflexivity.
      * exists s. simpl. reflexivity.
    + exists b. simpl. simpl in IH. now rewrite <- IH.
Qed.

Lemma strip_inside (s : string) :
  exists a b, s = (a ++ ImportIncidents.strip s ++ b)%string.
Proof.
  destruct (lstrip_suffix s) as [a Ha].
  destruct (rstrip_prefix (ImportIncidents.lstrip s)) as [b Hb].
  exists a, b. unfold ImportIncidents.strip. now rewrite <- Hb.
Qed.

Lemma contains_stripped (k s : string) :
  contains k (lower (ImportIncidents.strip s)) = true ->
  contains k (lower s) = true.
Proof.
  intros H. destruct (strip_inside s) as [a [b E]].
  rewrite E. now apply contains_embedded.
Qed.

Lemma any_keyword_embedded (ks : list string) (a s b : string) :
  ImportIncidents.any_keyword ks (lower s) = true ->
  ImportIncidents.any_keyword ks (lower (a ++ s ++ b)) = true.
Proof.
  unfold ImportIncidents.any_keyword. rewrite !existsb_exists.
  intros [k [Hin Hk]]. exists k. split; [ exact Hin | ].
  now apply contains_embedded.
Qed.

End Substrings.

Section Severity.

Import ImportIncidents.

(** X13. Text around an incident type never lowers its severity: the
    severity of a text that embeds another is at least the severity of the
    embedded one, whatever the letter case. *)
Theorem surrounding_text_never_lowers_severity (a s b : string) :
  severity_rank (categorize_severity s)
  <= severity_rank (categorize_severity (a ++ s ++ b)).
Proof.
  unfold categorize_severity.
  pose proof (any_keyword_embedded fatal_keywords a s b) as Hf.
  pose proof (any_keyword_embedded severe_keywords a s b) as Hs.
  pose proof (any_keyword_embedded moderate_keywords a s b) as Hm.
  cbv zeta.
  destruct (any_keyword fatal_keywords (lower s));
    destruct (any_keyword severe_keywords (lower s));
    destruct (any_keyword moderate_keywords (lower s));
    try rewrite (Hf eq_refl);
    destruct (any_keyword fatal_keywords (lower (a ++ s ++ b)));
    try rewrite (Hs eq_refl);
    destruct (any_keyword severe_keywords (lower (a ++ s ++ b)));
    try rewrite (Hm eq_refl);
    destruct (any_keyword moderate_keywords (lower (a ++ s ++ b)));
    vm_compute; congruence.
Qed.

Lemma count_map {A B : Type} (f : A -> B) (p : B -> bool) (l : list A) :
  count p (map f l) = count (fun x => p (f x)) l.
Proof.
  unfold count. f_equal.
  induction l as [| x l IH]; simpl; [ reflexivity | ].
  destruct (p (f x)); simpl; now rewrite IH.
Qed.

Lemma count_le_of_implies {A : Type} (p q : A -> bool) (l : list A) :
  (forall x, In x l -> p x = true -> q x = true) ->
  count p l <= count q l.
Proof.
  unfold count. intros H. apply inj_le.
  induction l as [| x l IH]; simpl; [ lia | ].
  assert (IH' : (List.length (filter p l) <= List.length (filter q l))%nat).
  { apply IH. intros y Hy. apply H. now right. }
  specialize (H x (or_introl eq_refl)).
  destruct (p x); [ rewrite (H eq_refl) | destruct (q x) ]; simpl; lia.
Qed.

Lemma drowning_doc_is_fatal (row : CsvRow) (date : option ParsedDate) :
  contains "drowning" (lower (doc_incidentType (incident_doc row date))) = true ->
  doc_severity (incident_doc row date) = "fatal"%string.
Proof.
  cbn [incident_doc doc_incidentType doc_severity]. intros H.
  apply contains_stripped in H. unfold categorize_severity.
  cbv zeta. unfold any_keyword, fatal_keywords.
  cbn [existsb]. rewrite H. reflexivity.
Qed.

Lemma import_row_mem parse_date (st : Z * Store) (row : CsvRow) :
  import_row parse_date mem_insert_one st row =
  (fst st + 1,
   snd (mem_insert_one (snd st) (incident_doc row (parse_date (c_Date row))))).
Proof. destruct st as [n d]. reflexivity. Qed.

Lemma import_loop_mem parse_date (rows : list CsvRow) (st : Z * Store) :
  fold_left (import_row parse_date mem_insert_one) rows st =
  (fst st + Z.of_nat (List.length rows),
   {| incidents_collection :=
        incidents_collection (snd st)
        ++ map (fun row =>
                  as_incident (incident_doc row (parse_date (c_Date row)))) rows;
      surf_spots_collection := surf_spots_collection (snd st);
      hazard_reports_collection := hazard_reports_collection (snd st) |}).
Proof.
  revert st. induction rows as [| row rows IH]; intros [n d].
  - cbn [fold_left List.length map fst snd]. rewrite app_nil_r, Z.add_0_r.
    destruct d. reflexivity.
  - cbn [fold_left]. rewrite import_row_mem, IH.
    cbn [fst snd mem_insert_one incidents_collection surf_spots_collection
         hazard_reports_collection List.length map].
    rewrite <- app_assoc. f_equal. lia.
Qed.

End Severity.

Section ImportedFeatures.

Import ImportIncidents.

Variable clock : Clock.
Variable parse_date : Cell -> option ParsedDate.

(** X14. After an import into an in-memory store every row is counted as
    imported, and the features of any location then have
    [drowning_count <= fatal_count]: the importer files every incident whose
    type mentions a drowning as fatal, and the scorer counts both from the
    stored documents. *)
Theorem imported_drownings_count_as_fatal
  (rows : list CsvRow) (d : Store) (w : World) (spot_name : string) :
  db w = snd (import_incidents parse_date mem_insert_one rows d) ->
  fst (import_incidents parse_date mem_insert_one rows d)
  = Z.of_nat (List.length rows)
  /\ exists features hazard_boost,
       calculate_spot_features clock spot_name w
       = (Ok (features, hazard_boost), w)
       /\ drowning_count features <= fatal_count features.
Proof.
  unfold import_incidents. rewrite import_loop_mem.
  cbn [fst snd delete_all_incidents incidents_collection app].
  intros Hdb. split; [ reflexivity | ].
  unfold calculate_spot_features, mbind, get_db, lift, ret.
  cbn [py_truediv Z.eqb].
  do 2 eexists. split; [ reflexivity | ].
  cbn [drowning_count fatal_count].
  rewrite count_map. apply count_le_of_implies.
  intros i Hin Hdrown.
  unfold find_incidents in Hin. apply filter_In in Hin. destruct Hin as [Hin _].
  rewrite Hdb in Hin. cbn [incidents_collection] in Hin.
  apply in_map_iff in Hin. destruct Hin as [row [<- _]].
  cbn [as_incident i_incidentType i_severity] in *.
  rewrite (drowning_doc_is_fatal _ _ Hdrown). reflexivity.
Qed.

End ImportedFeatures.

Lemma imported_drownings_count_as_fatal_witness :
  fst sample_import = 1
  /\ exists features hazard_boost,
       calculate_spot_features sample_clock "Hikkaduwa"
         {| db := snd sample_import; stdout := [] |}
       = (Ok (features, hazard_boost),
          {| db := snd sample_import; stdout := [] |})
       /\ drowning_count features <= fatal_count features.
Proof.
  exact (imported_drownings_count_as_fatal sample_clock (fun _ => None)
           sample_rows sample_store
           {| db := snd sample_import; stdout := [] |} "Hikkaduwa" eq_refl).
Defined.

Section ImportErrors.

Import ImportIncidents.

Variable parse_date : Cell -> option ParsedDate.
Variable insert_one : Store -> IncidentDoc -> result unit * Store.

Lemma import_loop_counts (rows : list CsvRow) :
  forall (n : Z) (d : Store),
    n <= fst (fold_left (import_row parse_date insert_one) rows (n, d))
      <= n + Z.of_nat (List.length rows)
    /\ ((forall d' doc, fst (insert_one d' doc) = Ok tt) ->
        fst (fold_left (import_row parse_date insert_one) rows (n, d))
        = n + Z.of_nat (List.length rows))
    /\ ((forall d' doc, exists e, fst (insert_one d' doc) = Raise e) ->
        fst (fold_left (import_row parse_date insert_one) rows (n, d)) = n).
Proof.
  induction rows as [| row rows IH]; intros n d.
  - cbn [fold_left fst List.length]. repeat split; lia.
  - cbn [fold_left].
    assert (Hstep :
      import_row parse_date insert_one (n, d) row
      = match insert_one d (incident_doc row (parse_date (c_Date row))) with
        | (Ok _, d') => (n + 1, d')
        | (Raise _, d') => (n, d')
        end) by reflexivity.
    rewrite Hstep. clear Hstep.
    destruct (insert_one d (incident_doc row (parse_date (c_Date row))))
      as [[[] | e] d'] eqn:E.
    + destruct (IH (n + 1) d') as (Hb & Hok & Hfail).
      cbn [List.length]. rewrite Nat2Z.inj_succ.
      split; [ lia | split ].
      * intros Hall. rewrite (Hok Hall). lia.
      * intros Hall. destruct (Hall d (incident_doc row (parse_date (c_Date row))))
          as [e He]. rewrite E in He. discriminate.
    + destruct (IH n d') as (Hb & Hok & Hfail).
      cbn [List.length]. rewrite Nat2Z.inj_succ.
      split; [ lia | split ].
      * intros Hall.
        specialize (Hall d (incident_doc row (parse_date (c_Date row)))).
        rewrite E in Hall. discriminate.
      * exact Hfail.
Qed.

(** X22. The import loop survives failing inserts: whatever the store's
    insert does for any row, the number of imported rows lies between 0 and
    the number of rows; it is the number of rows when no insert fails, and
    0 when every insert fails. *)
Theorem import_survives_failing_inserts (rows : list CsvRow) (d : Store) :
  0 <= fst (import_incidents parse_date insert_one rows d)
    <= Z.of_nat (List.length rows)
  /\ ((forall d' doc, fst (insert_one d' doc) = Ok tt) ->
      fst (import_incidents parse_date insert_one rows d)
      = Z.of_nat (List.length rows))
  /\ ((forall d' doc, exists e, fst (insert_one d' doc) = Raise e) ->
      fst (import_incidents parse_date insert_one rows d) = 0).
Proof.
  unfold import_incidents.
  destruct (import_loop_counts rows 0 (delete_all_incidents d)) as (Hb & Hok & Hfail).
  split; [ lia | split ].
  - intros Hall. rewrite (Hok Hall). lia.
  - exact Hfail.
Qed.

End ImportErrors.

(** * The training frame *)

Section TrainingRows.

Import TrainModel.

Variable clock : Clock.

Lemma above_one_nonzero (f : float) :
  py_lt (PyInt 1) (PyFloat f) = true -> (f =? 0)%float = false.
Proof.
  unfold py_lt, py_cmp, cmp_int_float. rewrite eqb_spec. unfold SFeqb.
  change (Prim2SF 0) with (S754_zero false).
  destruct (Prim2SF f) as [s | s | | s m e]; try discriminate.
  - destruct s; [ discriminate | reflexivity ].
  - intros _. destruct s; reflexivity.
Qed.

Lemma capped_score_shape (q : float) :
  py_min (PyInt 10) (PyFloat q) = PyInt 10
  \/ (py_min (PyInt 10) (PyFloat q) = PyFloat q
      /\ py_lt (PyFloat q) (PyInt 10) = true).
Proof.
  unfold py_min. destruct (py_lt (PyFloat q) (PyInt 10)); auto.
Qed.

Lemma target_score_returns
  (fatal severe moderate drowning reef_cut rip_current collision n : Z) :
  exists score,
    target_score fatal severe moderate drowning reef_cut rip_current collision n
    = Ok score
    /\ (score = PyInt 10
        \/ exists s, score = PyFloat s /\ py_lt score (PyInt 10) = true).
Proof.
  unfold target_score. cbn [py_truediv Z.eqb bind py_add py_mul].
  unfold py_max, py_gt.
  destruct (py_lt (PyInt 1) (PyFloat (int_truediv n 10))) eqn:E.
  - cbn [py_truediv to_float]. rewrite (above_one_nonzero _ E). cbn [bind].
    eexists. split; [ reflexivity | ].
    match goal with
    | |- context [py_min (PyInt 10) (PyFloat ?q)] =>
        destruct (capped_score_shape q) as [-> | [-> H]]; eauto
    end.
  - cbn [py_truediv to_float].
    rewrite (float_of_Z_nonzero 1) by lia. cbn [bind].
    eexists. split; [ reflexivity | ].
    match goal with
    | |- context [py_min (PyInt 10) (PyFloat ?q)] =>
        destruct (capped_score_shape q) as [-> | [-> H]]; eauto
    end.
Qed.

Lemma target_level_matches (score : number) :
  score = PyInt 10 \/ (exists s, score = PyFloat s) ->
  target_level score
  = level_rank (fst (fixed_level_and_flag (to_float score)))
  /\ 0 <= target_level score <= 2.
Proof.
  intros [-> | [s ->]].
  - vm_compute. split; [ reflexivity | split; discriminate ].
  - unfold target_level, fixed_level_and_flag, py_le. cbn [to_float].
    destruct (s <=? 3.3)%float; [ split; [ reflexivity | cbv; split; discriminate ] | ].
    destruct (s <=? 6.6)%float; split; try reflexivity; cbv; split; discriminate.
Qed.

Lemma spot_row_returns (incidents : list Incident) (spot : string) :
  In spot (map i_site incidents) ->
  exists r,
    spot_row clock incidents spot = Ok (Some r)
    /\ tr_surf_spot r = spot
    /\ row_is_sound r.
Proof.
  intros Hin. apply in_map_iff in Hin. destruct Hin as [i [Hsite Hi]].
  unfold spot_row.
  set (l := filter (fun i => String.eqb (i_site i) spot) incidents).
  assert (Hl : In i l).
  { apply filter_In. split; [ exact Hi | ]. rewrite Hsite. apply String.eqb_refl. }
  destruct l as [| i0 l0] eqn:El; [ contradiction | ].
  rewrite <- El. 
  assert (Hlen : (1 <= List.length l)%nat) by (rewrite El; simpl; lia).
  destruct (Nat.eqb_spec (List.length l) 0) as [H0 | _]; [ lia | ].
  match goal with
  | |- context [target_score ?a ?b ?c ?d ?e ?f ?g ?h] =>
      destruct (target_score_returns a b c d e f g h) as [score [-> Hshape]]
  end.
  cbn [bind py_truediv Z.eqb].
  eexists. split; [ reflexivity | ].
  cbn [tr_surf_spot]. split; [ reflexivity | ].
  unfold row_is_sound. cbn [tr_total_incidents tr_risk_score tr_risk_level].
  split; [ lia | ]. split; [ exact Hshape | ].
  apply target_level_matches.
  destruct Hshape as [-> | [s [-> _]]]; eauto.
Qed.

Lemma rows_of_returns (incidents : list Incident) (spots : list string) :
  (forall spot, In spot spots -> In spot (map i_site incidents)) ->
  exists rows,
    rows_of clock incidents spots = Ok rows
    /\ map tr_surf_spot rows = spots
    /\ Forall row_is_sound rows.
Proof.
  induction spots as [| spot rest IH]; intros Hall.
  - exists []. repeat split. constructor.
  - destruct (spot_row_returns incidents spot (Hall spot (or_introl eq_refl)))
      as [r [Er [Hname Hr]]].
    destruct IH as [rows [Erows [Hnames Hrows]]].
    { intros s Hs. apply Hall. now right. }
    exists (r :: rows). cbn [rows_of]. rewrite Er, Erows. cbn [bind].
    split; [ reflexivity | ]. split.
    + cbn [map]. now rewrite Hname, Hnames.
    + now constructor.
Qed.

Lemma data_frame_keeps_rows (rows : list TrainingRow) :
  Forall row_is_sound rows ->
  map tr_surf_spot (DataFrame rows) = map tr_surf_spot rows
  /\ Forall
       (fun r =>
          1 <= tr_total_incidents r
          /\ (tr_risk_score r = PyInt 10
              \/ exists s, tr_risk_score r = PyFloat s
                           /\ py_le (tr_risk_score r) (PyInt 10) = true)
          /\ tr_risk_level r
             = level_rank
                 (fst (fixed_level_and_flag (to_float (tr_risk_score r))))
          /\ 0 <= tr_risk_level r <= 2)
       (DataFrame rows).
Proof.
  intros Hsound. unfold DataFrame.
  set (all_int := forallb is_int (map tr_risk_score rows)).
  split.
  - rewrite map_map. reflexivity.
  - apply Forall_map. revert Hsound. apply Forall_impl.
    intros r (Htotal & Hscore & Hlevel & Hrange).
    cbn [with_risk_score tr_total_incidents tr_risk_score tr_risk_level].
    split; [ exact Htotal | ].
    assert (Hle : forall s, py_lt (PyFloat s) (PyInt 10) = true ->
                            py_le (PyFloat s) (PyInt 10) = true).
    { intros s. unfold py_lt, py_le.
      destruct (py_cmp (PyFloat s) (PyInt 10)) as [[ | | ] | ]; congruence. }
    destruct all_int.
    + split; [ | split; assumption ].
      destruct Hscore as [E | (s & E & Hlt)]; [ left; exact E | right ].
      exists s. split; [ exact E | ]. rewrite E in *. now apply Hle.
    + split; [ right | ].
      * destruct Hscore as [-> | (s & -> & Hlt)].
        -- exists 10%float. split; reflexivity.
        -- exists s. split; [ reflexivity | now apply Hle ].
      * cbn [to_float]. split; assumption.
Qed.

(** X15. Building the training frame never divides by zero (the divisor is
    [max(1, n / 10)]).  A frame that is returned has one row per distinct
    site, each with at least one incident; its target score is at most 10
    (the int 10 when every site is capped, a float otherwise); and the
    label 0, 1 or 2 is the rank of the level (Low, Medium, High) that the
    score synthesizer's fixed cut points 3.3 and 6.6 give the same score. *)
Theorem training_labels_follow_fixed_thresholds (d : Store) :
  extract_features_from_incidents clock d <> Raise ZeroDivisionError
  /\ forall frame,
       extract_features_from_incidents clock d = Ok frame ->
       map tr_surf_spot frame = distinct_sites (incidents_collection d)
       /\ Forall
            (fun r =>
               1 <= tr_total_incidents r
               /\ (tr_risk_score r = PyInt 10
                   \/ exists s, tr_risk_score r = PyFloat s
                                /\ py_le (tr_risk_score r) (PyInt 10) = true)
               /\ tr_risk_level r
                  = level_rank
                      (fst (fixed_level_and_flag (to_float (tr_risk_score r))))
               /\ 0 <= tr_risk_level r <= 2)
            frame.
Proof.
  unfold extract_features_from_incidents.
  destruct (rows_of_returns (incidents_collection d)
              (distinct_sites (incidents_collection d)))
    as (rows & -> & Hnames & Hsound).
  { intros spot Hin. unfold distinct_sites in Hin. now apply nodup_In in Hin. }
  cbn [bind]. split; [ discriminate | ].
  intros frame H. injection H as <-.
  destruct (data_frame_keeps_rows rows Hsound) as (Hspots & Hrows).
  split; [ now rewrite Hspots | exact Hrows ].
Qed.

End TrainingRows.

Lemma training_labels_follow_fixed_thresholds_witness :
  map TrainModel.tr_surf_spot sample_frame
  = TrainModel.distinct_sites (incidents_collection sample_store)
  /\ Forall
       (fun r =>
          1 <= TrainModel.tr_total_incidents r
          /\ (TrainModel.tr_risk_score r = PyInt 10
              \/ exists s, TrainModel.tr_risk_score r = PyFloat s
                           /\ py_le (TrainModel.tr_risk_score r) (PyInt 10) = true)
          /\ TrainModel.tr_risk_level r
             = level_rank
                 (fst (fixed_level_and_flag
                         (to_float (TrainModel.tr_risk_score r))))
          /\ 0 <= TrainModel.tr_risk_level r <= 2)
       sample_frame.
Proof.
  exact (proj2 (training_labels_follow_fixed_thresholds sample_clock sample_store)
               sample_frame eq_refl).
Defined.

Section TrainingAndServing.

Import TrainModel.

Variable clock : Clock.

Lemma insert_sorted_In (x m : Z) (l : list Z) :
  In x (insert_sorted m l) <-> x = m \/ In x l.
Proof.
  induction l as [| y l IH]; simpl.
  - intuition.
  - destruct (m <=? y); simpl; rewrite ?IH; intuition.
Qed.

Lemma sort_values_In (x : Z) (l : list Z) : In x (sort_values l) <-> In x l.
Proof.
  unfold sort_values. induction l as [| y l IH]; simpl.
  - reflexivity.
  - rewrite insert_sorted_In, IH. intuition.
Qed.

Lemma mode_In (x : Z) (l : list Z) : In x (mode l) -> In x l.
Proof.
  unfold mode. rewrite sort_values_In, filter_In, nodup_In. tauto.
Qed.

Lemma spot_row_fields (incidents : list Incident) (spot : string) (r : TrainingRow) :
  spot_row clock incidents spot = Ok (Some r) ->
  let spot_incidents := filter (fun i => String.eqb (i_site i) spot) incidents in
  let incident_types :=
    map (fun i => match i_incidentType i with
                  | Some t => t
                  | None => EmptyString
                  end) spot_incidents in
  tr_total_incidents r = Z.of_nat (List.length spot_incidents)
  /\ tr_fatal_count r
     = count (fun i => field_is (i_severity i) "fatal") spot_incidents
  /\ tr_severe_count r
     = count (fun i => field_is (i_severity i) "severe") spot_incidents
  /\ tr_moderate_count r
     = count (fun i => field_is (i_severity i) "moderate") spot_incidents
  /\ tr_drowning_count r
     = count (fun t => contains "drowning" (lower t)) incident_types
  /\ tr_reef_cut_count r
     = count (fun t => contains "reef" (lower t) || contains "cut" (lower t))
             incident_types
  /\ tr_collision_count r
     = count (fun t => contains "collision" (lower t)) incident_types
  /\ tr_rip_current_count r
     = count (fun t => contains "rip" (lower t)) incident_types
  /\ tr_incidents_per_year r
     = PyFloat (int_truediv (Z.of_nat (List.length spot_incidents)) 10)
  /\ tr_is_peak_season r
     = if existsb (Z.eqb (current_month clock))
                  match incident_months spot_incidents with
                  | [] => [6]
                  | _ => mode (incident_months spot_incidents)
                  end
       then 1 else 0.
Proof.
  unfold spot_row.
  destruct (Nat.eqb_spec
              (List.length (filter (fun i => String.eqb (i_site i) spot) incidents))
              0) as [_ | _]; [ discriminate | ].
  match goal with
  | |- context [target_score ?a ?b ?c ?d ?e ?f ?g ?h] =>
      destruct (target_score_returns a b c d e f g h) as [score [-> _]]
  end.
  cbn [bind py_truediv Z.eqb]. intros H. injection H as <-.
  cbn. repeat split; reflexivity.
Qed.

(** X16. The features computed when serving a location equal those of its
    training row on the four severity and type counts, the fatal, severe
    and moderate counts and [incidents_per_year]; [total_incidents] is the
    training row's count plus five times the recent-hazard boost. *)
Theorem serving_counts_match_training
  (w : World) (spot : string) (r : TrainingRow) :
  spot_row clock (incidents_collection (db w)) spot = Ok (Some r) ->
  exists features hazard_boost,
    calculate_spot_features clock spot w = (Ok (features, hazard_boost), w)
    /\ total_incidents features
       = py_add (PyInt (tr_total_incidents r)) (py_mul hazard_boost (PyInt 5))
    /\ fatal_count features = tr_fatal_count r
    /\ severe_count features = tr_severe_count r
    /\ moderate_count features = tr_moderate_count r
    /\ drowning_count features = tr_drowning_count r
    /\ reef_cut_count features = tr_reef_cut_count r
    /\ collision_count features = tr_collision_count r
    /\ rip_current_count features = tr_rip_current_count r
    /\ incidents_per_year features = tr_incidents_per_year r.
Proof.
  intros Hrow. apply spot_row_fields in Hrow. cbv zeta in Hrow.
  destruct Hrow as (Ht & Hf & Hs & Hm & Hd & Hr & Hc & Hp & Hy & _).
  unfold calculate_spot_features, mbind, get_db, lift, ret.
  cbn [py_truediv Z.eqb].
  do 2 eexists. split; [ reflexivity | ].
  cbn [total_incidents fatal_count severe_count moderate_count drowning_count
       reef_cut_count collision_count rip_current_count incidents_per_year].
  unfold find_incidents.
  rewrite Ht, Hf, Hs, Hm, Hd, Hr, Hc, Hp, Hy.
  repeat split; reflexivity.
Qed.

(** X17. [is_peak_season] is not the same feature in training and in
    serving.  For a location with month data, training marks the current
    month only when it is a most frequent month, so a training 1 implies a
    serving 1; for a location without month data serving gives 0 while
    training gives 1 exactly in June. *)
Theorem peak_season_training_versus_serving
  (w : World) (spot : string) (r : TrainingRow) :
  spot_row clock (incidents_collection (db w)) spot = Ok (Some r) ->
  exists features hazard_boost,
    calculate_spot_features clock spot w = (Ok (features, hazard_boost), w)
    /\ (incident_months (find_incidents (db w) spot) <> [] ->
        tr_is_peak_season r = 1 -> is_peak_season features = 1)
    /\ (incident_months (find_incidents (db w) spot) = [] ->
        is_peak_season features = 0
        /\ (tr_is_peak_season r = 1 <-> current_month clock = 6)).
Proof.
  intros Hrow. apply spot_row_fields in Hrow. cbv zeta in Hrow.
  destruct Hrow as (_ & _ & _ & _ & _ & _ & _ & _ & _ & Hpeak).
  unfold calculate_spot_features, mbind, get_db, lift, ret.
  cbn [py_truediv Z.eqb].
  do 2 eexists. split; [ reflexivity | ].
  cbn [is_peak_season]. unfold find_incidents in *.
  set (months := incident_months
                   (filter (fun i => String.eqb (i_site i) spot)
                           (incidents_collection (db w)))) in *.
  rewrite Hpeak. split.
  - intros Hne. destruct months as [| m0 ms] eqn:E; [ congruence | ].
    rewrite <- E.
    destruct (existsb (Z.eqb (current_month clock)) (mode months)) eqn:Em;
      [ intros _ | discriminate ].
    apply existsb_exists in Em. destruct Em as [m [Hin Hm]].
    apply mode_In in Hin.
    assert (Hex : existsb (Z.eqb (current_month clock)) months = true)
      by (apply existsb_exists; eauto).
    now rewrite Hex.
  - intros ->. cbn [existsb]. split; [ reflexivity | ].
    rewrite Bool.orb_false_r.
    destruct (Z.eqb_spec (current_month clock) 6); split; congruence.
Qed.

End TrainingAndServing.

Lemma serving_counts_match_training_witness :
  exists features hazard_boost,
    calculate_spot_features sample_clock "Hikkaduwa" sample_world
    = (Ok (features, hazard_boost), sample_world)
    /\ total_incidents features
       = py_add (PyInt 2) (py_mul hazard_boost (PyInt 5))
    /\ fatal_count features = 1
    /\ severe_count features = 0
    /\ moderate_count features = 1
    /\ drowning_count features = 1
    /\ reef_cut_count features = 1
    /\ collision_count features = 0
    /\ rip_current_count features = 0
    /\ incidents_per_year features = PyFloat 0.2.
Proof.
  exact (serving_counts_match_training sample_clock sample_world "Hikkaduwa"
           sample_training_row eq_refl).
Defined.

Lemma peak_season_training_versus_serving_witness :
  exists features hazard_boost,
    calculate_spot_features sample_clock "Hikkaduwa" sample_world
    = (Ok (features, hazard_boost), sample_world)
    /\ (incident_months (find_incidents (db sample_world) "Hikkaduwa") <> [] ->
        TrainModel.tr_is_peak_season sample_training_row = 1 ->
        is_peak_season features = 1)
    /\ (incident_months (find_incidents (db sample_world) "Hikkaduwa") = [] ->
        is_peak_season features = 0
        /\ (TrainModel.tr_is_peak_season sample_training_row = 1
            <-> current_month sample_clock = 6)).
Proof.
  exact (peak_season_training_versus_serving sample_clock sample_world
           "Hikkaduwa" sample_training_row eq_refl).
Defined.

(** * Image analysis *)

Section ImageAnalysis.

Import AnalyzeHazard.

(** X18. The analysis of an image names no hazard exactly when the image
    could not be loaded; in every other case, a failed analysis included,
    it names at least one.  Its suggestion text is never empty. *)
Theorem analysis_always_says_something (cv : result Image) (hazard_type : string) :
  (detectedHazards (analyze_hazard_image cv hazard_type) = []
   <-> cv = Ok Unreadable)
  /\ aiSuggestions (analyze_hazard_image cv hazard_type) <> Text "".
Proof.
  unfold analyze_hazard_image.
  destruct cv as [[| m] | e]; cbn [detectedHazards aiSuggestions].
  - split; [ tauto | discriminate ].
  - unfold analyze_loaded.
    destruct (py_truediv (PyInt (water_pixels m)) (PyInt (rows m * cols m)))
      as [ratio | e]; cbn [bind detectedHazards aiSuggestions].
    + split.
      * split; [ | discriminate ].
        destruct (py_gt _ _), (500 <? variance m)%float, (20 <? _)%float;
          discriminate.
      * unfold hazard_suggestion.
        destruct (500 <? variance m)%float,
                 (contains "rip" (lower hazard_type) || contains "current" (lower hazard_type)),
                 (contains "reef" (lower hazard_type)),
                 (contains "jellyfish" (lower hazard_type));
          discriminate.
    + split; [ split; discriminate | discriminate ].
  - split; [ split; discriminate | discriminate ].
Qed.

End ImageAnalysis.

(** * The update route *)

Section UpdateRouteAnswers.

Variable clock : Clock.
Variable feature_cols : list string.
Variable rf_predict : Row -> result Z.
Variable rf_predict_proba : Row -> result (list float).
Variable update_one : Store -> Z -> SpotUpdate -> result unit * Store.
Variable find : Store -> Documents.Cursor.

Local Abbreviation batch :=
  (Documents.update_all_risk_scores clock feature_cols rf_predict rf_predict_proba
                                    update_one find).
Local Abbreviation update_route :=
  (update_risk clock feature_cols rf_predict rf_predict_proba update_one find).

Lemma update_route_follows_batch (obj : list (string * string)) (w : World) :
  update_route (Ok (Some obj)) w
  = match batch w with
    | (Ok _, w') => (Ok (200, RiskScoresUpdated), w')
    | (Raise e, w') => (Ok (500, UpdateFailed e), w')
    end.
Proof.
  unfold update_risk, try_except, mbind, lift, get_spot_id, ret.
  destruct (batch w) as [[[] | e] w']; reflexivity.
Qed.

(** X19. The update route ignores the spot id of the request: for any JSON
    object as body it runs the batch update of every location, and answers
    200 when the batch returns and 500 with the exception when the batch
    raises.  So it answers 200 when the cursor yields named documents only,
    however many of them failed, and 500 with the KeyError when the cursor
    yields a document without a name.  A body that is not JSON, or is JSON
    null, is answered 500 and nothing is updated. *)
Theorem update_route_ignores_spot_id :
  (forall (obj : list (string * string)) (w : World),
      update_risk clock feature_cols rf_predict rf_predict_proba update_one find
                  (Ok (Some obj)) w
      = match Documents.update_all_risk_scores clock feature_cols rf_predict
                rf_predict_proba update_one find w with
        | (Ok _, w') => (Ok (200, RiskScoresUpdated), w')
        | (Raise e, w') => (Ok (500, UpdateFailed e), w')
        end)
  /\ (forall (obj : list (string * string)) (spots : list SurfSpot) (w : World),
         find (db w) = {| Documents.yielded := map Documents.Named spots;
                          Documents.failure := None |} ->
         update_risk clock feature_cols rf_predict rf_predict_proba update_one find
                     (Ok (Some obj)) w
         = (Ok (200, RiskScoresUpdated),
            batch_closed
              (fold_left (location_outcome clock feature_cols rf_predict
                                           rf_predict_proba update_one)
                         spots (batch_opened w))))
  /\ (forall (obj : list (string * string)) (before : list SurfSpot) (id : Z)
             (rest : list Documents.SpotDoc) (failure : option exn) (w : World),
         find (db w)
         = {| Documents.yielded :=
                map Documents.Named before ++ Documents.Nameless id :: rest;
              Documents.failure := failure |} ->
         update_risk clock feature_cols rf_predict rf_predict_proba update_one find
                     (Ok (Some obj)) w
         = (Ok (500, UpdateFailed (KeyError "name")),
            fold_left (location_outcome clock feature_cols rf_predict
                                        rf_predict_proba update_one)
                      before (batch_opened w)))
  /\ (forall (e : exn) (w : World),
         update_risk clock feature_cols rf_predict rf_predict_proba update_one find
                     (Raise e) w
         = (Ok (500, UpdateFailed e), w))
  /\ (forall w : World,
         exists e,
           update_risk clock feature_cols rf_predict rf_predict_proba update_one
                       find (Ok None) w
           = (Ok (500, UpdateFailed e), w)).
Proof.
  split; [ exact update_route_follows_batch | ].
  split; [ | split; [ | split ] ].
  - intros obj spots w Hfind. rewrite update_route_follows_batch.
    rewrite (documents_batch_outcomes clock feature_cols rf_predict
               rf_predict_proba update_one find spots w Hfind).
    reflexivity.
  - intros obj before id rest failure w Hfind.
    rewrite update_route_follows_batch.
    rewrite (documents_batch_nameless clock feature_cols rf_predict
               rf_predict_proba update_one find before id rest failure w Hfind).
    reflexivity.
  - intros e w. reflexivity.
  - intros w. eexists. reflexivity.
Qed.

End UpdateRouteAnswers.

(** * The batch update on a store kept in memory *)

Section BatchInMemory.

Variable clock : Clock.
Variable feature_cols : list string.
Variable rf_predict : Row -> result Z.
Variable rf_predict_proba : Row -> result (list float).

Local Abbreviation predict' :=
  (predict_risk_score clock feature_cols rf_predict rf_predict_proba).
Local Abbreviation update_spot'' :=
  (update_spot clock feature_cols rf_predict rf_predict_proba mem_update_one).

Lemma find_id_by_keys (name : string) (l1 l2 : list SurfSpot) :
  map s_id l1 = map s_id l2 ->
  map s_name l1 = map s_name l2 ->
  option_map s_id (List.find (fun s => String.eqb (s_name s) name) l1)
  = option_map s_id (List.find (fun s => String.eqb (s_name s) name) l2).
Proof.
  revert l2. induction l1 as [| a l1 IH]; intros [| b l2] Hid Hname;
    try discriminate; [ reflexivity | ].
  cbn [map] in Hid, Hname. injection Hid as Ha Hid. injection Hname as Hb Hname.
  cbn [List.find]. rewrite Hb.
  destruct (String.eqb (s_name b) name); [ cbn [option_map]; now rewrite Ha | ].
  now apply IH.
Qed.

Lemma features_depend_on_keys (name : string) (w1 w2 : World) :
  incidents_collection (db w1) = incidents_collection (db w2) ->
  hazard_reports_collection (db w1) = hazard_reports_collection (db w2) ->
  map s_id (surf_spots_collection (db w1)) = map s_id (surf_spots_collection (db w2)) ->
  map s_name (surf_spots_collection (db w1)) = map s_name (surf_spots_collection (db w2)) ->
  fst (calculate_spot_features clock name w1)
  = fst (calculate_spot_features clock name w2).
Proof.
  intros Hinc Hhaz Hid Hname.
  unfold calculate_spot_features, mbind, get_db, lift, ret.
  cbn [py_truediv Z.eqb fst].
  unfold find_incidents, find_recent_hazards, find_one_spot.
  rewrite Hinc, Hhaz.
  pose proof (find_id_by_keys name _ _ Hid Hname) as Hfind.
  destruct (List.find _ (surf_spots_collection (db w1))) as [s1 | ];
    destruct (List.find _ (surf_spots_collection (db w2))) as [s2 | ];
    cbn [option_map] in Hfind; try discriminate; [ | reflexivity ].
  injection Hfind as ->. reflexivity.
Qed.

Lemma prediction_depends_on_keys (name : string) (w1 w2 : World) :
  incidents_collection (db w1) = incidents_collection (db w2) ->
  hazard_reports_collection (db w1) = hazard_reports_collection (db w2) ->
  map s_id (surf_spots_collection (db w1)) = map s_id (surf_spots_collection (db w2)) ->
  map s_name (surf_spots_collection (db w1)) = map s_name (surf_spots_collection (db w2)) ->
  fst (predict' name w1) = fst (predict' name w2).
Proof.
  intros Hinc Hhaz Hid Hname.
  pose proof (features_depend_on_keys name w1 w2 Hinc Hhaz Hid Hname) as Hf.
  destruct (calculate_spot_features_returns clock name w1) as (f1 & H1 & _).
  destruct (calculate_spot_features_returns clock name w2) as (f2 & H2 & _).
  rewrite H1, H2 in Hf. cbn [fst] in Hf. injection Hf as -> Hb.
  unfold predict_risk_score, mbind. rewrite H1, H2, Hb.
  unfold lift, ret.
  destruct (rf_predict _) as [level | e]; [ | reflexivity ].
  destruct (rf_predict_proba _) as [proba | e]; [ | reflexivity ].
  destruct (pick_confidence level proba) as [conf | e]; [ | reflexivity ].
  destruct (fixed_level_and_flag _). reflexivity.
Qed.

Lemma set_spot_keys (l : list SurfSpot) (id : Z) (u : SpotUpdate) :
  map s_id (set_spot l id u) = map s_id l
  /\ map s_name (set_spot l id u) = map s_name l.
Proof.
  induction l as [| s l [IH1 IH2]]; [ split; reflexivity | ].
  cbn [set_spot]. destruct (s_id s =? id); cbn [map s_id s_name].
  - split; reflexivity.
  - now rewrite IH1, IH2.
Qed.

Lemma set_spot_skips (done rest : list SurfSpot) (s : SurfSpot) (u : SpotUpdate) :
  ~ In (s_id s) (map s_id done) ->
  set_spot (done ++ s :: rest) (s_id s) u
  = done ++ {| s_id := s_id s;
               s_name := s_name s;
               s_riskScore := Some (u_riskScore u);
               s_riskLevel := Some (u_riskLevel u);
               s_flagColor := Some (u_flagColor u);
               s_lastUpdated := Some (u_lastUpdated u) |} :: rest.
Proof.
  induction done as [| x done IH]; intros Hnot.
  - cbn [app set_spot]. now rewrite Z.eqb_refl.
  - cbn [app set_spot]. cbn [map In] in Hnot.
    destruct (Z.eqb_spec (s_id x) (s_id s)) as [E | _]; [ tauto | ].
    rewrite IH by tauto. reflexivity.
Qed.

Lemma refreshed_id (w : World) (s : SurfSpot) :
  s_id (refreshed clock feature_cols rf_predict rf_predict_proba w s) = s_id s.
Proof.
  unfold refreshed. destruct (fst _); reflexivity.
Qed.

Lemma writes_refresh_each (w0 : World) (rest done : list SurfSpot) :
  NoDup (map s_id (done ++ rest)) ->
  fold_left (write_refreshed clock feature_cols rf_predict rf_predict_proba w0)
            rest (done ++ rest)
  = done ++ map (refreshed clock feature_cols rf_predict rf_predict_proba w0) rest.
Proof.
  revert done. induction rest as [| s rest IH]; intros done Hnd.
  - cbn [fold_left map]. reflexivity.
  - cbn [fold_left map].
    assert (Hstep :
      write_refreshed clock feature_cols rf_predict rf_predict_proba w0
                      (done ++ s :: rest) s
      = (done ++ [refreshed clock feature_cols rf_predict rf_predict_proba w0 s])
        ++ rest).
    { rewrite <- app_assoc. cbn [app].
      unfold write_refreshed, refreshed.
      destruct (fst (predict' (s_name s) w0)) as [p | e]; [ | reflexivity ].
      apply set_spot_skips.
      rewrite map_app in Hnd. cbn [map] in Hnd.
      apply NoDup_remove_2 in Hnd. intros Hin. apply Hnd.
      apply in_or_app. now left. }
    rewrite Hstep, IH.
    + rewrite <- app_assoc. reflexivity.
    + rewrite <- app_assoc. cbn [app].
      rewrite map_app in *. cbn [map] in *. now rewrite refreshed_id.
Qed.

Lemma update_spot_in_memory (spot : SurfSpot) (w : World) :
  update_spot'' spot w
  = match fst (predict' (s_name spot) w) with
    | Ok prediction =>
        (Ok tt,
         {| db := snd (mem_update_one (db w) (s_id spot)
                         {| u_riskScore := risk_score prediction;
                            u_riskLevel := risk_level prediction;
                            u_flagColor := flag_color prediction;
                            u_lastUpdated := now clock |});
            stdout := stdout w
                      ++ [Updated (s_name spot) (risk_score prediction)
                                  (flag_color prediction)] |})
    | Raise e => (Raise e, w)
    end.
Proof.
  unfold update_spot. unfold mbind at 1.
  pose proof (predict_risk_score_reads_only clock feature_cols rf_predict
                rf_predict_proba (s_name spot) w) as Hw.
  destruct (predict' (s_name spot) w) as [[p | e] w1]; cbn [fst snd] in *; subst w1.
  - unfold mbind, write_back, mem_update_one, print. reflexivity.
  - reflexivity.
Qed.

Lemma update_loop_in_memory (w0 : World) (rest : list SurfSpot) :
  forall w : World,
  incidents_collection (db w) = incidents_collection (db w0) ->
  hazard_reports_collection (db w) = hazard_reports_collection (db w0) ->
  map s_id (surf_spots_collection (db w)) = map s_id (surf_spots_collection (db w0)) ->
  map s_name (surf_spots_collection (db w)) = map s_name (surf_spots_collection (db w0)) ->
  exists w',
    for_each rest
      (fun spot => try_except (update_spot'' spot)
                              (fun e => print (ErrorUpdating (s_name spot) e))) w
    = (Ok tt, w')
    /\ incidents_collection (db w') = incidents_collection (db w0)
    /\ hazard_reports_collection (db w') = hazard_reports_collection (db w0)
    /\ surf_spots_collection (db w')
       = fold_left (write_refreshed clock feature_cols rf_predict rf_predict_proba w0)
                   rest (surf_spots_collection (db w)).
Proof.
  induction rest as [| s rest IH]; intros w Hinc Hhaz Hid Hname.
  - exists w. cbn [for_each fold_left]. unfold ret. auto.
  - cbn [for_each fold_left]. unfold mbind at 1, try_except.
    rewrite update_spot_in_memory.
    rewrite (prediction_depends_on_keys (s_name s) w w0 Hinc Hhaz Hid Hname).
    unfold write_refreshed at 2.
    destruct (fst (predict' (s_name s) w0)) as [p | e].
    + apply IH; cbn [db snd mem_update_one incidents_collection
                     hazard_reports_collection surf_spots_collection];
        try assumption.
      * now rewrite (proj1 (set_spot_keys _ _ _)).
      * now rewrite (proj2 (set_spot_keys _ _ _)).
    + unfold print at 1.
      destruct (IH {| db := db w;
                      stdout := stdout w ++ [ErrorUpdating (s_name s) e] |}
                   Hinc Hhaz Hid Hname) as (w' & Hrun & Hi & Hh & Hs).
      exists w'. auto.
Qed.

(** X20. On a store kept in memory whose locations have distinct
    identifiers, the batch update leaves incidents and hazard reports as
    they were and turns the registry into the same list of locations, each
    carrying the prediction made for it on the store as it was before the
    update, stamped with the current time; a location whose prediction
    raised keeps its old entry. *)
Theorem batch_update_refreshes_each_location (w : World) :
  NoDup (map s_id (surf_spots_collection (db w))) ->
  exists w',
    update_all_risk_scores clock feature_cols rf_predict rf_predict_proba
                           mem_update_one w = (Ok tt, w')
    /\ incidents_collection (db w') = incidents_collection (db w)
    /\ hazard_reports_collection (db w') = hazard_reports_collection (db w)
    /\ surf_spots_collection (db w')
       = map (refreshed clock feature_cols rf_predict rf_predict_proba w)
             (surf_spots_collection (db w)).
Proof.
  intros Hnd. unfold update_all_risk_scores.
  unfold mbind at 1. unfold print at 1.
  unfold mbind at 1. unfold get_db. cbn [db].
  unfold mbind at 1.
  destruct (update_loop_in_memory w (surf_spots_collection (db w))
              {| db := db w;
                 stdout := stdout w ++ [Banner "Updating risk scores for all surf spots..."] |}
              eq_refl eq_refl eq_refl eq_refl)
    as (w1 & Hrun & Hinc & Hhaz & Hspots).
  rewrite Hrun. unfold print.
  eexists. split; [ reflexivity | ].
  cbn [db]. split; [ exact Hinc | ]. split; [ exact Hhaz | ].
  rewrite Hspots. cbn [db].
  exact (writes_refresh_each w (surf_spots_collection (db w)) [] Hnd).
Qed.

End BatchInMemory.

Lemma batch_update_refreshes_each_location_witness :
  NoDup (map s_id (surf_spots_collection (db sample_world)))
  /\ exists w',
       update_all_risk_scores sample_clock sample_cols sample_predict
         sample_predict_proba mem_update_one sample_world = (Ok tt, w')
       /\ incidents_collection (db w') = incidents_collection (db sample_world)
       /\ hazard_reports_collection (db w')
          = hazard_reports_collection (db sample_world)
       /\ surf_spots_collection (db w')
          = map (refreshed sample_clock sample_cols sample_predict
                           sample_predict_proba sample_world)
                (surf_spots_collection (db sample_world)).
Proof.
  assert (Hnd : NoDup (map s_id (surf_spots_collection (db sample_world)))).
  { cbn. repeat constructor; cbn; intuition discriminate. }
  split; [ exact Hnd | ].
  exact (batch_update_refreshes_each_location sample_clock sample_cols
           sample_predict sample_predict_proba sample_world Hnd).
Defined.

(** * The engine's self-check *)

Section EngineSelfCheck.

Import SkillRiskEngine SkillRiskCheck.

(** X21. The engine's self-check passes: with the manual scores and the
    skill thresholds the beginner and intermediate tiers give exactly the
    expected green, yellow and red locations, and every location is green
    for advanced surfers. *)
Theorem engine_self_check_passes :
  verify_expected_results = true
  /\ tier_matches r_beginner expected_beginner calculate_skill_based_risks = true
  /\ tier_matches r_intermediate expected_intermediate
                  calculate_skill_based_risks = true
  /\ Forall (fun r => t_flag (r_advanced r) = "green"%string)
            calculate_skill_based_risks.
Proof.
  split; [ vm_compute; reflexivity | ].
  split; [ vm_compute; reflexivity | ].
  split; [ vm_compute; reflexivity | ].
  unfold calculate_skill_based_risks, MANUAL_RISK_SCORES. cbn [map fst snd].
  repeat constructor.
Qed.

End EngineSelfCheck.
